(** * A shallow embedding of the currency-rate query service

    The development follows the packages of the repository:
    - [time]: the fragment of Go's [time] package the service relies on
      (civil dates, [Date], [Parse] and [Format] for the two layouts used);
    - [currency_helpers]: the value types and the [CustomTime] JSON codec;
    - [cache]: the Redis-backed [Cache] implementation;
    - [service]: the four HTTP handlers. *)

From Stdlib Require Import ZArith Lia String Ascii List PrimFloat.
From stdpp Require Import gmap strings list sorting.

Local Open Scope Z_scope.

(** ** Machine integers *)

(** Go's [uint64] and [int64] conversions, with the wrap-around written out. *)
Definition u64 (x : Z) : Z := x mod 2 ^ 64.
Definition i64 (x : Z) : Z := (x + 2 ^ 63) mod 2 ^ 64 - 2 ^ 63.

(** [float64] values are only stored and passed on by the service. *)
Abbreviation float64 := PrimFloat.float.

(** Go's [error] values are kept as their message. *)
Definition error := string.

Inductive result (A : Type) : Type :=
| Ok (a : A)
| Err (e : error).
Arguments Ok {A} a.
Arguments Err {A} e.

(** [errors.Wrap(err, msg)] of github.com/pkg/errors. *)
Definition Wrap (err : error) (msg : string) : error :=
  (msg +:+ ": " +:+ err)%string.

(** ** Package [time] *)

Module time.

(** A [Time] without monotonic clock reading, in UTC: [wall] holds the
    nanoseconds within the second and [ext] the seconds since January 1,
    year 1 00:00:00 UTC.  Every [Time] the service stores is built by
    [Date] in UTC or parsed from a zone-less layout. *)
Record Time : Type := mkTime { wall : Z; ext : Z }.

(** [time.Time{}] *)
Definition zero : Time := mkTime 0 0.

Definition sec (t : Time) : Z := ext t.
Definition nsec (t : Time) : Z := wall t.

Definition secondsPerMinute : Z := 60.
Definition secondsPerHour : Z := 60 * secondsPerMinute.
Definition secondsPerDay : Z := 24 * secondsPerHour.
Definition daysPer400Years : Z := 365 * 400 + 97.
Definition daysPer100Years : Z := 365 * 100 + 24.
Definition daysPer4Years : Z := 365 * 4 + 1.

Definition absoluteZeroYear : Z := -292277022399.
Definition internalYear : Z := 1.
(** [(absoluteZeroYear - internalYear) * 365.2425 * secondsPerDay] *)
Definition absoluteToInternal : Z := -9223371966579724800.
Definition internalToAbsolute : Z := - absoluteToInternal.
Definition unixToInternal : Z :=
  (1969 * 365 + 1969 / 4 - 1969 / 100 + 1969 / 400) * secondsPerDay.
Definition internalToUnix : Z := - unixToInternal.

Definition January : Z := 1.
Definition February : Z := 2.
Definition March : Z := 3.

Definition daysBefore : list Z :=
  [0; 31; 31 + 28; 31 + 28 + 31; 31 + 28 + 31 + 30; 31 + 28 + 31 + 30 + 31;
   31 + 28 + 31 + 30 + 31 + 30; 31 + 28 + 31 + 30 + 31 + 30 + 31;
   31 + 28 + 31 + 30 + 31 + 30 + 31 + 31;
   31 + 28 + 31 + 30 + 31 + 30 + 31 + 31 + 30;
   31 + 28 + 31 + 30 + 31 + 30 + 31 + 31 + 30 + 31;
   31 + 28 + 31 + 30 + 31 + 30 + 31 + 31 + 30 + 31 + 30;
   31 + 28 + 31 + 30 + 31 + 30 + 31 + 31 + 30 + 31 + 30 + 31].

(** [daysBefore[i]] *)
Definition daysBefore_at (i : Z) : Z := nth (Z.to_nat i) daysBefore 0.

Definition isLeap (year : Z) : bool :=
  (Z.rem year 4 =? 0) && (negb (Z.rem year 100 =? 0) || (Z.rem year 400 =? 0)).

Definition daysIn (m year : Z) : Z :=
  if (m =? February) && isLeap year then 29
  else daysBefore_at m - daysBefore_at (m - 1).

(** [norm] returns [nhi, nlo] with [hi * base + lo == nhi * base + nlo] and
    [0 <= nlo < base]; the divisions are on non-negative operands. *)
Definition norm (hi lo base : Z) : Z * Z :=
  let '(hi, lo) :=
    if lo <? 0 then
      let n := (- lo - 1) / base + 1 in (hi - n, lo + n * base)
    else (hi, lo) in
  if lo >=? base then
    let n := lo / base in (hi + n, lo - n * base)
  else (hi, lo).

Definition daysSinceEpoch (year : Z) : Z :=
  let y := u64 (year - absoluteZeroYear) in
  (* Add in days from 400-year cycles. *)
  let n := y / 400 in
  let y := y - 400 * n in
  let d := daysPer400Years * n in
  (* Add in 100-year cycles. *)
  let n := y / 100 in
  let y := y - 100 * n in
  let d := d + daysPer100Years * n in
  (* Add in 4-year cycles. *)
  let n := y / 4 in
  let y := y - 4 * n in
  let d := d + daysPer4Years * n in
  (* Add in non-leap years. *)
  let n := y in
  d + 365 * n.

(** [time.Date(year, month, day, hour, min, sec, nsec, time.UTC)] *)
Definition Date (year month day hour min sec nsec : Z) : Time :=
  (* Normalize month, overflowing into year. *)
  let m := month - 1 in
  let '(year, m) := norm year m 12 in
  let month := m + 1 in
  (* Normalize nsec, sec, min, hour, overflowing into day. *)
  let '(sec, nsec) := norm sec nsec 1000000000 in
  let '(min, sec) := norm min sec 60 in
  let '(hour, min) := norm hour min 60 in
  let '(day, hour) := norm day hour 24 in
  (* Compute days since the absolute epoch. *)
  let d := daysSinceEpoch year in
  (* Add in days before this month. *)
  let d := u64 (d + daysBefore_at (month - 1)) in
  let d := if isLeap year && (month >=? March) then u64 (d + 1) else d in
  (* Add in days before today. *)
  let d := u64 (d + u64 (day - 1)) in
  (* Add in time elapsed today. *)
  let abs := u64 (d * secondsPerDay) in
  let abs :=
    u64 (abs + u64 (hour * secondsPerHour + min * secondsPerMinute + sec)) in
  let unix := i64 (i64 abs + (absoluteToInternal + internalToUnix)) in
  (* unixTime(unix, nsec), in UTC *)
  mkTime nsec (i64 (unix + unixToInternal)).

Definition unixSec (t : Time) : Z := i64 (sec t + internalToUnix).

(** [t.abs()]: seconds since the absolute zero year. *)
Definition abs (t : Time) : Z :=
  u64 (unixSec t + (unixToInternal + internalToAbsolute)).

(** [absDate(abs, true)] returns [(year, month, day, yday)]. *)
Definition absDate (abs : Z) : Z * Z * Z * Z :=
  (* Split into time and day. *)
  let d := abs / secondsPerDay in
  (* Account for 400 year cycles. *)
  let n := d / daysPer400Years in
  let y := 400 * n in
  let d := d - daysPer400Years * n in
  (* Cut off 100-year cycles. *)
  let n := d / daysPer100Years in
  let n := n - Z.shiftr n 2 in
  let y := y + 100 * n in
  let d := d - daysPer100Years * n in
  (* Cut off 4-year cycles. *)
  let n := d / daysPer4Years in
  let y := y + 4 * n in
  let d := d - daysPer4Years * n in
  (* Cut off years within a 4-year cycle. *)
  let n := d / 365 in
  let n := n - Z.shiftr n 2 in
  let y := y + n in
  let d := d - 365 * n in
  let year := i64 (i64 y + absoluteZeroYear) in
  let yday := d in
  let day := yday in
  let leapDay := isLeap year && (day =? 31 + 29 - 1) in
  if leapDay then (year, February, 29, yday)
  else
    (* After leap day; pretend it wasn't there. *)
    let day := if isLeap year && (day >? 31 + 29 - 1) then day - 1 else day in
    (* Estimate month on assumption that every month has 31 days. *)
    let month := day / 31 in
    let end_ := daysBefore_at (month + 1) in
    let '(month, begin) :=
      if day >=? end_ then (month + 1, end_)
      else (month, daysBefore_at month) in
    let month := month + 1 in (* because January is 1 *)
    let day := day - begin + 1 in
    (year, month, day, yday).

(** [t.Date()] *)
Definition Date_of (t : Time) : Z * Z * Z :=
  let '(year, month, day, _) := absDate (abs t) in (year, month, day).

Definition Year (t : Time) : Z := let '(y, _, _) := Date_of t in y.
Definition Month (t : Time) : Z := let '(_, m, _) := Date_of t in m.
Definition Day (t : Time) : Z := let '(_, _, d) := Date_of t in d.

(** [t.UnixNano()] *)
Definition UnixNano (t : Time) : Z :=
  i64 (i64 (i64 (sec t + internalToUnix) * 1000000000) + nsec t).

(** [t.Equal(u)], [t.After(u)], [t.Before(u)] for times without monotonic
    reading. *)
Definition Equal (t u : Time) : bool :=
  (sec t =? sec u) && (nsec t =? nsec u).
Definition After (t u : Time) : bool :=
  (sec t >? sec u) || ((sec t =? sec u) && (nsec t >? nsec u)).
Definition Before (t u : Time) : bool :=
  (sec t <? sec u) || ((sec t =? sec u) && (nsec t <? nsec u)).

(** [t.AddDate(years, months, days)] *)
Definition AddDate (t : Time) (years months days : Z) : Time :=
  let '(year, month, day) := Date_of t in
  let s := abs t mod secondsPerDay in
  Date (year + years) (month + months) (day + days)
       (s / secondsPerHour) (s mod secondsPerHour / secondsPerMinute)
       (s mod secondsPerMinute) (nsec t).

(** *** Decimal text *)

(** [byte('0' + u)] *)
Definition digitChar (u : Z) : ascii := ascii_of_N (Z.to_N (48 + u)).
(** [int(c - '0')] *)
Definition digitVal (c : ascii) : Z := Z.of_N (N_of_ascii c) - 48.
(** ['0' <= c && c <= '9'] *)
Definition isDigitChar (c : ascii) : bool :=
  (48 <=? Z.of_N (N_of_ascii c)) && (Z.of_N (N_of_ascii c) <=? 57).

(** [isDigit(s, i)] *)
Definition isDigit (s : string) (i : nat) : bool :=
  match String.get i s with
  | Some c => isDigitChar c
  | None => false
  end.

(** The digit loop of [appendInt]; [buf] has room for 20 digits, which a
    [uint] never exceeds. *)
Fixpoint appendInt_digits (room : nat) (u : Z) (buf : string) : string :=
  match room with
  | O => buf
  | S room =>
      if u >=? 10 then
        let q := u / 10 in
        appendInt_digits room q (String (digitChar (u - q * 10)) buf)
      else String (digitChar u) buf
  end.

Fixpoint zeros (n : nat) : string :=
  match n with
  | O => EmptyString
  | S n => String "0" (zeros n)
  end.

(** [appendInt(b, x, width)], as the text appended to [b]. *)
Definition appendInt (x : Z) (width : nat) : string :=
  let sign := if x <? 0 then "-" else "" in
  let u := if x <? 0 then u64 (- x) else u64 x in
  let buf := appendInt_digits 20 u EmptyString in
  sign +:+ zeros (width - String.length buf) +:+ buf.

(** [t.Format("2006-01-02")] *)
Definition Format_2006_01_02 (t : Time) : string :=
  let '(year, month, day) := Date_of t in
  appendInt year 4 +:+ "-" +:+ appendInt month 2 +:+ "-" +:+ appendInt day 2.

(** [t.Format("02.01.2006")] *)
Definition Format_02_01_2006 (t : Time) : string :=
  let '(year, month, day) := Date_of t in
  appendInt day 2 +:+ "." +:+ appendInt month 2 +:+ "." +:+ appendInt year 4.

(** *** Parsing with the layout ["2006-01-02"] *)

Definition errBad : error := "bad value for field".
Definition errAtoi : error := "time: invalid number".

(** [leadingInt] consumes the leading [0-9]* of [s], continuing from [x]. *)
Fixpoint leadingInt_from (x : Z) (s : string) : result (Z * string) :=
  match s with
  | EmptyString => Ok (x, s)
  | String c rest =>
      if isDigitChar c then
        if x >? 2 ^ 63 / 10 then Err "time: bad [0-9]*"
        else
          let x := x * 10 + digitVal c in
          if x >? 2 ^ 63 then Err "time: bad [0-9]*"
          else leadingInt_from x rest
      else Ok (x, s)
  end.

Definition leadingInt (s : string) : result (Z * string) := leadingInt_from 0 s.

Definition atoi (s : string) : result Z :=
  let '(neg, s) :=
    match s with
    | String "-" rest => (true, rest)
    | String "+" rest => (false, rest)
    | _ => (false, s)
    end in
  match leadingInt s with
  | Ok (q, EmptyString) => Ok (if neg : bool then - q else q)
  | _ => Err errAtoi
  end.

(** [getnum(s, fixed)] *)
Definition getnum (s : string) (fixed : bool) : result (Z * string) :=
  if negb (isDigit s 0) then Err errBad
  else if negb (isDigit s 1) then
    if fixed then Err errBad
    else
      match s with
      | String c0 rest => Ok (digitVal c0, rest)
      | EmptyString => Err errBad
      end
  else
    match s with
    | String c0 (String c1 rest) => Ok (digitVal c0 * 10 + digitVal c1, rest)
    | _ => Err errBad
    end.

(** [skip(value, prefix)] for a prefix without spaces. *)
Fixpoint skip (value prefix : string) : result string :=
  match prefix with
  | EmptyString => Ok value
  | String p prefix =>
      match value with
      | String v value => if Ascii.eqb v p then skip value prefix else Err errBad
      | EmptyString => Err errBad
      end
  end.

(** [time.Parse("2006-01-02", value)]: the chunks of the layout are
    [stdLongYear], ["-"], [stdZeroMonth], ["-"], [stdZeroDay].  On error
    Go returns [Time{}] along with the error. *)
Definition Parse_2006_01_02 (value : string) : result Time :=
  (* stdLongYear *)
  if (String.length value <? 4)%nat || negb (isDigit value 0) then Err errBad
  else
    let p := substring 0 4 value in
    let value := substring 4 (String.length value - 4) value in
    match atoi p with
    | Err e => Err e
    | Ok year =>
    match skip value "-" with
    | Err e => Err e
    | Ok value =>
    (* stdZeroMonth *)
    match getnum value true with
    | Err e => Err e
    | Ok (month, value) =>
    if (month <=? 0) || (12 <? month) then Err "month out of range"
    else
    match skip value "-" with
    | Err e => Err e
    | Ok value =>
    (* stdZeroDay *)
    match getnum value true with
    | Err e => Err e
    | Ok (day, value) =>
    if negb (String.length value =? 0)%nat then Err "extra text"
    else
    (* Validate the day of the month. *)
    if (day <? 1) || (day >? daysIn month year) then Err "day out of range"
    else Ok (Date year month day 0 0 0 0)
    end end end end end.

End time.

#[global] Instance Time_eq_dec : EqDecision time.Time.
Proof. solve_decision. Defined.

#[global] Instance Time_countable : Countable time.Time.
Proof.
  refine (inj_countable' (λ t, (time.wall t, time.ext t))
                         (λ p, time.mkTime p.1 p.2) _).
  by intros [].
Defined.

(** ** Go values *)

(** A slice is [nil] or holds elements. *)
Definition slice (A : Type) : Type := option (list A).

(** The zero value of a Go type. *)
Class Zero (A : Type) : Type := zero_value : A.
#[global] Instance slice_zero {A} : Zero (slice A) := None.
#[global] Instance bool_zero : Zero bool := false.
#[global] Instance string_zero : Zero string := EmptyString.
#[global] Instance gmap_zero `{Countable K} {V} : Zero (gmap K V) :=
  (∅ : gmap K V).

Definition quote : string := String (ascii_of_N 34) EmptyString.
Definition newline : string := String (ascii_of_N 10) EmptyString.

(** ** Package [strings] *)

Module strings.

Fixpoint TrimLeft (s : string) (c : ascii) : string :=
  match s with
  | String a rest => if Ascii.eqb a c then TrimLeft rest c else s
  | EmptyString => s
  end.

Definition TrimRight (s : string) (c : ascii) : string :=
  String.rev (TrimLeft (String.rev s) c).

(** [strings.Trim(s, cutset)] for a cutset of one character. *)
Definition Trim (s : string) (c : ascii) : string :=
  TrimRight (TrimLeft s c) c.

End strings.

(** ** Package [encoding/json]

    The text of a JSON document is produced and read by [encoding/json];
    the service only relies on it through [Marshal] and [Unmarshal], so the
    codec of each Go type is a parameter.  What is fixed here is the rule
    for the literal [null]: unmarshalling it leaves the destination at its
    zero value and reports no error. *)

Module json.

Class JSON (A : Type) : Type := {
  encode : A → result string;
  decode : string → result A;
}.

Definition Marshal {A} `{JSON A} (v : A) : result string := encode v.

(** [json.Unmarshal(data, &v)] for a freshly declared [v]. *)
Definition Unmarshal {A} `{JSON A} `{Zero A} (data : string) : result A :=
  if String.eqb data "null" then Ok zero_value else decode data.

End json.

(** ** Package [currency_helpers] *)

Module currency_helpers.

Definition CustomTimeLayout : string := "2006-01-02".

Definition nilTime : Z := time.UnixNano time.zero.

(** [type CustomTime struct { time.Time }] *)
Abbreviation CustomTime := time.Time.

Section CustomTime.

(** [time.Parse(time.RFC3339, s)] *)
Variable Parse_RFC3339 : string → result time.Time.

(** [(ct *CustomTime) UnmarshalJSON(b)] returns the value left in [ct]
    and the error. *)
Definition UnmarshalJSON (b : string) : CustomTime * option error :=
  let s := strings.Trim b (ascii_of_N 34) in
  if String.eqb s "null" then (time.zero, None)
  else
    match time.Parse_2006_01_02 s with
    | Ok t => (t, None)
    | Err _ =>
        match Parse_RFC3339 s with
        | Ok t => (t, None)
        | Err err => (time.zero, Some err)
        end
    end.

End CustomTime.

(** [(ct *CustomTime) MarshalJSON()]; the error is always [nil]. *)
Definition MarshalJSON (ct : CustomTime) : string :=
  if time.UnixNano ct =? nilTime then "null"
  else quote +:+ time.Format_2006_01_02 ct +:+ quote.

Definition IsSet (ct : CustomTime) : bool :=
  negb (time.UnixNano ct =? nilTime).

Definition Currency := Z.
Definition CurrencyCode := string.

Definition CurrentTimeRateCollection : string := "rate:collection".
Definition AvailableCurrencies : string := "available".
Definition TimeCollection : string := "time:collection".

Record CurrencyRates : Type := {
  cr_Base : CurrencyCode;
  cr_Rates : gmap CurrencyCode float64;
  cr_Date : CustomTime;
}.

Record CurrencyRatesResponse : Type := {
  crr_Success : bool;
  crr_CurrencyRates : option CurrencyRates;
}.

Record CurrencyRate : Type := {
  Base : CurrencyCode;
  Second : CurrencyCode;
  Rate : float64;
  Date : CustomTime;
}.

(** [cr.Rates[currencyCode]] yields the zero value for a missing key. *)
Definition ToResultRate (cr : CurrencyRates) (currencyCode : CurrencyCode)
  : CurrencyRate :=
  {| Base := cr_Base cr;
     Second := currencyCode;
     Rate := default 0%float (cr_Rates cr !! currencyCode);
     Date := cr_Date cr |}.

Record CurrencyTimelineRates : Type := {
  ctrs_Base : CurrencyCode;
  ctrs_Rates : gmap CustomTime (gmap CurrencyCode float64);
  ctrs_StartDate : CustomTime;
  ctrs_EndDate : CustomTime;
}.

Record CurrencyTimelineRatesResponse : Type := {
  ctrr_Success : bool;
  ctrr_CurrencyTimelineRates : option CurrencyTimelineRates;
}.

Record CurrencyTimelineRate : Type := {
  ctr_Base : CurrencyCode;
  ctr_Second : CurrencyCode;
  ctr_Rates : gmap CustomTime float64;
  ctr_Predictions : gmap CustomTime float64;
  ctr_StartDate : CustomTime;
  ctr_EndDate : CustomTime;
}.

Definition ToResultTimelineRates (cr : CurrencyTimelineRates)
    (currencyCode : CurrencyCode) : CurrencyTimelineRate :=
  let rates := (λ rate : gmap CurrencyCode float64,
                  default 0%float (rate !! currencyCode)) <$> ctrs_Rates cr in
  {| ctr_Base := ctrs_Base cr;
     ctr_Second := currencyCode;
     ctr_Rates := rates;
     ctr_Predictions := ∅;
     ctr_StartDate := ctrs_StartDate cr;
     ctr_EndDate := ctrs_EndDate cr |}.

Record CurrencyWithBanStatus : Type := {
  Currency_ : CurrencyCode;
  Banned : bool;
}.

#[global] Instance CurrencyRates_zero : Zero CurrencyRates :=
  {| cr_Base := ""; cr_Rates := ∅; cr_Date := time.zero |}.
#[global] Instance CurrencyRatesResponse_zero : Zero CurrencyRatesResponse :=
  {| crr_Success := false; crr_CurrencyRates := None |}.
#[global] Instance CurrencyTimelineRatesResponse_zero
  : Zero CurrencyTimelineRatesResponse :=
  {| ctrr_Success := false; ctrr_CurrencyTimelineRates := None |}.
#[global] Instance CurrencyTimelineRate_zero : Zero CurrencyTimelineRate :=
  {| ctr_Base := ""; ctr_Second := ""; ctr_Rates := ∅; ctr_Predictions := ∅;
     ctr_StartDate := time.zero; ctr_EndDate := time.zero |}.

End currency_helpers.

(** ** Programs over an interface

    A method that talks to a collaborator is a tree of calls: each call
    [e] of the interface [E] is answered with a value of type [ans e], and
    the rest of the method runs on that answer. *)

Inductive prog (E : Type) (ans : E → Type) (R : Type) : Type :=
| Ret (r : R)
| Call (e : E) (k : ans e → prog E ans R).
Arguments Ret {E ans R} r.
Arguments Call {E ans R} e k.

Fixpoint bind {E ans A B} (m : prog E ans A) (f : A → prog E ans B)
  : prog E ans B :=
  match m with
  | Ret a => f a
  | Call e k => Call e (λ x, bind (k x) f)
  end.

#[global] Instance prog_ret {E ans} : MRet (prog E ans) := λ _ r, Ret r.
#[global] Instance prog_bind {E ans} : MBind (prog E ans) :=
  λ _ _ f m, bind m f.

Definition call {E ans} (e : E) : prog E ans (ans e) := Call e Ret.

(** [run env p] answers every call of [p] with [env] and returns the calls
    made, in order, along with the result. *)
Fixpoint run {E ans R} (env : ∀ e : E, ans e) (p : prog E ans R)
  : list E * R :=
  match p with
  | Ret r => ([], r)
  | Call e k => let '(t, r) := run env (k (env e)) in (e :: t, r)
  end.

(** The result of [run env p] alone. *)
Fixpoint eval {E ans R} (env : ∀ e : E, ans e) (p : prog E ans R) : R :=
  match p with
  | Ret r => r
  | Call e k => eval env (k (env e))
  end.

(** The calls of [run env p] alone. *)
Fixpoint trace {E ans R} (env : ∀ e : E, ans e) (p : prog E ans R) : list E :=
  match p with
  | Ret r => []
  | Call e k => e :: trace env (k (env e))
  end.

(** [exec step p st] runs [p] against collaborators with a state, which
    [step] advances at every call; it returns the calls made, the result
    and the final state. *)
Fixpoint exec {E ans R S} (step : ∀ e : E, S → ans e * S)
    (p : prog E ans R) (st : S) : list E * R * S :=
  match p with
  | Ret r => ([], r, st)
  | Call e k =>
      let '(a, st) := step e st in
      let '(t, r, st) := exec step (k a) st in (e :: t, r, st)
  end.

(** ** The Redis client (github.com/go-redis/redis/v9) *)

Module redis.

(** The error of a command: [redis.Nil] or any other failure. *)
Inductive rerror : Type :=
| Nil
| Failure (msg : string).

Definition Error (e : rerror) : error :=
  match e with
  | Nil => "redis: nil"
  | Failure msg => msg
  end.

(** [cmd.Result()] *)
Inductive reply (A : Type) : Type :=
| Val (val : A)
| Fail (err : rerror).
Arguments Val {A} val.
Arguments Fail {A} err.

Inductive Cmd : Type :=
| Get (key : string)
| Set_ (key value : string) (expiration : Z)
| Del (key : string)
| HGet (key field : string)
| HSet (key field value : string).

Definition ans (c : Cmd) : Type :=
  match c with
  | Get _ => reply string
  | Set_ _ _ _ => reply string
  | Del _ => reply Z
  | HGet _ _ => reply string
  | HSet _ _ _ => reply Z
  end.

(** A reachable server holding plain keys and hashes: [SET] answers [OK],
    [DEL] the number of keys removed, [HSET] the number of fields that
    were added (not those overwritten).  Expiry is not modelled. *)
Record Server : Type := {
  keys : gmap string string;
  hashes : gmap string (gmap string string);
}.

Definition hash_of (st : Server) (key : string) : gmap string string :=
  default ∅ (hashes st !! key).

Definition step (c : Cmd) : Server → ans c * Server :=
  match c as c return Server → ans c * Server with
  | Get key => λ st,
      (match keys st !! key with
       | Some v => Val v
       | None => Fail Nil
       end, st)
  | Set_ key value _ => λ st,
      (Val "OK", {| keys := <[key := value]> (keys st); hashes := hashes st |})
  | Del key => λ st,
      (Val (if bool_decide (is_Some (keys st !! key)) then 1 else 0),
       {| keys := delete key (keys st); hashes := hashes st |})
  | HGet key field => λ st,
      (match hash_of st key !! field with
       | Some v => Val v
       | None => Fail Nil
       end, st)
  | HSet key field value => λ st,
      (Val (if bool_decide (is_Some (hash_of st key !! field)) then 0 else 1),
       {| keys := keys st;
          hashes := <[key := <[field := value]> (hash_of st key)]> (hashes st) |})
  end.

End redis.

(** ** Package [cache] *)

Module cache.

Import currency_helpers.

(** The methods of [type Cache interface]. *)
Inductive Cache : Type :=
| GetAvailableCurrencies
| SetAvailableCurrencies (availableCurrencies : slice CurrencyWithBanStatus)
| CleanCacheForAvailableCurrencies
| GetCurrencyLastRate (currencyCodeBase currencyCodeSecond : CurrencyCode)
| SetCurrencyLastRate (currencyRates : CurrencyRates)
| GetTimestampRate (currencyCodeBase currencyCodeSecond : CurrencyCode)
| SaveTimestampRate (rate : CurrencyTimelineRate).

(** A method returning a pointer and an error yields [Ok None] for
    [nil, nil]; a method returning [error] yields [None] for [nil]. *)
Definition ans (m : Cache) : Type :=
  match m with
  | GetAvailableCurrencies => result (slice CurrencyWithBanStatus)
  | SetAvailableCurrencies _ => option error
  | CleanCacheForAvailableCurrencies => option error
  | GetCurrencyLastRate _ _ => result (option CurrencyRate)
  | SetCurrencyLastRate _ => option error
  | GetTimestampRate _ _ => result (option CurrencyTimelineRate)
  | SaveTimestampRate _ => option error
  end.

(** [type Redis struct { rds *redis.Client }] *)
Module Redis.
Section Redis.

Context `{!json.JSON (slice CurrencyWithBanStatus)}.
Context `{!json.JSON CurrencyRates}.
Context `{!json.JSON CurrencyTimelineRate}.

#[local] Abbreviation rds := (prog redis.Cmd redis.ans).

Definition GetAvailableCurrencies
  : rds (result (slice CurrencyWithBanStatus)) :=
  r ← call (redis.Get AvailableCurrencies);
  match r with
  | redis.Fail redis.Nil => mret (Ok None)
  | redis.Fail err =>
      mret (Err (Wrap (redis.Error err) "error in getting available currencies"))
  | redis.Val jsonData =>
      match json.Unmarshal jsonData with
      | Err err =>
          mret (Err (Wrap err "parse currency currency availability data"))
      | Ok result => mret (Ok result)
      end
  end.

Definition SetAvailableCurrencies
    (availableCurrencies : slice CurrencyWithBanStatus) : rds (option error) :=
  match json.Marshal availableCurrencies with
  | Err err => mret (Some (Wrap err "error in marshal data for redis"))
  | Ok data =>
      r ← call (redis.Set_ AvailableCurrencies data (3600 * 24));
      match r with
      | redis.Fail err =>
          mret (Some (Wrap (redis.Error err) "save available currencies"))
      | redis.Val saved =>
          if String.eqb saved "" then mret (Some "save no info")
          else mret None
      end
  end.

Definition CleanCacheForAvailableCurrencies : rds (option error) :=
  r ← call (redis.Del AvailableCurrencies);
  match r with
  | redis.Fail err =>
      mret (Some (Wrap (redis.Error err) "del available currencies"))
  | redis.Val count =>
      if count =? 0 then mret (Some "deleted no info") else mret None
  end.

Definition GetCurrencyLastRate
    (currencyCodeBase currencyCodeSecond : CurrencyCode)
  : rds (result (option CurrencyRate)) :=
  r ← call (redis.HGet CurrentTimeRateCollection currencyCodeBase);
  match r with
  | redis.Fail redis.Nil => mret (Ok None)
  | redis.Fail err =>
      mret (Err (Wrap (redis.Error err) "get currency last rate error"))
  | redis.Val jsonData =>
      match json.Unmarshal jsonData with
      | Err err => mret (Err (Wrap err "parse currency rate data"))
      | Ok result => mret (Ok (Some (ToResultRate result currencyCodeSecond)))
      end
  end.

Definition SetCurrencyLastRate (currencyRates : CurrencyRates)
  : rds (option error) :=
  match json.Marshal currencyRates with
  | Err err => mret (Some (Wrap err "error in marshal data for redis"))
  | Ok data =>
      r ← call (redis.HSet CurrentTimeRateCollection
                           (cr_Base currencyRates) data);
      match r with
      | redis.Fail err =>
          mret (Some (Wrap (redis.Error err) "save currency last rate"))
      | redis.Val count =>
          if count =? 0 then mret (Some "save no info") else mret None
      end
  end.

Definition GetTimestampRate
    (currencyCodeBase currencyCodeSecond : CurrencyCode)
  : rds (result (option CurrencyTimelineRate)) :=
  r ← call (redis.HGet TimeCollection
              (currencyCodeBase +:+ ":" +:+ currencyCodeSecond));
  match r with
  | redis.Fail redis.Nil => mret (Ok None)
  | redis.Fail err =>
      mret (Err (Wrap (redis.Error err) "get timestamp rate error"))
  | redis.Val jsonData =>
      match json.Unmarshal jsonData with
      | Err err => mret (Err (Wrap err "parse timestamp rate data"))
      | Ok result => mret (Ok (Some result))
      end
  end.

Definition SaveTimestampRate (rate : CurrencyTimelineRate)
  : rds (option error) :=
  match json.Marshal rate with
  | Err err => mret (Some (Wrap err "error in marshal data for redis"))
  | Ok data =>
      r ← call (redis.HSet TimeCollection
                  (ctr_Base rate +:+ ":" +:+ ctr_Second rate) data);
      match r with
      | redis.Fail err =>
          mret (Some (Wrap (redis.Error err) "save currency last rate"))
      | redis.Val count =>
          if count =? 0 then mret (Some "save no info") else mret None
      end
  end.

(** [Redis] implements [Cache]. *)
Definition method (m : Cache) : rds (ans m) :=
  match m with
  | cache.GetAvailableCurrencies => GetAvailableCurrencies
  | cache.SetAvailableCurrencies l => SetAvailableCurrencies l
  | cache.CleanCacheForAvailableCurrencies => CleanCacheForAvailableCurrencies
  | cache.GetCurrencyLastRate b s => GetCurrencyLastRate b s
  | cache.SetCurrencyLastRate r => SetCurrencyLastRate r
  | cache.GetTimestampRate b s => GetTimestampRate b s
  | cache.SaveTimestampRate r => SaveTimestampRate r
  end.

End Redis.
End Redis.

End cache.

(** ** Package [sort] *)

Module sort.
Section SliceStable.

Context {A : Type} (less : A → A → bool).

(** The inner loop of [insertionSort]: the new element moves down past
    its predecessors while [less] holds; [prefix] is the sorted part
    before it, last element first. *)
Fixpoint insert (x : A) (prefix : list A) : list A :=
  match prefix with
  | [] => [x]
  | y :: prefix' => if less x y then y :: insert x prefix' else x :: prefix
  end.

(** [sort.SliceStable(data, less)], as the insertion sort it runs on
    each block. *)
Definition SliceStable (data : list A) : list A :=
  rev (foldl (λ prefix x, insert x prefix) [] data).

End SliceStable.
End sort.

(** ** Package [net/http] *)

Module http.

(** What a handler reads of the inbound request: [r.URL.Query()] and
    [r.Body]. *)
Record Request : Type := {
  Query : gmap string string;
  Body : string;
}.

(** [r.URL.Query().Get(key)] *)
Definition Query_Get (r : Request) (key : string) : string :=
  default "" (Query r !! key).

(** What has been written to the [http.ResponseWriter] when the handler
    returns. *)
Record Response : Type := {
  status : Z;
  contentType : string;
  body : string;
}.

Definition StatusOK : Z := 200.
Definition StatusBadRequest : Z := 400.
Definition StatusInternalServerError : Z := 500.
Definition MethodGet : string := "GET".
Definition MethodPost : string := "POST".

(** [http.Error(w, error, code)] *)
Definition Error (err : string) (code : Z) : Response :=
  {| status := code;
     contentType := "text/plain; charset=utf-8";
     body := err +:+ newline |}.

(** An outbound request of [http.DefaultClient]. *)
Record ClientRequest : Type := {
  Method : string;
  URL : string;
  Header_ContentType : string;
  ReqBody : option string;
}.

End http.

(** ** Package [config] *)

Module config.

Record Config : Type := {
  DBTimeout : Z;
  CacheTimeout : Z;
  ExchangerAPIURL : string;
  ExchangerAPITimeout : Z;
}.

End config.

(** ** Package [service] *)

Module service.

Import currency_helpers.

(** The collaborators of [HttpService]: the cache, the database handle,
    the clock, the HTTP client and the logger.  Deadlines of the contexts
    passed along are not part of a call, and [time.Now()] is read in the
    zone of the server, which is UTC in the container the service is
    deployed in. *)
Inductive Effect : Type :=
| redisCache (m : cache.Cache)
| db_SelectContext (currencies : list CurrencyCode)
| db_ExecContext (currency : CurrencyCode) (banned : bool)
| time_Now
| http_NewRequestWithContext (method url : string) (body : option string)
| client_Do (req : http.ClientRequest)
| log_Printf (msg : string).

Definition ans (e : Effect) : Type :=
  match e with
  | redisCache m => cache.ans m
  | db_SelectContext _ => result (list CurrencyWithBanStatus)
  | db_ExecContext _ _ => option error
  | time_Now => time.Time
  | http_NewRequestWithContext _ _ _ => option error
  | client_Do _ => result string
  | log_Printf _ => unit
  end.

(** A handler returns after writing its response, or panics. *)
Inductive Outcome : Type :=
| Responded (w : http.Response)
| Panicked (msg : string).

#[local] Abbreviation handler := (prog Effect ans Outcome).

Definition respond (w : http.Response) : handler := Ret (Responded w).
Definition http_Error (err : string) (code : Z) : handler :=
  respond (http.Error err code).

(** The body of [ChangeCurrencyBanStatus]'s request. *)
Record BanRequest : Type := {
  req_Currency : CurrencyCode;
  req_Banned : bool;
}.
#[global] Instance BanRequest_zero : Zero BanRequest :=
  {| req_Currency := ""; req_Banned := false |}.

(** [sqlx.In(query, currencies)] rejects an empty slice. *)
Definition sqlx_In (currencies : list CurrencyCode)
  : result (list CurrencyCode) :=
  match currencies with
  | [] => Err "empty slice passed to 'in' query"
  | _ => Ok currencies
  end.

(** The comparison handed to [sort.SliceStable]. *)
Definition less (si sj : CurrencyWithBanStatus) : bool :=
  if negb (Bool.eqb (Banned si) (Banned sj)) then Banned si
  else String.leb (Currency_ si) (Currency_ sj).

(** The freshness test of a cached rate dated [r] at the time [n]. *)
Definition cachedRateIsUsed (r n : time.Time) : bool :=
  let '(rYear, rMonth, rDay) := time.Date_of r in
  let '(nYear, nMonth, nDay) := time.Date_of n in
  (rYear <? nYear)
  || ((rYear =? nYear) && (rMonth <? nMonth))
  || ((rYear =? nYear) && (rMonth =? nMonth) && (rDay =? nDay)).

(** The test selecting the entries of a timeline for the response. *)
Definition inPeriod (startDate endDate t : time.Time) : bool :=
  time.Equal t startDate || (time.After t startDate && time.Before t endDate).

#[global] Instance inPeriod_entry_dec (startDate endDate : time.Time) :
  ∀ kv : time.Time * float64,
    Decision (inPeriod startDate endDate kv.1 = true).
Proof. intros kv. apply _. Defined.

(** The loop filling [predictions]: the value at index [i] is keyed by
    [time.Date(todayY, todayM, todayD+i, 0, 0, 0, 0, time.UTC)]. *)
Definition predictionsOf (todayY todayM todayD : Z)
    (predictedRates : list float64) : gmap CustomTime float64 :=
  (foldl (λ '(i, predictions) rate,
            let t := time.Date todayY todayM (todayD + i) 0 0 0 0 in
            (i + 1, <[t := rate]> predictions))
         (0, ∅) predictedRates).2.

Section HttpService.

(** [currency_helpers.CodeToCurrency] *)
Variable CodeToCurrency : gmap CurrencyCode Currency.
(** [s.cfg] *)
Variable cfg : config.Config.

Context `{!json.JSON (slice CurrencyWithBanStatus)}.
Context `{!json.JSON BanRequest}.
Context `{!json.JSON CurrencyRate}.
Context `{!json.JSON CurrencyRatesResponse}.
Context `{!json.JSON CurrencyTimelineRatesResponse}.
Context `{!json.JSON CurrencyTimelineRate}.
Context `{!json.JSON (gmap CustomTime float64)}.
Context `{!json.JSON (slice float64)}.

(** [_, ok := currency_helpers.CodeToCurrency[code]] *)
Definition registered (code : CurrencyCode) : bool :=
  bool_decide (is_Some (CodeToCurrency !! code)).

(** [w.Header().Set("Content-Type", "application/json")] followed by
    [json.NewEncoder(w).Encode(v)]; when encoding fails nothing has been
    written and the handler answers with [http.Error]. *)
Definition Encode {A} `{!json.JSON A} (v : A) (onError : string) : handler :=
  match json.Marshal v with
  | Err err =>
      http_Error (Wrap err onError) http.StatusInternalServerError
  | Ok data =>
      respond {| http.status := http.StatusOK;
                 http.contentType := "application/json";
                 http.body := data +:+ newline |}
  end.

(** [range1] and [range2] are the orders in which the two [range] loops
    visit [CodeToCurrency]. *)
Definition GetAvailableCurrencies (range1 range2 : list CurrencyCode)
    (r : http.Request) : handler :=
  let currencies := range1 in
  res ← call (redisCache cache.GetAvailableCurrencies);
  match res with
  | Err err =>
      http_Error (Wrap err "error in get available currencies")
                 http.StatusInternalServerError
  | Ok (Some availableCurrencies) =>
      Encode (Some availableCurrencies) "error in marshalling currencies"
  | Ok None =>
      match sqlx_In currencies with
      | Err err =>
          http_Error (Wrap err "error in prepare query")
                     http.StatusInternalServerError
      | Ok params =>
          res ← call (db_SelectContext params);
          match res with
          | Err err =>
              http_Error (Wrap err "error in getting currency to ban data")
                         http.StatusInternalServerError
          | Ok curr2ban =>
              let cur2banMap : gmap CurrencyCode CurrencyWithBanStatus :=
                foldl (λ m curr, <[Currency_ curr := curr]> m) ∅ curr2ban in
              let result :=
                (λ curr,
                   match cur2banMap !! curr with
                   | Some v => v
                   | None => {| Currency_ := curr; Banned := false |}
                   end) <$> range2 in
              let result := sort.SliceStable less result in
              err ← call (redisCache
                            (cache.SetAvailableCurrencies (Some result)));
              _ ← match err with
                  | Some err =>
                      call (log_Printf
                              ("error in save available currencies: " +:+ err))
                  | None => mret ()
                  end;
              Encode (Some result) "error in marshalling currencies"
          end
      end
  end.

Definition ChangeCurrencyBanStatus (r : http.Request) : handler :=
  match json.Unmarshal (http.Body r) with
  | Err err =>
      http_Error (Wrap err "error in unmarshalling request")
                 http.StatusBadRequest
  | Ok req =>
      if negb (registered (req_Currency req)) then
        http_Error "invalid currency" http.StatusBadRequest
      else
        err ← call (db_ExecContext (req_Currency req) (req_Banned req));
        match err with
        | Some err =>
            http_Error (Wrap err "error in update currency status")
                       http.StatusInternalServerError
        | None =>
            err ← call (redisCache cache.CleanCacheForAvailableCurrencies);
            _ ← match err with
                | Some err =>
                    call (log_Printf
                            ("error in clean available currencies: " +:+ err))
                | None => mret ()
                end;
            respond {| http.status := http.StatusOK;
                       http.contentType := "";
                       http.body := "" |}
        end
  end.

(** The part of [GetCurrentCurrencyRate] after the request for
    [previousDay] has been prepared; shared by both variants of the
    handler. *)
Definition fetchCurrentRate (url : string)
    (currencyCodeSecond : CurrencyCode) : handler :=
  err ← call (http_NewRequestWithContext http.MethodGet url None);
  match err with
  | Some err =>
      http_Error (Wrap err "error in prepare request")
                 http.StatusInternalServerError
  | None =>
      res ← call (client_Do {| http.Method := http.MethodGet;
                               http.URL := url;
                               http.Header_ContentType := "";
                               http.ReqBody := None |});
      match res with
      | Err err =>
          http_Error (Wrap err "error in get new data")
                     http.StatusInternalServerError
      | Ok exchangerRespBody =>
          match json.Unmarshal exchangerRespBody with
          | Err err =>
              http_Error (Wrap err "internal error in read JSON data")
                         http.StatusInternalServerError
          | Ok updatedCurrencyRates =>
              if negb (crr_Success updatedCurrencyRates) then
                http_Error "unsuccessful getting new rates"
                           http.StatusInternalServerError
              else
                match crr_CurrencyRates updatedCurrencyRates with
                | None => Ret (Panicked "nil pointer dereference")
                | Some currencyRates =>
                    match cr_Rates currencyRates !! currencyCodeSecond with
                    | None =>
                        http_Error ("cannot find rate for '"
                                      +:+ currencyCodeSecond +:+ "'")
                                   http.StatusBadRequest
                    | Some _ =>
                        err ← call (redisCache
                                      (cache.SetCurrencyLastRate currencyRates));
                        _ ← match err with
                            | Some err =>
                                call (log_Printf
                                        ("error in save new rate: " +:+ err))
                            | None => mret ()
                            end;
                        match json.Marshal
                                (ToResultRate currencyRates currencyCodeSecond)
                        with
                        | Err _ =>
                            http_Error "marshal result error"
                                       http.StatusBadRequest
                        | Ok ratesJson =>
                            respond {| http.status := http.StatusOK;
                                       http.contentType := "application/json";
                                       http.body := ratesJson |}
                        end
                    end
                end
          end
      end
  end.

(** The part of [GetCurrentCurrencyRate] up to the decision to fetch;
    [fetch] is what follows. *)
Definition currentRateFromCache (r : http.Request)
    (fetch : CurrencyCode → CurrencyCode → handler) : handler :=
  let currencyCodeBase := http.Query_Get r "base" in
  if negb (registered currencyCodeBase) then
    http_Error "invalid base currency code" http.StatusBadRequest
  else
  let currencyCodeSecond := http.Query_Get r "second" in
  if negb (registered currencyCodeSecond) then
    http_Error "invalid second currency code" http.StatusBadRequest
  else
  res ← call (redisCache
                (cache.GetCurrencyLastRate currencyCodeBase currencyCodeSecond));
  match res with
  | Err err =>
      http_Error (Wrap err "error in get currency rate")
                 http.StatusInternalServerError
  | Ok None => fetch currencyCodeBase currencyCodeSecond
  | Ok (Some currencyRate) =>
      now ← call time_Now;
      if cachedRateIsUsed (Date currencyRate) now then
        Encode currencyRate "error in marshalling result"
      else fetch currencyCodeBase currencyCodeSecond
  end.

Definition GetCurrentCurrencyRate (r : http.Request) : handler :=
  currentRateFromCache r (λ currencyCodeBase currencyCodeSecond,
    nowY ← call time_Now;
    nowM ← call time_Now;
    nowD ← call time_Now;
    let '(todayY, todayM, todayD) :=
      (time.Year nowY, time.Month nowM, time.Day nowD) in
    let previousDay := time.Date todayY todayM (todayD - 1) 0 0 0 0 in
    fetchCurrentRate
      (config.ExchangerAPIURL cfg +:+ "/"
         +:+ time.Format_02_01_2006 previousDay
         +:+ "?base=" +:+ currencyCodeBase +:+ "&places=4")
      currencyCodeSecond).

(** The end of [GetTimelineCurrencyRate]: the entries of the series in
    the requested period, with the predictions and the requested dates. *)
Definition timelineResult (currencyRate : CurrencyTimelineRate)
    (startDate endDate : time.Time) : CurrencyTimelineRate :=
  let timelineRates :=
    filter (λ kv : CustomTime * float64,
              inPeriod startDate endDate kv.1 = true)
           (ctr_Rates currencyRate) in
  {| ctr_Base := ctr_Base currencyRate;
     ctr_Second := ctr_Second currencyRate;
     ctr_Rates := timelineRates;
     ctr_Predictions := ctr_Predictions currencyRate;
     ctr_StartDate := startDate;
     ctr_EndDate := endDate |}.

(** The validation opening both variants of [GetTimelineCurrencyRate];
    [rest] is what follows. *)
Definition timelineValidated (r : http.Request)
    (rest : CurrencyCode → CurrencyCode → time.Time → time.Time → handler)
  : handler :=
  let currencyCodeBase := http.Query_Get r "base" in
  if negb (registered currencyCodeBase) then
    http_Error "invalid base currency code" http.StatusBadRequest
  else
  let currencyCodeSecond := http.Query_Get r "second" in
  if negb (registered currencyCodeSecond) then
    http_Error "invalid second currency code" http.StatusBadRequest
  else
  let startDateStr := http.Query_Get r "start" in
  match time.Parse_2006_01_02 startDateStr with
  | Err _ => http_Error "invalid start period date" http.StatusBadRequest
  | Ok startDate =>
  let endDateStr := http.Query_Get r "end" in
  match time.Parse_2006_01_02 endDateStr with
  | Err _ => http_Error "invalid end period date" http.StatusBadRequest
  | Ok endDate => rest currencyCodeBase currencyCodeSecond startDate endDate
  end end.

(** The provider and forecast calls of [GetTimelineCurrencyRate] on a
    cache miss; [rest] receives the timeline to answer from. *)
Definition fetchTimeline (currencyCodeBase currencyCodeSecond : CurrencyCode)
    (rest : CurrencyTimelineRate → handler) : handler :=
  nowY ← call time_Now;
  nowM ← call time_Now;
  nowD ← call time_Now;
  let '(todayY, todayM, todayD) :=
    (time.Year nowY, time.Month nowM, time.Day nowD) in
  let previousDay := time.Date todayY todayM (todayD - 1) 0 0 0 0 in
  let previousYear := time.Date (todayY - 1) todayM todayD 0 0 0 0 in
  let url :=
    config.ExchangerAPIURL cfg +:+ "/timeseries?start_date="
      +:+ time.Format_2006_01_02 previousYear
      +:+ "&end_date=" +:+ time.Format_2006_01_02 previousDay
      +:+ "&base=" +:+ currencyCodeBase
      +:+ "&symbols=" +:+ currencyCodeSecond +:+ "&places=4" in
  err ← call (http_NewRequestWithContext http.MethodGet url None);
  match err with
  | Some err =>
      http_Error (Wrap err "error in prepare request")
                 http.StatusInternalServerError
  | None =>
  res ← call (client_Do {| http.Method := http.MethodGet;
                           http.URL := url;
                           http.Header_ContentType := "";
                           http.ReqBody := None |});
  match res with
  | Err err =>
      http_Error (Wrap err "error in get new data")
                 http.StatusInternalServerError
  | Ok exchangerRespBody =>
  match json.Unmarshal exchangerRespBody with
  | Err err =>
      http_Error (Wrap err "internal error in read JSON data")
                 http.StatusInternalServerError
  | Ok timelineCurrencyRates =>
  if negb (ctrr_Success timelineCurrencyRates) then
    http_Error "unsuccessful getting new rates"
               http.StatusInternalServerError
  else
  match ctrr_CurrencyTimelineRates timelineCurrencyRates with
  | None => Ret (Panicked "nil pointer dereference")
  | Some rates =>
  let currencyRate := ToResultTimelineRates rates currencyCodeSecond in
  match json.Marshal (ctr_Rates currencyRate) with
  | Err err =>
      http_Error (Wrap err "error in prepare data for predictions")
                 http.StatusInternalServerError
  | Ok dataForPredictions =>
  let predictUrl := "https://stbuddy.xyz/predict" in
  err ← call (http_NewRequestWithContext http.MethodPost predictUrl
                (Some dataForPredictions));
  match err with
  | Some _ =>
      (* req.Header.Set on the nil request *)
      Ret (Panicked "nil pointer dereference")
  | None =>
  res ← call (client_Do {| http.Method := http.MethodPost;
                           http.URL := predictUrl;
                           http.Header_ContentType := "application/json";
                           http.ReqBody := Some dataForPredictions |});
  match res with
  | Err err =>
      http_Error (Wrap err "error in get predictions")
                 http.StatusInternalServerError
  | Ok b =>
  match json.Unmarshal b with
  | Err err =>
      http_Error (Wrap err "error in reading predictor response")
                 http.StatusInternalServerError
  | Ok predictedRates =>
  let predictions :=
    predictionsOf todayY todayM todayD (default [] predictedRates) in
  let currencyRate :=
    {| ctr_Base := ctr_Base currencyRate;
       ctr_Second := ctr_Second currencyRate;
       ctr_Rates := ctr_Rates currencyRate;
       ctr_Predictions := predictions;
       ctr_StartDate := ctr_StartDate currencyRate;
       ctr_EndDate := ctr_EndDate currencyRate |} in
  err ← call (redisCache (cache.SaveTimestampRate currencyRate));
  _ ← match err with
      | Some err =>
          call (log_Printf ("error in save timestamp rate: " +:+ err))
      | None => mret ()
      end;
  rest currencyRate
  end end end end end end end end.

Definition GetTimelineCurrencyRate (r : http.Request) : handler :=
  timelineValidated r
    (λ currencyCodeBase currencyCodeSecond startDate endDate,
       let answer currencyRate :=
         Encode (timelineResult currencyRate startDate endDate)
                "error in prepare response date" in
       res ← call (redisCache
                     (cache.GetTimestampRate currencyCodeBase currencyCodeSecond));
       match res with
       | Err err =>
           http_Error (Wrap err "error in get timestamp rate from cache")
                      http.StatusInternalServerError
       | Ok (Some currencyRate) => answer currencyRate
       | Ok None => fetchTimeline currencyCodeBase currencyCodeSecond answer
       end).

End HttpService.

End service.

(** ** Package [http_service]

    The earlier variant of the handlers: [GetAvailableCurrencies] and
    [ChangeCurrencyBanStatus] are those of [service]; the other two differ
    in how the previous day is computed and in the timeline flow, which
    has no cache. *)

Module http_service.

Import currency_helpers.

#[local] Abbreviation handler := (prog service.Effect service.ans service.Outcome).

Section HttpService.

Variable CodeToCurrency : gmap CurrencyCode Currency.
Variable cfg : config.Config.

Context `{!json.JSON (slice CurrencyWithBanStatus)}.
Context `{!json.JSON service.BanRequest}.
Context `{!json.JSON CurrencyRate}.
Context `{!json.JSON CurrencyRatesResponse}.
Context `{!json.JSON CurrencyTimelineRatesResponse}.
Context `{!json.JSON CurrencyTimelineRate}.

Definition GetAvailableCurrencies :=
  service.GetAvailableCurrencies.

Definition ChangeCurrencyBanStatus :=
  service.ChangeCurrencyBanStatus CodeToCurrency.

Definition GetCurrentCurrencyRate (r : http.Request) : handler :=
  service.currentRateFromCache CodeToCurrency r
    (λ currencyCodeBase currencyCodeSecond,
       now ← call service.time_Now;
       service.fetchCurrentRate
         (config.ExchangerAPIURL cfg +:+ "/"
            +:+ time.Format_02_01_2006 (time.AddDate now 0 0 (-1))
            +:+ "?base=" +:+ currencyCodeBase +:+ "&places=4")
         currencyCodeSecond).

Definition GetTimelineCurrencyRate (r : http.Request) : handler :=
  service.timelineValidated CodeToCurrency r
    (λ currencyCodeBase currencyCodeSecond startDate endDate,
       let url :=
         config.ExchangerAPIURL cfg +:+ "/timeseries?start_date="
           +:+ time.Format_2006_01_02 startDate
           +:+ "&end_date=" +:+ time.Format_2006_01_02 endDate
           +:+ "&base=" +:+ currencyCodeBase
           +:+ "&symbols=" +:+ currencyCodeSecond +:+ "&places=4" in
       err ← call (service.http_NewRequestWithContext http.MethodGet url None);
       match err with
       | Some err =>
           service.http_Error (Wrap err "error in prepare request")
                              http.StatusInternalServerError
       | None =>
       res ← call (service.client_Do
                     {| http.Method := http.MethodGet;
                        http.URL := url;
                        http.Header_ContentType := "";
                        http.ReqBody := None |});
       match res with
       | Err err =>
           service.http_Error (Wrap err "error in get new data")
                              http.StatusInternalServerError
       | Ok exchangerRespBody =>
       match json.Unmarshal exchangerRespBody with
       | Err err =>
           service.http_Error (Wrap err "internal error in read JSON data")
                              http.StatusInternalServerError
       | Ok timelineCurrencyRates =>
       if negb (ctrr_Success timelineCurrencyRates) then
         service.http_Error "unsuccessful getting new rates"
                            http.StatusInternalServerError
       else
       match ctrr_CurrencyTimelineRates timelineCurrencyRates with
       | None => Ret (service.Panicked "nil pointer dereference")
       | Some rates =>
           service.Encode (ToResultTimelineRates rates currencyCodeSecond)
                          "error in prepare response date"
       end end end end).

End HttpService.

End http_service.

(** ** The service on a Redis server *)

Module deployment.

Import currency_helpers.

Section Deployment.

Context `{!json.JSON (slice CurrencyWithBanStatus)}.
Context `{!json.JSON CurrencyRates}.
Context `{!json.JSON CurrencyTimelineRate}.

(** The answers of the collaborators other than the cache. *)
Variable env : ∀ e : service.Effect, service.ans e.

(** A call to [s.redisCache] runs the method of [cache.Redis] on the
    server; any other call is answered by [env]. *)
Definition step (e : service.Effect)
  : redis.Server → service.ans e * redis.Server :=
  match e as e return redis.Server → service.ans e * redis.Server with
  | service.redisCache m => λ st,
      let '(_, a, st) := exec redis.step (cache.Redis.method m) st in (a, st)
  | e => λ st, (env e, st)
  end.

Definition serve {R} (p : prog service.Effect service.ans R)
    (st : redis.Server) : list service.Effect * R * redis.Server :=
  exec step p st.

End Deployment.

End deployment.

(** ** Vocabulary of the specification *)

Module spec.

Import currency_helpers.

(** The decimal digit [k] as a character. *)
Definition digit (k : Z) : ascii :=
  nth (Z.to_nat k) ["0"; "1"; "2"; "3"; "4"; "5"; "6"; "7"; "8"; "9"]%char
      "0"%char.

(** The canonical text [YYYY-MM-DD] of a civil date. *)
Definition canonical (y m d : Z) : string :=
  String (digit (y / 1000)) (String (digit (y / 100 mod 10))
  (String (digit (y / 10 mod 10)) (String (digit (y mod 10))
  (String "-" (String (digit (m / 10)) (String (digit (m mod 10))
  (String "-" (String (digit (d / 10)) (String (digit (d mod 10))
  EmptyString))))))))).

(** A civil date of the calendar, with a four-digit year. *)
Definition validDate (y m d : Z) : Prop :=
  0 <= y <= 9999 ∧ 1 <= m <= 12 ∧ 1 <= d <= time.daysIn m y.

(** The JSON string holding [s]. *)
Definition quoted (s : string) : string := quote +:+ s +:+ quote.

(** [t] plus [n] days. *)
Definition addDays (t : time.Time) (n : Z) : time.Time :=
  time.mkTime (time.wall t) (time.ext t + n * 86400).

(** The order the availability list is to be in: banned entries first,
    then by code. *)
Definition bannedFirstThenCode (x y : CurrencyWithBanStatus) : Prop :=
  (Banned x = true ∧ Banned y = false)
  ∨ (Banned x = Banned y ∧ String.ltb (Currency_ x) (Currency_ y) = true).

(** Calls that reach the cache, the ban store or an HTTP server. *)
Definition isIO (e : service.Effect) : bool :=
  match e with
  | service.redisCache _ | service.db_SelectContext _
  | service.db_ExecContext _ _ | service.client_Do _ => true
  | _ => false
  end.

Definition isProviderFetch (e : service.Effect) : bool :=
  match e with
  | service.client_Do _ => true
  | _ => false
  end.

Definition isCacheWrite (e : service.Effect) : bool :=
  match e with
  | service.redisCache (cache.SetAvailableCurrencies _)
  | service.redisCache (cache.SetCurrencyLastRate _)
  | service.redisCache (cache.SaveTimestampRate _)
  | service.redisCache cache.CleanCacheForAvailableCurrencies => true
  | _ => false
  end.

(** A cache write that [env] answers with an error. *)
Definition failedWrite (env : ∀ e : service.Effect, service.ans e)
    (e : service.Effect) : bool :=
  let failed (err : option error) : bool :=
    match err with Some _ => true | None => false end in
  match e as e return service.ans e → bool with
  | service.redisCache (cache.SetAvailableCurrencies _) => failed
  | service.redisCache (cache.SetCurrencyLastRate _) => failed
  | service.redisCache (cache.SaveTimestampRate _) => failed
  | service.redisCache cache.CleanCacheForAvailableCurrencies => failed
  | _ => λ _, false
  end (env e).

(** In the calls [t], every failed cache write is followed at once by a
    call to the logger. *)
Fixpoint failedWritesLogged (env : ∀ e : service.Effect, service.ans e)
    (t : list service.Effect) : bool :=
  match t with
  | [] => true
  | e :: t' =>
      (if failedWrite env e then
         match t' with
         | service.log_Printf _ :: _ => true
         | _ => false
         end
       else true)
      && failedWritesLogged env t'
  end.

(** The four endpoints, in the two variants of the handlers. *)
Inductive variant : Type := Service | HttpService.
Inductive endpoint : Type :=
| Available | ChangeBan | CurrentRate | Timeline.

Section Endpoints.

Variable CodeToCurrency : gmap CurrencyCode Currency.
Variable cfg : config.Config.

Context `{!json.JSON (slice CurrencyWithBanStatus)}.
Context `{!json.JSON service.BanRequest}.
Context `{!json.JSON CurrencyRate}.
Context `{!json.JSON CurrencyRatesResponse}.
Context `{!json.JSON CurrencyTimelineRatesResponse}.
Context `{!json.JSON CurrencyTimelineRate}.
Context `{!json.JSON (gmap CustomTime float64)}.
Context `{!json.JSON (slice float64)}.

(** The handler of an endpoint; [range1] and [range2] are the orders in
    which [GetAvailableCurrencies] visits the registry. *)
Definition handle (v : variant) (ep : endpoint)
    (range1 range2 : list CurrencyCode) (r : http.Request)
  : prog service.Effect service.ans service.Outcome :=
  match v, ep with
  | _, Available => service.GetAvailableCurrencies range1 range2 r
  | _, ChangeBan => service.ChangeCurrencyBanStatus CodeToCurrency r
  | Service, CurrentRate =>
      service.GetCurrentCurrencyRate CodeToCurrency cfg r
  | HttpService, CurrentRate =>
      http_service.GetCurrentCurrencyRate CodeToCurrency cfg r
  | Service, Timeline =>
      service.GetTimelineCurrencyRate CodeToCurrency cfg r
  | HttpService, Timeline =>
      http_service.GetTimelineCurrencyRate CodeToCurrency cfg r
  end.

Definition unknownCode (code : CurrencyCode) : Prop :=
  CodeToCurrency !! code = None.

Definition unparseable (text : string) : Prop :=
  ∃ err, time.Parse_2006_01_02 text = Err err.

(** The request carries a currency code outside the registry or, for
    the timeline, a [start] or [end] that does not parse. *)
Definition invalidRequest (ep : endpoint) (r : http.Request) : Prop :=
  match ep with
  | Available => False
  | ChangeBan =>
      ∃ req, json.Unmarshal (http.Body r) = Ok req
             ∧ unknownCode (service.req_Currency req)
  | CurrentRate =>
      unknownCode (http.Query_Get r "base")
      ∨ unknownCode (http.Query_Get r "second")
  | Timeline =>
      unknownCode (http.Query_Get r "base")
      ∨ unknownCode (http.Query_Get r "second")
      ∨ unparseable (http.Query_Get r "start")
      ∨ unparseable (http.Query_Get r "end")
  end.

End Endpoints.

(** A client fault: the handler answered through [http.Error] with 400. *)
Definition clientFault (p : prog service.Effect service.ans service.Outcome)
  : Prop :=
  ∃ msg, p = Ret (service.Responded (http.Error msg http.StatusBadRequest)).

End spec.

(** ** Examples

    A registry, documents and collaborators to run the handlers on. *)

Module example.

Import currency_helpers.

(** A codec that knows one document: it writes every value as [text] and
    reads [text] back as [v]. *)
Definition codec {A} (text : string) (v : A) : json.JSON A :=
  {| json.encode := λ _, Ok text;
     json.decode := λ data,
       if String.eqb data text then Ok v
       else Err "invalid character looking for beginning of value" |}.

Definition CodeToCurrency : gmap CurrencyCode Currency :=
  {[ "EUR" := 978; "GBP" := 826; "USD" := 840 ]}.

Definition cfg : config.Config :=
  {| config.DBTimeout := 200;
     config.CacheTimeout := 200;
     config.ExchangerAPIURL := "https://api.exchangerate.host";
     config.ExchangerAPITimeout := 5000 |}.

(** The rows of the ban store: EUR and GBP are banned. *)
Definition rows : list CurrencyWithBanStatus :=
  [ {| Currency_ := "GBP"; Banned := true |};
    {| Currency_ := "EUR"; Banned := true |} ].

(** The rates of USD on 2024-01-01, as the provider gave them: EUR only. *)
Definition snapshot : CurrencyRates :=
  {| cr_Base := "USD";
     cr_Rates := {[ "EUR" := 0.875%float ]};
     cr_Date := time.Date 2024 1 1 0 0 0 0 |}.

(** A series of USD in EUR with an entry on each of 2024-01-05,
    2024-01-10, 2024-01-15, 2024-01-20 and 2024-01-25. *)
Definition series : CurrencyTimelineRate :=
  {| ctr_Base := "USD";
     ctr_Second := "EUR";
     ctr_Rates := {[ time.Date 2024 1 5 0 0 0 0 := 0.5%float;
                     time.Date 2024 1 10 0 0 0 0 := 0.625%float;
                     time.Date 2024 1 15 0 0 0 0 := 0.75%float;
                     time.Date 2024 1 20 0 0 0 0 := 0.875%float;
                     time.Date 2024 1 25 0 0 0 0 := 1.125%float ]};
     ctr_Predictions := {[ time.Date 2024 2 1 0 0 0 0 := 1.25%float ]};
     ctr_StartDate := time.Date 2023 2 1 0 0 0 0;
     ctr_EndDate := time.Date 2024 1 31 0 0 0 0 |}.

Definition snapshotText : string := "{base:USD,rates:{EUR:0.875},date:2024-01-01}".
Definition seriesText : string := "{base:USD,second:EUR,rates:{...}}".

#[export] Instance available_json : json.JSON (slice CurrencyWithBanStatus) :=
  codec "[{currency:EUR,banned:true}]"
        (Some [ {| Currency_ := "EUR"; Banned := true |} ]).
#[export] Instance ban_json : json.JSON service.BanRequest :=
  codec "{currency:XXX,banned:true}"
        {| service.req_Currency := "XXX"; service.req_Banned := true |}.
#[export] Instance rate_json : json.JSON CurrencyRate :=
  codec "{base:USD,second:EUR,rate:0.875,date:2024-01-01}"
        (ToResultRate snapshot "EUR").
#[export] Instance rates_json : json.JSON CurrencyRates :=
  codec snapshotText snapshot.
#[export] Instance rates_response_json : json.JSON CurrencyRatesResponse :=
  codec "{success:true,base:USD,rates:{EUR:0.875},date:2024-01-01}"
        {| crr_Success := true; crr_CurrencyRates := Some snapshot |}.
#[export] Instance timeline_response_json
  : json.JSON CurrencyTimelineRatesResponse :=
  codec "{success:false}"
        {| ctrr_Success := false; ctrr_CurrencyTimelineRates := None |}.
#[export] Instance timeline_json : json.JSON CurrencyTimelineRate :=
  codec seriesText series.
#[export] Instance rates_map_json : json.JSON (gmap CustomTime float64) :=
  codec "{2024-01-05:0.5}" (ctr_Rates series).
#[export] Instance forecast_json : json.JSON (slice float64) :=
  codec "[1.25]" (Some [1.25%float]).

(** Collaborators: the clock reads [now]; the cache holds [cached] as the
    last rate of every pair, no availability list and no timeline, and
    answers every write with [writes]; the ban store holds [rows]; every
    outbound request is answered with [provider]. *)
Definition collaborators (now : time.Time) (cached : option CurrencyRate)
    (writes : option error) (provider : result string)
  : ∀ e : service.Effect, service.ans e :=
  λ e,
    match e as e return service.ans e with
    | service.redisCache m =>
        match m as m return cache.ans m with
        | cache.GetAvailableCurrencies => Ok None
        | cache.SetAvailableCurrencies _ => writes
        | cache.CleanCacheForAvailableCurrencies => writes
        | cache.GetCurrencyLastRate _ _ => Ok cached
        | cache.SetCurrencyLastRate _ => writes
        | cache.GetTimestampRate _ _ => Ok None
        | cache.SaveTimestampRate _ => writes
        end
    | service.db_SelectContext _ => Ok rows
    | service.db_ExecContext _ _ => None
    | service.time_Now => now
    | service.http_NewRequestWithContext _ _ _ => None
    | service.client_Do _ => provider
    | service.log_Printf _ => tt
    end.

(** A request for the current rate of [base] in [second]. *)
Definition rateRequest (base second : string) : http.Request :=
  {| http.Query := {[ "base" := base; "second" := second ]};
     http.Body := EmptyString |}.

(** A Redis server that holds [snapshot] as the last rates of USD and
    [series] as the timeline of USD in EUR. *)
Definition server : redis.Server :=
  {| redis.keys := ∅;
     redis.hashes :=
       {[ CurrentTimeRateCollection := {[ "USD" := snapshotText ]};
          TimeCollection := {[ "USD:EUR" := seriesText ]} ]} |}.

(** A Redis client whose every read finds the document [null]. *)
Definition nullDocuments : ∀ c : redis.Cmd, redis.ans c :=
  λ c,
    match c as c return redis.ans c with
    | redis.Get _ => redis.Val "null"
    | redis.Set_ _ _ _ => redis.Val "OK"
    | redis.Del _ => redis.Val 1
    | redis.HGet _ _ => redis.Val "null"
    | redis.HSet _ _ _ => redis.Val 1
    end.

End example.
(** ** Auxiliary definitions

    Notions the statements and proofs below are phrased with. *)

(** The result and the final state of a method run on a Redis server. *)
Definition after {R} (p : prog redis.Cmd redis.ans R) (st : redis.Server)
  : R * redis.Server :=
  let '(_, r, st') := exec redis.step p st in (r, st').

(** The calendar, by cycles of 400, 100 and 4 years. *)
Module calendar.

Import time.

Definition leapZ (b c e : Z) : bool := (e =? 3) && (negb (c =? 24) || (b =? 3)).

Definition cyc (y : Z) : Z * Z * Z * Z :=
  let Y := y - absoluteZeroYear in
  (Y / 400, Y mod 400 / 100, Y mod 100 / 4, Y mod 4).

(* day of the year of a civil date *)
Definition yday_of (leap : bool) (m d : Z) : Z :=
  daysBefore_at (m - 1) + (if leap && (m >=? 3) then 1 else 0) + (d - 1).

Definition monthDay (leap : bool) (yday : Z) : Z * Z :=
  if leap && (yday =? 31 + 29 - 1) then (2, 29)
  else
    let day := if leap && (yday >? 31 + 29 - 1) then yday - 1 else yday in
    let month := day / 31 in
    let end_ := daysBefore_at (month + 1) in
    let '(month, begin) :=
      if day >=? end_ then (month + 1, end_) else (month, daysBefore_at month) in
    (month + 1, day - begin + 1).

Definition daysIn' (leap : bool) (m : Z) : Z :=
  if (m =? 2) && leap then 29 else daysBefore_at m - daysBefore_at (m - 1).

Fixpoint zrange (lo : Z) (n : nat) : list Z :=
  match n with O => [] | S n => lo :: zrange (lo + 1) n end.

Definition monthDay_check (leap : bool) : bool :=
  forallb (fun m => forallb (fun d =>
    implb (d <=? daysIn' leap m)
      (let '(m', d') := monthDay leap (yday_of leap m d) in
       (m' =? m) && (d' =? d) && (0 <=? yday_of leap m d) && (yday_of leap m d <? 365 + (if leap then 1 else 0))))
    (zrange 1 31)) (zrange 1 12).

End calendar.

Module orders.

(** A list whose every element is followed only by elements that are
    [less] than or equivalent to it: the sorted part of the insertion
    sort, last element first. *)
Definition descending {A : Type} (less : A → A → bool) : list A → Prop :=
  StronglySorted (λ a b, less b a = true).

End orders.

(** The two loops of [GetAvailableCurrencies] on a cache miss. *)
Module availability.

Import currency_helpers.

(** [cur2banMap] as the first loop of the handler fills it. *)
Definition cur2banMap (curr2ban : list CurrencyWithBanStatus)
  : gmap CurrencyCode CurrencyWithBanStatus :=
  foldl (λ m curr, <[Currency_ curr := curr]> m) ∅ curr2ban.

(** The entries as the second loop of the handler builds them. *)
Definition entries (curr2ban : list CurrencyWithBanStatus)
    (range2 : list CurrencyCode) : list CurrencyWithBanStatus :=
  (λ curr, match cur2banMap curr2ban !! curr with
           | Some v => v
           | None => {| Currency_ := curr; Banned := false |}
           end) <$> range2.

End availability.
(** ** More of the packages [currency_helpers] and [config] *)

(** [(c CurrencyCode)]: the JSON codec of a currency code. *)
Module currency_code.

Import currency_helpers.

(** [c.String()] *)
Definition String_ (c : CurrencyCode) : string := c.

(** [(c *CurrencyCode) UnmarshalJSON(b)] returns the code left in [c]; the
    error is always [nil]. *)
Definition UnmarshalJSON (b : string) : CurrencyCode :=
  strings.Trim b (ascii_of_N 34).

(** [(c CurrencyCode) MarshalJSON()]; the error is always [nil]. *)
Definition MarshalJSON (c : CurrencyCode) : string :=
  quote +:+ String_ c +:+ quote.

(** [(c *CurrencyCode) IsSet()] *)
Definition IsSet (c : CurrencyCode) : bool := negb (String.eqb c EmptyString).

(** No character of [s] is [q]. *)
Fixpoint free_of (q : ascii) (s : string) : bool :=
  match s with
  | EmptyString => true
  | String a rest => negb (Ascii.eqb a q) && free_of q rest
  end.

End currency_code.

(** [config.InitConfig], with the environment of the process and
    [time.ParseDuration] as parameters; a duration is kept in
    nanoseconds. *)
Module config_init.

(** [type Config struct], all of its fields. *)
Record Config : Type := {
  DBHost : string;
  DBPort : string;
  Database : string;
  DBUser : string;
  DBPass : string;
  DBTimeout : Z;
  CachePort : string;
  CacheTimeout : Z;
  ExchangerAPIURL : string;
  ExchangerAPITimeout : Z;
}.

Section InitConfig.

(** [os.LookupEnv] *)
Variable LookupEnv : string → option string.
(** [time.ParseDuration] *)
Variable ParseDuration : string → result Z.

Definition InitConfig : result Config :=
  match LookupEnv "PG_HOST" with
  | None => Err "PG_ADDR not found"
  | Some pgHost =>
  match LookupEnv "PG_PORT" with
  | None => Err "PG_PORT not found"
  | Some pgPort =>
  match LookupEnv "PG_WALLET_DATABASE" with
  | None => Err "PG_WALLET_DATABASE not found"
  | Some database =>
  match LookupEnv "PG_USER" with
  | None => Err "PG_USER not found"
  | Some pgUser =>
  match LookupEnv "PG_PASS" with
  | None => Err "PG_PASS not found"
  | Some pgPass =>
  match LookupEnv "PG_TIMEOUT" with
  | None => Err "PG_TIMEOUT not found"
  | Some pgTimeoutStr =>
  match ParseDuration pgTimeoutStr with
  | Err err => Err (Wrap err "parse pgsql timeout")
  | Ok pgTimeout =>
  match LookupEnv "REDIS_PORT" with
  | None => Err "REDIS_PORT not found"
  | Some redisPort =>
  match LookupEnv "REDIS_TIMEOUT" with
  | None => Err "REDIS_TIMEOUT not found"
  | Some redisTimeoutStr =>
  match ParseDuration redisTimeoutStr with
  | Err err => Err (Wrap err "parse redis timeout")
  | Ok redisTimeout =>
  match LookupEnv "CBR_API_URL" with
  | None => Err "CBR_API_URL not found"
  | Some cbrApiUrl =>
  match LookupEnv "CBR_API_TIMEOUT" with
  | None => Err "CBR_API_TIMEOUT not found"
  | Some cbrApiTimeoutStr =>
  match ParseDuration cbrApiTimeoutStr with
  | Err err => Err (Wrap err "parse cbr api timeout")
  | Ok cbrApiTimeout =>
      Ok {| DBHost := pgHost;
            DBPort := pgPort;
            DBUser := pgUser;
            DBPass := pgPass;
            Database := database;
            DBTimeout := pgTimeout;
            CachePort := redisPort;
            CacheTimeout := redisTimeout;
            ExchangerAPIURL := cbrApiUrl;
            ExchangerAPITimeout := cbrApiTimeout |}
  end end end end end end end end end end end end end.

End InitConfig.

(** The variables [InitConfig] reads, and those holding a duration. *)
Definition variables : list string :=
  [ "PG_HOST"; "PG_PORT"; "PG_WALLET_DATABASE"; "PG_USER"; "PG_PASS";
    "PG_TIMEOUT"; "REDIS_PORT"; "REDIS_TIMEOUT"; "CBR_API_URL";
    "CBR_API_TIMEOUT" ].
Definition durations : list string :=
  [ "PG_TIMEOUT"; "REDIS_TIMEOUT"; "CBR_API_TIMEOUT" ].

(** The part of the configuration the handlers read. *)
Definition forHandlers (c : Config) : config.Config :=
  {| config.DBTimeout := DBTimeout c;
     config.CacheTimeout := CacheTimeout c;
     config.ExchangerAPIURL := ExchangerAPIURL c;
     config.ExchangerAPITimeout := ExchangerAPITimeout c |}.

(** The environment of docker-compose.yaml, and a parser of the three
    durations written there. *)
Definition composeEnv : gmap string string :=
  {[ "PG_HOST" := "postgres"; "PG_PORT" := "5432"; "PG_USER" := "postgres";
     "PG_PASS" := "postgres"; "PG_WALLET_DATABASE" := "wallet_service";
     "PG_TIMEOUT" := "200ms"; "REDIS_PORT" := "6379";
     "REDIS_TIMEOUT" := "200ms";
     "CBR_API_URL" := "https://api.exchangerate.host";
     "CBR_API_TIMEOUT" := "5s" ]}.
Definition LookupEnv_compose (name : string) : option string :=
  composeEnv !! name.
Definition composeDurations (s : string) : result Z :=
  if String.eqb s "200ms" then Ok 200000000
  else if String.eqb s "5s" then Ok 5000000000
  else Err "time: invalid duration".

End config_init.

(** ** The timeline flow: where its series comes from *)

Module timeline_flow.

Import currency_helpers.

(** Go's runtime allocates at most [maxAlloc] bytes for one object, 2^48
    on the 64-bit platforms, and a [float64] takes eight of them: a
    [[]float64] that exists is [allocatable]. *)
Definition maxAlloc : Z := 2 ^ 48.
Definition allocatable (l : list float64) : Prop :=
  8 * Z.of_nat (length l) <= maxAlloc.

Section Flow.

Context `{!json.JSON CurrencyTimelineRatesResponse}.
Context `{!json.JSON (gmap CustomTime float64)}.
Context `{!json.JSON (slice float64)}.

Variable env : ∀ e : service.Effect, service.ans e.

(** The cache holds [series] for the pair. *)
Definition stored (base second : CurrencyCode) (series : CurrencyTimelineRate)
  : Prop :=
  env (service.redisCache (cache.GetTimestampRate base second))
  = Ok (Some series).

(** The cache holds nothing for the pair, every request can be prepared,
    the provider answers the [GET] with a successful document holding
    [rates], and the forecast service answers the [POST] with
    [predictedRates]. *)
Definition fetched (base second : CurrencyCode)
    (rates : CurrencyTimelineRates) (predictedRates : list float64) : Prop :=
  env (service.redisCache (cache.GetTimestampRate base second)) = Ok None
  ∧ (∀ method url body,
       env (service.http_NewRequestWithContext method url body) = None)
  ∧ ∃ (exchangerRespBody dataForPredictions b : string)
      (decoded : slice float64),
      (∀ req, http.Method req = http.MethodGet →
              env (service.client_Do req) = Ok exchangerRespBody)
      ∧ json.Unmarshal exchangerRespBody
        = Ok {| ctrr_Success := true;
                ctrr_CurrencyTimelineRates := Some rates |}
      ∧ json.Marshal (ctr_Rates (ToResultTimelineRates rates second))
        = Ok dataForPredictions
      ∧ (∀ req, http.Method req = http.MethodPost →
                env (service.client_Do req) = Ok b)
      ∧ json.Unmarshal b = Ok decoded
      ∧ default [] decoded = predictedRates.

(** The timeline the flow builds on a cache miss from the provider's
    [rates] and the forecast: the rates of the requested currency, and the
    predictions the loop fills from the clock's year, month and day. *)
Definition built (second : CurrencyCode) (rates : CurrencyTimelineRates)
    (predictedRates : list float64) : CurrencyTimelineRate :=
  let now := env service.time_Now in
  let currencyRate := ToResultTimelineRates rates second in
  {| ctr_Base := ctr_Base currencyRate;
     ctr_Second := ctr_Second currencyRate;
     ctr_Rates := ctr_Rates currencyRate;
     ctr_Predictions :=
       service.predictionsOf (time.Year now) (time.Month now) (time.Day now)
         predictedRates;
     ctr_StartDate := ctr_StartDate currencyRate;
     ctr_EndDate := ctr_EndDate currencyRate |}.

End Flow.

End timeline_flow.

(** ** The current-rate flow: a provider that answers *)

Module rate_flow.

Import currency_helpers.

Section Flow.

Context `{!json.JSON CurrencyRatesResponse}.

Variable env : ∀ e : service.Effect, service.ans e.

(** The cache holds no rate for the pair, every request can be prepared
    and the provider answers with a successful document holding
    [rates]. *)
Definition providerAnswers (base second : CurrencyCode)
    (rates : CurrencyRates) : Prop :=
  env (service.redisCache (cache.GetCurrencyLastRate base second)) = Ok None
  ∧ (∀ method url body,
       env (service.http_NewRequestWithContext method url body) = None)
  ∧ ∃ exchangerRespBody : string,
      (∀ req, env (service.client_Do req) = Ok exchangerRespBody)
      ∧ json.Unmarshal exchangerRespBody
        = Ok {| crr_Success := true; crr_CurrencyRates := Some rates |}.

End Flow.

End rate_flow.

(** ** More vocabulary for the handlers *)

Module calls.

(** A call to the cache. *)
Definition isCacheCall (e : service.Effect) : bool :=
  match e with
  | service.redisCache _ => true
  | _ => false
  end.

(** The calls of [t] that satisfy [p], in order. *)
Definition only (p : service.Effect → bool) (t : list service.Effect)
  : list service.Effect :=
  List.filter p t.

End calls.

(** ** More examples *)

Module more_examples.

Import currency_helpers.

(** A Redis server that holds an older document as the last rates of USD
    and nothing else. *)
Definition staleRates : redis.Server :=
  {| redis.keys := ∅;
     redis.hashes :=
       {[ CurrentTimeRateCollection :=
            {[ "USD" := "{base:USD,rates:{},date:2023-12-31}" ]} ]} |}.

(** A Redis server that holds an older document as the timeline of USD in
    EUR and nothing else. *)
Definition staleTimeline : redis.Server :=
  {| redis.keys := ∅;
     redis.hashes :=
       {[ TimeCollection :=
            {[ "USD:EUR" := "{base:USD,second:EUR,rates:{}}" ]} ]} |}.

(** A codec that reads every body as the request to ban EUR. *)
Definition banEUR : json.JSON service.BanRequest :=
  example.codec "{currency:EUR,banned:true}"
    {| service.req_Currency := "EUR"; service.req_Banned := true |}.

(** A request for the timeline of [base] in [second] over a period. *)
Definition timelineRequest (base second start end_ : string) : http.Request :=
  {| http.Query := {[ "base" := base; "second" := second;
                      "start" := start; "end" := end_ ]};
     http.Body := EmptyString |}.

(** What the provider holds of USD: the rates in EUR and GBP on
    2024-01-05 and in GBP alone on 2024-01-06. *)
Definition providerRates : CurrencyTimelineRates :=
  {| ctrs_Base := "USD";
     ctrs_Rates :=
       {[ time.Date 2024 1 5 0 0 0 0 := {[ "EUR" := 0.5%float;
                                           "GBP" := 0.75%float ]};
          time.Date 2024 1 6 0 0 0 0 := {[ "GBP" := 0.625%float ]} ]};
     ctrs_StartDate := time.Date 2023 1 7 0 0 0 0;
     ctrs_EndDate := time.Date 2024 1 6 0 0 0 0 |}.

(** Collaborators for the timeline: as [example.collaborators], with
    [cachedSeries] held by the cache for every pair, [provider] the answer
    to every [GET] and [forecast] the answer to every [POST]. *)
Definition timelineCollaborators (now : time.Time)
    (cachedSeries : option CurrencyTimelineRate) (writes : option error)
    (provider forecast : result string)
  : ∀ e : service.Effect, service.ans e :=
  λ e,
    match e as e return service.ans e with
    | service.redisCache m =>
        match m as m return cache.ans m with
        | cache.GetAvailableCurrencies => Ok None
        | cache.SetAvailableCurrencies _ => writes
        | cache.CleanCacheForAvailableCurrencies => writes
        | cache.GetCurrencyLastRate _ _ => Ok None
        | cache.SetCurrencyLastRate _ => writes
        | cache.GetTimestampRate _ _ => Ok cachedSeries
        | cache.SaveTimestampRate _ => writes
        end
    | service.db_SelectContext _ => Ok example.rows
    | service.db_ExecContext _ _ => None
    | service.time_Now => now
    | service.http_NewRequestWithContext _ _ _ => None
    | service.client_Do req =>
        if String.eqb (http.Method req) http.MethodGet then provider
        else forecast
    | service.log_Printf _ => tt
    end.

(** What each collaborator answers, whatever the arguments of the
    call. *)
Record Answers : Type := {
  clock : time.Time;
  availableList : result (slice CurrencyWithBanStatus);
  lastRate : result (option CurrencyRate);
  timeline : result (option CurrencyTimelineRate);
  cacheWrites : option error;
  banRows : result (list CurrencyWithBanStatus);
  banUpdate : option error;
  providerBody : result string;
  forecastBody : result string;
}.

Definition answering (a : Answers) : ∀ e : service.Effect, service.ans e :=
  λ e,
    match e as e return service.ans e with
    | service.redisCache m =>
        match m as m return cache.ans m with
        | cache.GetAvailableCurrencies => availableList a
        | cache.SetAvailableCurrencies _ => cacheWrites a
        | cache.CleanCacheForAvailableCurrencies => cacheWrites a
        | cache.GetCurrencyLastRate _ _ => lastRate a
        | cache.SetCurrencyLastRate _ => cacheWrites a
        | cache.GetTimestampRate _ _ => timeline a
        | cache.SaveTimestampRate _ => cacheWrites a
        end
    | service.db_SelectContext _ => banRows a
    | service.db_ExecContext _ _ => banUpdate a
    | service.time_Now => clock a
    | service.http_NewRequestWithContext _ _ _ => None
    | service.client_Do req =>
        if String.eqb (http.Method req) http.MethodGet then providerBody a
        else forecastBody a
    | service.log_Printf _ => tt
    end.

(** An empty cache, an empty ban store and no network, on 2024-01-02. *)
Definition idle : Answers :=
  {| clock := time.Date 2024 1 2 9 0 0 0;
     availableList := Ok None;
     lastRate := Ok None;
     timeline := Ok None;
     cacheWrites := None;
     banRows := Ok [];
     banUpdate := None;
     providerBody := Err "no route";
     forecastBody := Err "no route" |}.

(** A codec of timelines that writes the dates of the rates, then the
    dates of the predictions, and reads nothing. *)
Definition dates (m : gmap CustomTime float64) : string :=
  foldr (λ kv rest, time.Format_2006_01_02 kv.1 +:+ " " +:+ rest)
        EmptyString (map_to_list m).
Definition datesCodec : json.JSON CurrencyTimelineRate :=
  {| json.encode := λ v,
       Ok ("rates: " +:+ dates (ctr_Rates v)
             +:+ "predictions: " +:+ dates (ctr_Predictions v));
     json.decode := λ _, Err "unexpected end of JSON input" |}.

End more_examples.

(** The codecs of the timeline examples. *)
Module timeline_example.

Import currency_helpers.

#[export] Instance available_json : json.JSON (slice CurrencyWithBanStatus) :=
  example.available_json.
#[export] Instance ban_json : json.JSON service.BanRequest := example.ban_json.
#[export] Instance rate_json : json.JSON CurrencyRate := example.rate_json.
#[export] Instance rates_response_json : json.JSON CurrencyRatesResponse :=
  example.rates_response_json.
#[export] Instance timeline_response_json
  : json.JSON CurrencyTimelineRatesResponse :=
  example.codec "{success:true,base:USD,rates:{...}}"
    {| ctrr_Success := true;
       ctrr_CurrencyTimelineRates := Some more_examples.providerRates |}.
#[export] Instance timeline_json : json.JSON CurrencyTimelineRate :=
  more_examples.datesCodec.
#[export] Instance rates_map_json : json.JSON (gmap CustomTime float64) :=
  example.rates_map_json.
#[export] Instance forecast_json : json.JSON (slice float64) :=
  example.codec "[1.25,1.5,1.75]" (Some [1.25%float; 1.5%float; 1.75%float]).

End timeline_example.

(** * Facts about the [time] package *)

Module time_facts.

Import time.
Export calendar.

Ltac dlia := Z.to_euclidean_division_equations; lia.

Lemma u64_small x : 0 <= x < 2^64 -> u64 x = x.
Proof. intros. unfold u64. apply Z.mod_small. lia. Qed.
Lemma i64_small x : - 2^63 <= x < 2^63 -> i64 x = x.
Proof. intros. unfold i64. rewrite Z.mod_small; lia. Qed.
Lemma i64_add_l a b : i64 (i64 a + b) = i64 (a + b).
Proof. unfold i64. dlia. Qed.
Lemma u64_i64 a b : u64 (i64 a + b) = u64 (a + b).
Proof. unfold i64, u64. dlia. Qed.

Lemma year_split (N a b c e yd : Z) :
  0 <= a -> 0 <= b < 4 -> 0 <= c < 25 -> 0 <= e < 4 ->
  0 <= yd < 365 + (if leapZ b c e then 1 else 0) ->
  N = 146097 * a + 36524 * b + 1461 * c + 365 * e + yd ->
  let n1 := N / 146097 in
  let d1 := N - 146097 * n1 in
  let n2 := d1 / 36524 in
  let n2 := n2 - Z.shiftr n2 2 in
  let d2 := d1 - 36524 * n2 in
  let n3 := d2 / 1461 in
  let d3 := d2 - 1461 * n3 in
  let n4 := d3 / 365 in
  let n4 := n4 - Z.shiftr n4 2 in
  let d4 := d3 - 365 * n4 in
  400 * n1 + 100 * n2 + 4 * n3 + n4 = 400 * a + 100 * b + 4 * c + e /\ d4 = yd.
Proof.
  intros Ha Hb Hc He Hyd HN. cbv zeta.
  rewrite !Z.shiftr_div_pow2 by lia. change (2^2) with 4.
  unfold leapZ in Hyd.
  assert (H1 : N / 146097 = a).
  { destruct (e =? 3) eqn:E3, (c =? 24) eqn:E24, (b =? 3) eqn:Eb; simpl in Hyd; dlia. }
  rewrite H1.
  assert (H2 : (N - 146097 * a) / 36524 - (N - 146097 * a) / 36524 / 4 = b).
  { destruct (e =? 3) eqn:E3, (c =? 24) eqn:E24, (b =? 3) eqn:Eb; simpl in Hyd; dlia. }
  rewrite H2.
  assert (H3 : (N - 146097 * a - 36524 * b) / 1461 = c).
  { destruct (e =? 3) eqn:E3, (c =? 24) eqn:E24, (b =? 3) eqn:Eb; simpl in Hyd; dlia. }
  rewrite H3.
  assert (H4 : (N - 146097 * a - 36524 * b - 1461 * c) / 365 - (N - 146097 * a - 36524 * b - 1461 * c) / 365 / 4 = e).
  { destruct (e =? 3) eqn:E3, (c =? 24) eqn:E24, (b =? 3) eqn:Eb; simpl in Hyd; dlia. }
  rewrite H4. lia.
Qed.

(* year decomposition *)
Lemma daysSinceEpoch_cyc y :
  absoluteZeroYear <= y < 2^63 ->
  let '(a, b, c, e) := cyc y in
  daysSinceEpoch y = 146097 * a + 36524 * b + 1461 * c + 365 * e.
Proof.
  intros Hy. unfold cyc, daysSinceEpoch.
  rewrite u64_small by (unfold absoluteZeroYear in *; lia).
  unfold daysPer400Years, daysPer100Years, daysPer4Years.
  set (Y := y - absoluteZeroYear). cbv zeta. dlia.
Qed.

Lemma isLeap_cyc y :
  let '(a, b, c, e) := cyc y in isLeap y = leapZ b c e.
Proof.
  unfold cyc, isLeap, leapZ, absoluteZeroYear.
  apply Bool.eq_true_iff_eq. rewrite !andb_true_iff, !orb_true_iff, !negb_true_iff, !Z.eqb_eq, !Z.eqb_neq.
  dlia.
Qed.

Lemma zrange_In n : forall lo x, lo <= x < lo + Z.of_nat n -> In x (zrange lo n).
Proof.
  induction n as [|n IH]; intros lo x H; simpl in *; [lia|].
  destruct (Z.eq_dec lo x); [now left|right]. apply IH. lia.
Qed.

Lemma daysIn'_le leap m : 1 <= m <= 12 -> daysIn' leap m <= 31.
Proof.
  intros Hm. assert (In m (zrange 1 12)) as Hin by (apply zrange_In; lia).
  simpl in Hin.
  repeat (destruct Hin as [<-|Hin]; [destruct leap; vm_compute; discriminate|]).
  destruct Hin.
Qed.

Lemma monthDay_yday_of leap m d :
  1 <= m <= 12 -> 1 <= d <= daysIn' leap m ->
  monthDay leap (yday_of leap m d) = (m, d) /\
  0 <= yday_of leap m d < 365 + (if leap then 1 else 0).
Proof.
  intros Hm Hd.
  assert (Hc : monthDay_check leap = true) by (destruct leap; vm_compute; reflexivity).
  unfold monthDay_check in Hc. rewrite forallb_forall in Hc.
  specialize (Hc m (zrange_In 12 1 m ltac:(lia))). rewrite forallb_forall in Hc.
  pose proof (daysIn'_le leap m Hm).
  specialize (Hc d (zrange_In 31 1 d ltac:(lia))).
  replace (d <=? daysIn' leap m) with true in Hc by (symmetry; apply Z.leb_le; lia).
  simpl in Hc. destruct (monthDay leap (yday_of leap m d)) as [m' d'].
  rewrite !andb_true_iff, !Z.eqb_eq, Z.leb_le, Z.ltb_lt in Hc.
  destruct Hc as [[[-> ->] ?] ?]. split; [reflexivity|lia].
Qed.

Lemma absDate_Date y m d :
  0 <= y <= 9999 -> 1 <= m <= 12 -> 1 <= d <= daysIn m y ->
  Date y m d 0 0 0 0 =
    mkTime 0 ((daysSinceEpoch y + yday_of (isLeap y) m d) * 86400 + absoluteToInternal)
  /\ Date_of (Date y m d 0 0 0 0) = (y, m, d)
  /\ - 2 ^ 40 < ext (Date y m d 0 0 0 0) < 2 ^ 40.
Proof.
  intros Hy Hm Hd.
  assert (Hdi : daysIn m y = daysIn' (isLeap y) m) by reflexivity.
  rewrite Hdi in Hd.
  destruct (monthDay_yday_of (isLeap y) m d Hm Hd) as [Hmd Hyd].
  pose proof (daysIn'_le (isLeap y) m Hm) as Hd31.
  pose proof (daysSinceEpoch_cyc y ltac:(unfold absoluteZeroYear; lia)) as Hdse.
  pose proof (isLeap_cyc y) as Hleap.
  destruct (cyc y) as [[[a b] c] e] eqn:Hcyc.
  assert (Hb : 0 <= a < 2^40 /\ 0 <= b < 4 /\ 0 <= c < 25 /\ 0 <= e < 4
               /\ y - absoluteZeroYear = 400 * a + 100 * b + 4 * c + e).
  { unfold cyc, absoluteZeroYear in *. injection Hcyc as <- <- <- <-. dlia. }
  destruct Hb as (Ha & Hb & Hc & He & HY).
  set (yd := yday_of (isLeap y) m d) in *.
  assert (HDate : Date y m d 0 0 0 0 =
    mkTime 0 ((daysSinceEpoch y + yd) * 86400 + absoluteToInternal)).
  { unfold Date.
    assert (Hn : norm y (m - 1) 12 = (y, m - 1)).
    { unfold norm. replace (m - 1 <? 0) with false by (symmetry; apply Z.ltb_ge; lia).
      replace (m - 1 >=? 12) with false by (symmetry; rewrite Z.geb_leb; apply Z.leb_gt; lia).
      reflexivity. }
    rewrite Hn. cbn [norm Z.ltb Z.geb Z.compare]. 
    change (norm 0 0 1000000000) with (0, 0). change (norm 0 0 60) with (0, 0).
    replace (norm d 0 24) with (d, 0) by reflexivity.
    cbv zeta beta iota. replace (m - 1 + 1) with m by lia.
    rewrite (u64_small (d - 1)) by lia.
    assert (Hd1 : (if isLeap y && (m >=? March) then u64 (u64 (daysSinceEpoch y + daysBefore_at (m - 1)) + 1) else u64 (daysSinceEpoch y + daysBefore_at (m - 1))) + (d - 1) = daysSinceEpoch y + yd).
    { unfold yd, yday_of, March.
      assert (0 <= daysBefore_at (m - 1) <= 400).
      { assert (In m (zrange 1 12)) as Hin by (apply zrange_In; lia). simpl in Hin.
        repeat (destruct Hin as [<-|Hin]; [vm_compute; split; discriminate|]). destruct Hin. }
      rewrite Hdse.
      rewrite (u64_small (_ + daysBefore_at _)) by lia.
      destruct (isLeap y && (m >=? 3)); rewrite ?u64_small; lia. }
    rewrite Hd1.
    change (0 * secondsPerHour + 0 * secondsPerMinute + 0) with 0.
    change (u64 0) with 0. rewrite Z.add_0_r.
    assert (Hr : 0 <= (daysSinceEpoch y + yd) * secondsPerDay < 2^64).
    { rewrite Hdse. unfold secondsPerDay, secondsPerHour, secondsPerMinute.
      unfold absoluteZeroYear in HY. destruct (isLeap y); lia. }
    rewrite (u64_small (daysSinceEpoch y + yd)) by (unfold secondsPerDay, secondsPerHour, secondsPerMinute in Hr; lia).
    rewrite (u64_small _ Hr), (u64_small _ Hr).
    rewrite i64_add_l, <- Z.add_assoc, i64_add_l. f_equal.
    rewrite i64_small; unfold absoluteToInternal, internalToUnix, unixToInternal, secondsPerDay, secondsPerHour, secondsPerMinute in *.
    - lia.
    - rewrite Hdse. unfold absoluteZeroYear in HY. destruct (isLeap y); lia. }
  split; [exact HDate|].
  split.
  2:{ rewrite HDate. cbn [ext]. rewrite Hdse.
      unfold absoluteToInternal, absoluteZeroYear in *.
      destruct (isLeap y); lia. }
  rewrite HDate. unfold Date_of, abs, unixSec, sec, ext.
  rewrite u64_i64.
  match goal with |- context [u64 ?X] =>
    replace X with ((daysSinceEpoch y + yd) * 86400)
      by (unfold internalToUnix, internalToAbsolute; lia) end.
  rewrite u64_small by (rewrite Hdse; unfold absoluteZeroYear in HY; destruct (isLeap y); lia).
  unfold absDate.
  replace ((daysSinceEpoch y + yd) * 86400 / secondsPerDay) with (daysSinceEpoch y + yd)
    by (unfold secondsPerDay, secondsPerHour, secondsPerMinute; symmetry; apply Z.div_mul; lia).
  rewrite Hleap in Hyd.
  pose proof (year_split (daysSinceEpoch y + yd) a b c e yd ltac:(lia) Hb Hc He Hyd ltac:(lia)) as Hs.
  cbv zeta in Hs. destruct Hs as [Hs1 Hs2].
  change daysPer400Years with 146097. change daysPer100Years with 36524.
  change daysPer4Years with 1461. cbv zeta.
  match goal with |- context [i64 (i64 ?Y + absoluteZeroYear)] =>
    replace (i64 (i64 Y + absoluteZeroYear)) with y end.
  2:{ rewrite i64_add_l. rewrite i64_small; unfold absoluteZeroYear in *; lia. }
  rewrite Hs2. fold (monthDay (isLeap y) yd) in Hmd.
  unfold monthDay in Hmd.
  destruct (isLeap y && (yd =? 31 + 29 - 1)).
  - injection Hmd as <- <-. reflexivity.
  - cbv zeta in Hmd.
    destruct (_ >=? _); injection Hmd as -> ->; reflexivity.
Qed.

(** *** Decimal digits *)

Lemma digit_cases k : 0 <= k <= 9 ->
  k = 0 \/ k = 1 \/ k = 2 \/ k = 3 \/ k = 4 \/ k = 5 \/ k = 6 \/ k = 7
  \/ k = 8 \/ k = 9.
Proof. lia. Qed.

Ltac digit_cases k H :=
  destruct (digit_cases k H) as [->|[->|[->|[->|[->|[->|[->|[->|[->| ->]]]]]]]]].

Lemma digit_digitChar k : 0 <= k <= 9 -> spec.digit k = digitChar k.
Proof. intros H. digit_cases k H; reflexivity. Qed.

Lemma isDigitChar_digitChar k : 0 <= k <= 9 -> isDigitChar (digitChar k) = true.
Proof. intros H. digit_cases k H; reflexivity. Qed.

Lemma digitVal_digitChar k : 0 <= k <= 9 -> digitVal (digitChar k) = k.
Proof. intros H. digit_cases k H; reflexivity. Qed.

Lemma digitChar_eqb k (c : ascii) :
  0 <= k <= 9 -> isDigitChar c = false -> Ascii.eqb (digitChar k) c = false.
Proof.
  intros H Hc. apply Ascii.eqb_neq. intros <-.
  rewrite isDigitChar_digitChar in Hc by exact H. discriminate.
Qed.

(** *** Formatting *)

Lemma appendInt_4 y : 0 <= y <= 9999 ->
  appendInt y 4 =
    String (digitChar (y / 1000)) (String (digitChar (y / 100 mod 10))
    (String (digitChar (y / 10 mod 10)) (String (digitChar (y mod 10))
    EmptyString))).
Proof.
  intros H. unfold appendInt.
  replace (y <? 0) with false by (symmetry; apply Z.ltb_ge; lia).
  rewrite u64_small by lia.
  assert (Hg : forall a b, a < b -> (a >=? b) = false)
    by (intros; rewrite Z.geb_leb; apply Z.leb_gt; lia).
  assert (Hge : forall a b, b <= a -> (a >=? b) = true)
    by (intros; rewrite Z.geb_leb; apply Z.leb_le; lia).
  destruct (Z_lt_dec y 10) as [H1|H1].
  { cbn [appendInt_digits]. rewrite (Hg y) by lia. cbn.
    replace (y / 1000) with 0 by dlia. replace (y / 100 mod 10) with 0 by dlia.
    replace (y / 10 mod 10) with 0 by dlia. replace (y mod 10) with y by dlia.
    reflexivity. }
  destruct (Z_lt_dec y 100) as [H2|H2].
  { cbn [appendInt_digits]. rewrite (Hge y) by lia. rewrite (Hg (y / 10)) by dlia.
    cbn. replace (y / 1000) with 0 by dlia. replace (y / 100 mod 10) with 0 by dlia.
    replace (y / 10 mod 10) with (y / 10) by dlia.
    replace (y - y / 10 * 10) with (y mod 10) by dlia. reflexivity. }
  destruct (Z_lt_dec y 1000) as [H3|H3].
  { cbn [appendInt_digits]. rewrite (Hge y) by lia. rewrite (Hge (y / 10)) by dlia.
    rewrite (Hg (y / 10 / 10)) by dlia. cbn.
    replace (y / 1000) with 0 by dlia.
    replace (y / 100 mod 10) with (y / 10 / 10) by dlia.
    replace (y / 10 - y / 10 / 10 * 10) with (y / 10 mod 10) by dlia.
    replace (y - y / 10 * 10) with (y mod 10) by dlia. reflexivity. }
  cbn [appendInt_digits]. rewrite (Hge y) by lia. rewrite (Hge (y / 10)) by dlia.
  rewrite (Hge (y / 10 / 10)) by dlia. rewrite (Hg (y / 10 / 10 / 10)) by dlia.
  cbn.
  replace (y / 10 / 10 / 10) with (y / 1000) by dlia.
  replace (y / 10 / 10 - y / 1000 * 10) with (y / 100 mod 10) by dlia.
  replace (y / 10 - y / 10 / 10 * 10) with (y / 10 mod 10) by dlia.
  replace (y - y / 10 * 10) with (y mod 10) by dlia. reflexivity.
Qed.

Lemma appendInt_2 m : 0 <= m <= 99 ->
  appendInt m 2 =
    String (digitChar (m / 10)) (String (digitChar (m mod 10)) EmptyString).
Proof.
  intros H. unfold appendInt.
  replace (m <? 0) with false by (symmetry; apply Z.ltb_ge; lia).
  rewrite u64_small by lia.
  destruct (Z_lt_dec m 10) as [H1|H1].
  { cbn [appendInt_digits].
    replace (m >=? 10) with false by (symmetry; rewrite Z.geb_leb; apply Z.leb_gt; lia).
    cbn. replace (m / 10) with 0 by dlia. replace (m mod 10) with m by dlia.
    reflexivity. }
  cbn [appendInt_digits].
  replace (m >=? 10) with true by (symmetry; rewrite Z.geb_leb; apply Z.leb_le; lia).
  replace (m / 10 >=? 10) with false
    by (symmetry; rewrite Z.geb_leb; apply Z.leb_gt; dlia).
  cbn. replace (m - m / 10 * 10) with (m mod 10) by dlia. reflexivity.
Qed.

(** *** Parsing *)

Lemma isDigitChar_range c :
  isDigitChar c = true -> 0 <= digitVal c <= 9.
Proof. unfold isDigitChar, digitVal. lia. Qed.

Lemma leadingInt_from_digit x c rest :
  isDigitChar c = true -> 0 <= x <= 999 ->
  leadingInt_from x (String c rest) = leadingInt_from (x * 10 + digitVal c) rest.
Proof.
  intros Hc Hx. pose proof (isDigitChar_range c Hc).
  cbn [leadingInt_from]. rewrite Hc.
  replace (x >? 2 ^ 63 / 10) with false by (symmetry; dlia).
  replace (x * 10 + digitVal c >? 2 ^ 63) with false by (symmetry; lia).
  reflexivity.
Qed.

Lemma atoi_digit c rest :
  isDigitChar c = true ->
  atoi (String c rest) =
    match leadingInt (String c rest) with
    | Ok (q, EmptyString) => Ok q
    | _ => Err errAtoi
    end.
Proof.
  destruct c as [[] [] [] [] [] [] [] []]; intros Hc;
    try discriminate Hc; reflexivity.
Qed.

Lemma atoi_4 c0 c1 c2 c3 :
  isDigitChar c0 = true -> isDigitChar c1 = true ->
  isDigitChar c2 = true -> isDigitChar c3 = true ->
  atoi (String c0 (String c1 (String c2 (String c3 EmptyString)))) =
    Ok (((digitVal c0 * 10 + digitVal c1) * 10 + digitVal c2) * 10 + digitVal c3).
Proof.
  intros H0 H1 H2 H3.
  pose proof (isDigitChar_range _ H0). pose proof (isDigitChar_range _ H1).
  pose proof (isDigitChar_range _ H2). pose proof (isDigitChar_range _ H3).
  rewrite atoi_digit by exact H0. unfold leadingInt.
  rewrite !leadingInt_from_digit by (assumption || lia).
  reflexivity.
Qed.

Lemma getnum_2 c0 c1 rest :
  isDigitChar c0 = true -> isDigitChar c1 = true ->
  getnum (String c0 (String c1 rest)) true =
    Ok (digitVal c0 * 10 + digitVal c1, rest).
Proof.
  intros H0 H1. unfold getnum, isDigit. cbn [String.get].
  rewrite H0, H1. reflexivity.
Qed.

Lemma Parse_digits c0 c1 c2 c3 c4 c5 c6 c7 :
  isDigitChar c0 = true -> isDigitChar c1 = true ->
  isDigitChar c2 = true -> isDigitChar c3 = true ->
  isDigitChar c4 = true -> isDigitChar c5 = true ->
  isDigitChar c6 = true -> isDigitChar c7 = true ->
  let year :=
    ((digitVal c0 * 10 + digitVal c1) * 10 + digitVal c2) * 10 + digitVal c3 in
  let month := digitVal c4 * 10 + digitVal c5 in
  let day := digitVal c6 * 10 + digitVal c7 in
  1 <= month <= 12 -> 1 <= day <= daysIn month year ->
  Parse_2006_01_02
    (String c0 (String c1 (String c2 (String c3 (String "-"
    (String c4 (String c5 (String "-" (String c6 (String c7
    EmptyString)))))))))) = Ok (Date year month day 0 0 0 0).
Proof.
  intros H0 H1 H2 H3 H4 H5 H6 H7 year month day Hm Hd.
  unfold Parse_2006_01_02.
  cbn [String.length Nat.ltb Nat.leb orb negb isDigit String.get substring
       Nat.sub].
  rewrite H0. cbn [negb].
  rewrite atoi_4 by assumption. fold year.
  cbn [skip Ascii.eqb Bool.eqb].
  rewrite getnum_2 by assumption. fold month.
  replace (month <=? 0) with false by (symmetry; apply Z.leb_gt; lia).
  replace (12 <? month) with false by (symmetry; apply Z.ltb_ge; lia).
  cbn [orb skip Ascii.eqb Bool.eqb].
  rewrite getnum_2 by assumption. fold day.
  cbn [String.length Nat.eqb negb].
  replace (day <? 1) with false by (symmetry; apply Z.ltb_ge; lia).
  replace (day >? daysIn month year) with false
    by (symmetry; rewrite Z.gtb_ltb; apply Z.ltb_ge; lia).
  reflexivity.
Qed.

(** *** The instant of the zero [Time] *)

Lemma UnixNano_midnight e :
  - 2 ^ 40 < e < 2 ^ 40 ->
  (UnixNano (mkTime 0 e) =? UnixNano zero) = (e =? 0).
Proof.
  intros He. unfold UnixNano, zero, sec, nsec, ext, wall.
  rewrite !Z.add_0_r.
  assert (Hi : forall a, i64 (i64 (i64 a * 1000000000)) = i64 (a * 1000000000)).
  { intros a. unfold i64. dlia. }
  rewrite !Hi.
  change internalToUnix with (-62135596800).
  destruct (Z.eqb_spec e 0) as [->|Hne]; [apply Z.eqb_refl|].
  apply Z.eqb_neq. unfold i64. dlia.
Qed.

Lemma Date_1_1_1 : Date 1 1 1 0 0 0 0 = zero.
Proof. reflexivity. Qed.

Lemma Date_zero_inv y m d :
  0 <= y <= 9999 -> 1 <= m <= 12 -> 1 <= d <= daysIn m y ->
  ext (Date y m d 0 0 0 0) = 0 -> (y, m, d) = (1, 1, 1).
Proof.
  intros Hy Hm Hd He.
  destruct (absDate_Date y m d Hy Hm Hd) as (HD & Hof & _).
  rewrite <- Hof.
  assert (Date y m d 0 0 0 0 = zero) as ->; [|reflexivity].
  rewrite HD in He |- *. cbn [ext] in He. rewrite He. reflexivity.
Qed.

End time_facts.

(** * The [CustomTime] codec *)

Module codec_facts.

Import time currency_helpers time_facts.

Lemma digit_not_quote c :
  isDigitChar c = true -> Ascii.eqb c (ascii_of_N 34) = false.
Proof.
  destruct c as [[] [] [] [] [] [] [] []]; intros Hc;
    try discriminate Hc; reflexivity.
Qed.

Lemma digit_not_n c : isDigitChar c = true -> Ascii.eqb c "n" = false.
Proof.
  destruct c as [[] [] [] [] [] [] [] []]; intros Hc;
    try discriminate Hc; reflexivity.
Qed.

Lemma Trim_quoted_digits c0 c1 c2 c3 c4 c5 c6 c7 :
  isDigitChar c0 = true -> isDigitChar c7 = true ->
  let s := String c0 (String c1 (String c2 (String c3 (String "-"
           (String c4 (String c5 (String "-" (String c6 (String c7
           EmptyString))))))))) in
  strings.Trim (spec.quoted s) (ascii_of_N 34) = s.
Proof.
  intros H0 H7 s. unfold strings.Trim, strings.TrimRight, spec.quoted, quote, s.
  pose proof (digit_not_quote c0 H0) as E0.
  pose proof (digit_not_quote c7 H7) as E7.
  generalize dependent (ascii_of_N 34). intros q E0 E7.
  cbv [String.append]. cbn [strings.TrimLeft]. rewrite Ascii.eqb_refl.
  cbn [strings.TrimLeft]. rewrite E0.
  cbn [String.rev String.rev_app strings.TrimLeft]. rewrite Ascii.eqb_refl.
  cbn [strings.TrimLeft]. rewrite E7.
  reflexivity.
Qed.

Lemma canonical_digits y m d :
  0 <= y <= 9999 -> 0 <= m <= 99 -> 0 <= d <= 99 ->
  exists c0 c1 c2 c3 c4 c5 c6 c7,
    spec.canonical y m d =
      String c0 (String c1 (String c2 (String c3 (String "-"
      (String c4 (String c5 (String "-" (String c6 (String c7
      EmptyString)))))))))
    /\ (isDigitChar c0 = true /\ isDigitChar c1 = true /\ isDigitChar c2 = true
        /\ isDigitChar c3 = true /\ isDigitChar c4 = true /\ isDigitChar c5 = true
        /\ isDigitChar c6 = true /\ isDigitChar c7 = true)
    /\ ((digitVal c0 * 10 + digitVal c1) * 10 + digitVal c2) * 10 + digitVal c3 = y
    /\ digitVal c4 * 10 + digitVal c5 = m
    /\ digitVal c6 * 10 + digitVal c7 = d
    /\ appendInt y 4 = String c0 (String c1 (String c2 (String c3 EmptyString)))
    /\ appendInt m 2 = String c4 (String c5 EmptyString)
    /\ appendInt d 2 = String c6 (String c7 EmptyString).
Proof.
  intros Hy Hm Hd.
  assert (B0 : 0 <= y / 1000 <= 9) by dlia.
  assert (B1 : 0 <= y / 100 mod 10 <= 9) by dlia.
  assert (B2 : 0 <= y / 10 mod 10 <= 9) by dlia.
  assert (B3 : 0 <= y mod 10 <= 9) by dlia.
  assert (B4 : 0 <= m / 10 <= 9) by dlia.
  assert (B5 : 0 <= m mod 10 <= 9) by dlia.
  assert (B6 : 0 <= d / 10 <= 9) by dlia.
  assert (B7 : 0 <= d mod 10 <= 9) by dlia.
  exists (digitChar (y / 1000)), (digitChar (y / 100 mod 10)),
    (digitChar (y / 10 mod 10)), (digitChar (y mod 10)),
    (digitChar (m / 10)), (digitChar (m mod 10)),
    (digitChar (d / 10)), (digitChar (d mod 10)).
  unfold spec.canonical. rewrite !digit_digitChar by assumption.
  rewrite !isDigitChar_digitChar, !digitVal_digitChar by assumption.
  rewrite appendInt_4, !appendInt_2 by assumption.
  repeat split; try reflexivity; dlia.
Qed.

End codec_facts.
(** * Midnights of consecutive days *)

Module day_facts.

Import time time_facts.

Lemma u64_add_r a b : u64 (a + u64 b) = u64 (a + b).
Proof. unfold u64. apply Z.add_mod_idemp_r. lia. Qed.

(** [Date] at midnight for a day number that may lie outside its month. *)
Lemma Date_midnight y m d :
  0 <= y <= 9999 -> 1 <= m <= 12 -> - 2 ^ 30 <= d <= 2 ^ 46 ->
  Date y m d 0 0 0 0 =
    mkTime 0 ((daysSinceEpoch y + yday_of (isLeap y) m d) * 86400
              + absoluteToInternal).
Proof.
  intros Hy Hm Hd.
  pose proof (daysSinceEpoch_cyc y ltac:(unfold absoluteZeroYear; lia)) as Hdse.
  destruct (cyc y) as [[[a b] c] e] eqn:Hcyc.
  assert (Hb : 0 <= a < 2^40 /\ 0 <= b < 4 /\ 0 <= c < 25 /\ 0 <= e < 4
               /\ y - absoluteZeroYear = 400 * a + 100 * b + 4 * c + e).
  { unfold cyc, absoluteZeroYear in *. injection Hcyc as <- <- <- <-. dlia. }
  destruct Hb as (Ha & Hb & Hc & He & HY).
  set (yd := yday_of (isLeap y) m d) in *.
  unfold Date.
  assert (Hn : norm y (m - 1) 12 = (y, m - 1)).
  { unfold norm.
    replace (m - 1 <? 0) with false by (symmetry; apply Z.ltb_ge; lia).
    replace (m - 1 >=? 12) with false
      by (symmetry; rewrite Z.geb_leb; apply Z.leb_gt; lia).
    reflexivity. }
  rewrite Hn. cbn [norm Z.ltb Z.geb Z.compare].
  change (norm 0 0 1000000000) with (0, 0). change (norm 0 0 60) with (0, 0).
  replace (norm d 0 24) with (d, 0) by reflexivity.
  cbv zeta beta iota. replace (m - 1 + 1) with m by lia.
  rewrite (u64_add_r _ (d - 1)).
  assert (Hbef : 0 <= daysBefore_at (m - 1) <= 400).
  { assert (In m (zrange 1 12)) as Hin by (apply zrange_In; lia). simpl in Hin.
    repeat (destruct Hin as [<-|Hin]; [vm_compute; split; discriminate|]).
    destruct Hin. }
  assert (Hd1 : (if isLeap y && (m >=? March)
                 then u64 (u64 (daysSinceEpoch y + daysBefore_at (m - 1)) + 1)
                 else u64 (daysSinceEpoch y + daysBefore_at (m - 1))) + (d - 1)
                = daysSinceEpoch y + yd).
  { unfold yd, yday_of, March. rewrite Hdse.
    rewrite (u64_small (_ + daysBefore_at _)) by lia.
    destruct (isLeap y && (m >=? 3)); rewrite ?u64_small; lia. }
  rewrite Hd1.
  change (0 * secondsPerHour + 0 * secondsPerMinute + 0) with 0.
  change (u64 0) with 0. rewrite Z.add_0_r.
  assert (Hyd : - 2 ^ 31 <= yd <= 2 ^ 46 + 401).
  { unfold yd, yday_of. destruct (isLeap y && (m >=? 3)); lia. }
  assert (Hr : 0 <= (daysSinceEpoch y + yd) * secondsPerDay < 2^64).
  { rewrite Hdse. unfold secondsPerDay, secondsPerHour, secondsPerMinute.
    unfold absoluteZeroYear in HY. lia. }
  rewrite (u64_small (daysSinceEpoch y + yd))
    by (unfold secondsPerDay, secondsPerHour, secondsPerMinute in Hr; lia).
  rewrite (u64_small _ Hr), (u64_small _ Hr).
  rewrite i64_add_l, <- Z.add_assoc, i64_add_l. f_equal.
  rewrite i64_small;
    unfold absoluteToInternal, internalToUnix, unixToInternal, secondsPerDay,
      secondsPerHour, secondsPerMinute in *.
  - lia.
  - rewrite Hdse. unfold absoluteZeroYear in HY. lia.
Qed.

(** Moving the day number by [k] moves the midnight by [k] days. *)
Lemma Date_add_days y m d k :
  0 <= y <= 9999 -> 1 <= m <= 12 ->
  - 2 ^ 30 <= d <= 2 ^ 46 -> - 2 ^ 30 <= d + k <= 2 ^ 46 ->
  Date y m (d + k) 0 0 0 0 = spec.addDays (Date y m d 0 0 0 0) k.
Proof.
  intros Hy Hm Hd Hk.
  rewrite !Date_midnight by assumption.
  unfold spec.addDays. cbn [wall ext]. f_equal.
  unfold yday_of. lia.
Qed.

End day_facts.

(** * Running programs *)

Module prog_facts.

Section Run.

Context {E : Type} {ans : E → Type}.
Variable env : ∀ e : E, ans e.

Lemma eval_Call {R} (e : E) (k : ans e → prog E ans R) :
  eval env (Call e k) = eval env (k (env e)).
Proof. reflexivity. Qed.

Lemma eval_bind {A B} (m : prog E ans A) (f : A → prog E ans B) :
  eval env (m ≫= f) = eval env (f (eval env m)).
Proof.
  induction m as [a|e k IH]; [reflexivity|].
  change (eval env (Call e k ≫= f)) with (eval env (k (env e) ≫= f)).
  rewrite IH. reflexivity.
Qed.

Lemma eval_call (e : E) : eval env (call e) = env e.
Proof. reflexivity. Qed.

Lemma eval_ret {A} (a : A) : eval env (mret a : prog E ans A) = a.
Proof. reflexivity. Qed.

Lemma trace_bind {A B} (m : prog E ans A) (f : A → prog E ans B) :
  trace env (m ≫= f) = trace env m ++ trace env (f (eval env m)).
Proof.
  induction m as [a|e k IH]; [reflexivity|].
  change (trace env (Call e k ≫= f)) with (e :: trace env (k (env e) ≫= f)).
  rewrite IH. reflexivity.
Qed.

Lemma trace_call (e : E) : trace env (call e) = [e].
Proof. reflexivity. Qed.

Lemma run_eval_trace {R} (p : prog E ans R) :
  run env p = (trace env p, eval env p).
Proof.
  induction p as [r|e k IH]; [reflexivity|].
  cbn [run eval trace]. rewrite IH. reflexivity.
Qed.

End Run.

End prog_facts.

(** * The date codec *)

Module codec_claims.

Import time currency_helpers time_facts codec_facts.

(** C6 (as amended).  The canonical text [YYYY-MM-DD] of every valid date
    other than 0001-01-01 is read by [UnmarshalJSON] without error and
    written back unchanged by [MarshalJSON]; the unset value is written as
    [null], and [null] is read as the unset value without error. *)
Theorem CustomTime_round_trip
    (Parse_RFC3339 : string → result Time) (y m d : Z) :
  spec.validDate y m d → (y, m, d) ≠ (1, 1, 1) →
  let text := spec.quoted (spec.canonical y m d) in
  (UnmarshalJSON Parse_RFC3339 text).2 = None
  ∧ MarshalJSON (UnmarshalJSON Parse_RFC3339 text).1 = text
  ∧ MarshalJSON zero = "null"
  ∧ UnmarshalJSON Parse_RFC3339 "null" = (zero, None).
Proof.
  intros (Hy & Hm & Hd) Hne text.
  assert (Hd31 : d <= 31).
  { pose proof (daysIn'_le (isLeap y) m Hm) as Hle.
    change (daysIn m y) with (daysIn' (isLeap y) m) in Hd. lia. }
  destruct (canonical_digits y m d Hy ltac:(lia) ltac:(lia))
    as (c0 & c1 & c2 & c3 & c4 & c5 & c6 & c7 & Hcan & Hdig & Hyv & Hmv & Hdv
        & Hfy & Hfm & Hfd).
  destruct Hdig as (D0 & D1 & D2 & D3 & D4 & D5 & D6 & D7).
  assert (Hparse : UnmarshalJSON Parse_RFC3339 text = (time.Date y m d 0 0 0 0, None)).
  { unfold UnmarshalJSON, text. rewrite Hcan.
    rewrite Trim_quoted_digits by assumption.
    cbn [String.eqb]. rewrite (digit_not_n c0 D0).
    rewrite Parse_digits by (assumption || (rewrite ?Hyv, ?Hmv, ?Hdv; lia)).
    rewrite Hyv, Hmv, Hdv. reflexivity. }
  rewrite Hparse. cbn [fst snd].
  split; [reflexivity|]. split; [|split; reflexivity].
  destruct (absDate_Date y m d Hy Hm Hd) as (HD & Hof & Hext).
  unfold MarshalJSON, nilTime.
  assert (Hw : time.Date y m d 0 0 0 0 = mkTime 0 (ext (time.Date y m d 0 0 0 0)))
    by (rewrite HD; reflexivity).
  rewrite Hw at 1. rewrite UnixNano_midnight by exact Hext.
  destruct (Z.eqb_spec (ext (time.Date y m d 0 0 0 0)) 0) as [E|_].
  { exfalso. apply Hne. apply Date_zero_inv; assumption. }
  unfold Format_2006_01_02. rewrite Hof, Hfy, Hfm, Hfd.
  unfold text. rewrite Hcan. reflexivity.
Qed.

(** The text of the spec's example, 2024-03-05, makes the round trip. *)
Lemma CustomTime_round_trip_witness :
  MarshalJSON
    (UnmarshalJSON (λ _, Err "cannot parse") (spec.quoted "2024-03-05")).1
  = spec.quoted "2024-03-05".
Proof.
  apply (CustomTime_round_trip (λ _, Err "cannot parse") 2024 3 5).
  - unfold spec.validDate. vm_compute. repeat split; intros H; discriminate H.
  - intros H. discriminate H.
Defined.

(** C6 as stated fails at the canonical text 0001-01-01: that date is the
    zero [Time], which [MarshalJSON] writes as [null]. *)
Lemma CustomTime_round_trip_counterexample :
  spec.validDate 1 1 1
  ∧ spec.canonical 1 1 1 = "0001-01-01"
  ∧ (UnmarshalJSON (λ _, Err "cannot parse") (spec.quoted "0001-01-01")).2 = None
  ∧ MarshalJSON
      (UnmarshalJSON (λ _, Err "cannot parse") (spec.quoted "0001-01-01")).1
    = "null"
  ∧ "null" ≠ spec.quoted "0001-01-01".
Proof.
  split; [|split; [|split; [|split]]].
  - unfold spec.validDate. vm_compute. repeat split; intros H; discriminate H.
  - reflexivity.
  - vm_compute. reflexivity.
  - vm_compute. reflexivity.
  - intros H. discriminate H.
Qed.

End codec_claims.

(** * The cache *)

Module cache_claims.

Import currency_helpers.

Section Redis.

Context `{!json.JSON (slice CurrencyWithBanStatus)}.
Context `{!json.JSON CurrencyRates}.
Context `{!json.JSON CurrencyTimelineRate}.

(** The answers of the Redis client. *)
Variable rds : ∀ c : redis.Cmd, redis.ans c.

Lemma GetAvailableCurrencies_run :
  (run rds cache.Redis.GetAvailableCurrencies).2 =
    match rds (redis.Get AvailableCurrencies) with
    | redis.Fail redis.Nil => Ok None
    | redis.Fail err =>
        Err (Wrap (redis.Error err) "error in getting available currencies")
    | redis.Val jsonData =>
        match json.Unmarshal jsonData with
        | Err err => Err (Wrap err "parse currency currency availability data")
        | Ok result => Ok result
        end
    end.
Proof.
  unfold cache.Redis.GetAvailableCurrencies. cbn.
  destruct (rds (redis.Get AvailableCurrencies)) as [data|[|msg]]; cbn;
    try reflexivity.
  destruct (json.Unmarshal data); reflexivity.
Qed.

Lemma GetCurrencyLastRate_run base second :
  (run rds (cache.Redis.GetCurrencyLastRate base second)).2 =
    match rds (redis.HGet CurrentTimeRateCollection base) with
    | redis.Fail redis.Nil => Ok None
    | redis.Fail err =>
        Err (Wrap (redis.Error err) "get currency last rate error")
    | redis.Val jsonData =>
        match json.Unmarshal jsonData with
        | Err err => Err (Wrap err "parse currency rate data")
        | Ok result => Ok (Some (ToResultRate result second))
        end
    end.
Proof.
  unfold cache.Redis.GetCurrencyLastRate. cbn.
  destruct (rds (redis.HGet CurrentTimeRateCollection base)) as [data|[|msg]];
    cbn; try reflexivity.
  destruct (json.Unmarshal data); reflexivity.
Qed.

Lemma GetTimestampRate_run base second :
  (run rds (cache.Redis.GetTimestampRate base second)).2 =
    match rds (redis.HGet TimeCollection (base +:+ ":" +:+ second)) with
    | redis.Fail redis.Nil => Ok None
    | redis.Fail err =>
        Err (Wrap (redis.Error err) "get timestamp rate error")
    | redis.Val jsonData =>
        match json.Unmarshal jsonData with
        | Err err => Err (Wrap err "parse timestamp rate data")
        | Ok result => Ok (Some result)
        end
    end.
Proof.
  unfold cache.Redis.GetTimestampRate. cbn.
  destruct (rds (redis.HGet TimeCollection (base +:+ ":" +:+ second)))
    as [data|[|msg]]; cbn; try reflexivity.
  destruct (json.Unmarshal data); reflexivity.
Qed.

(** C8 (as amended).  A cache read answers [nil, nil] when the client
    reports [redis.Nil]; for the last rate and the timeline that is the
    only case, while the availability read also does so for a stored
    document that unmarshals to the [nil] slice.  A read fails on any
    other client error and on a document that does not unmarshal.  A
    write that reports an empty status or zero fields and a delete that
    reports zero keys fail. *)
Theorem cache_error_discipline
    (base second : CurrencyCode)
    (availableCurrencies : slice CurrencyWithBanStatus)
    (currencyRates : CurrencyRates) (rate : CurrencyTimelineRate) :
  let available := (run rds cache.Redis.GetAvailableCurrencies).2 in
  let lastRate := (run rds (cache.Redis.GetCurrencyLastRate base second)).2 in
  let timeline := (run rds (cache.Redis.GetTimestampRate base second)).2 in
  let getAvailable := rds (redis.Get AvailableCurrencies) in
  let getLastRate := rds (redis.HGet CurrentTimeRateCollection base) in
  let getTimeline :=
    rds (redis.HGet TimeCollection (base +:+ ":" +:+ second)) in
  (* absent without error *)
  (available = Ok None ↔
     getAvailable = redis.Fail redis.Nil
     ∨ ∃ data, getAvailable = redis.Val data
               ∧ json.Unmarshal (A := slice CurrencyWithBanStatus) data
                 = Ok None)
  ∧ (lastRate = Ok None ↔ getLastRate = redis.Fail redis.Nil)
  ∧ (timeline = Ok None ↔ getTimeline = redis.Fail redis.Nil)
  (* failure of the backend *)
  ∧ (∀ msg, getAvailable = redis.Fail (redis.Failure msg) →
       ∃ err, available = Err err)
  ∧ (∀ msg, getLastRate = redis.Fail (redis.Failure msg) →
       ∃ err, lastRate = Err err)
  ∧ (∀ msg, getTimeline = redis.Fail (redis.Failure msg) →
       ∃ err, timeline = Err err)
  (* malformed stored payload *)
  ∧ (∀ data e, getAvailable = redis.Val data →
       json.Unmarshal (A := slice CurrencyWithBanStatus) data = Err e →
       ∃ err, available = Err err)
  ∧ (∀ data e, getLastRate = redis.Val data →
       json.Unmarshal (A := CurrencyRates) data = Err e →
       ∃ err, lastRate = Err err)
  ∧ (∀ data e, getTimeline = redis.Val data →
       json.Unmarshal (A := CurrencyTimelineRate) data = Err e →
       ∃ err, timeline = Err err)
  (* writes and deletes that affect nothing *)
  ∧ (∀ data, json.Marshal availableCurrencies = Ok data →
       rds (redis.Set_ AvailableCurrencies data (3600 * 24)) = redis.Val "" →
       (run rds (cache.Redis.SetAvailableCurrencies availableCurrencies)).2
         = Some "save no info")
  ∧ (rds (redis.Del AvailableCurrencies) = redis.Val 0 →
       (run rds cache.Redis.CleanCacheForAvailableCurrencies).2
         = Some "deleted no info")
  ∧ (∀ data, json.Marshal currencyRates = Ok data →
       rds (redis.HSet CurrentTimeRateCollection (cr_Base currencyRates) data)
         = redis.Val 0 →
       (run rds (cache.Redis.SetCurrencyLastRate currencyRates)).2
         = Some "save no info")
  ∧ (∀ data, json.Marshal rate = Ok data →
       rds (redis.HSet TimeCollection
              (ctr_Base rate +:+ ":" +:+ ctr_Second rate) data)
         = redis.Val 0 →
       (run rds (cache.Redis.SaveTimestampRate rate)).2
         = Some "save no info").
Proof.
  cbv zeta.
  rewrite GetAvailableCurrencies_run, GetCurrencyLastRate_run,
    GetTimestampRate_run.
  repeat match goal with |- _ ∧ _ => split end.
  - destruct (rds (redis.Get AvailableCurrencies)) as [data|[|msg]].
    + destruct (json.Unmarshal data) as [[l|]|e] eqn:E; split.
      * intros [=].
      * intros [[=]|(d & [= ->] & Hd)]. rewrite E in Hd. discriminate Hd.
      * intros _. right. exists data. auto.
      * reflexivity.
      * intros [=].
      * intros [[=]|(d & [= ->] & Hd)]. rewrite E in Hd. discriminate Hd.
    + split; auto.
    + split; [intros [=]|intros [[=]|(d & [=] & _)]].
  - destruct (rds (redis.HGet CurrentTimeRateCollection base)) as [data|[|msg]].
    + destruct (json.Unmarshal data); split; intros [=].
    + split; reflexivity.
    + split; intros [=].
  - destruct (rds (redis.HGet TimeCollection _)) as [data|[|msg]].
    + destruct (json.Unmarshal data); split; intros [=].
    + split; reflexivity.
    + split; intros [=].
  - intros msg ->. eauto.
  - intros msg ->. eauto.
  - intros msg ->. eauto.
  - intros data e -> ->. eauto.
  - intros data e -> ->. eauto.
  - intros data e -> ->. eauto.
  - intros data Hm Hr. unfold cache.Redis.SetAvailableCurrencies.
    rewrite Hm. cbn. rewrite Hr. reflexivity.
  - intros Hr. unfold cache.Redis.CleanCacheForAvailableCurrencies.
    cbn. rewrite Hr. reflexivity.
  - intros data Hm Hr. unfold cache.Redis.SetCurrencyLastRate.
    rewrite Hm. cbn. rewrite Hr. reflexivity.
  - intros data Hm Hr. unfold cache.Redis.SaveTimestampRate.
    rewrite Hm. cbn. rewrite Hr. reflexivity.
Qed.

(** C10.  On every server, whatever else it holds: when the hash of the
    last rates already has a field for the base, [SetCurrencyLastRate]
    replaces the stored document by the new one and returns the error
    [save no info]; and, independently, when the hash of the timelines
    already has a field for the pair, [SaveTimestampRate] does the same. *)
Theorem overwrite_reported_as_failure :
  (∀ (st : redis.Server) (currencyRates : CurrencyRates) (data old : string),
     json.Marshal currencyRates = Ok data →
     redis.hash_of st CurrentTimeRateCollection !! cr_Base currencyRates
       = Some old →
     let '(_, err, st') :=
       exec redis.step (cache.Redis.SetCurrencyLastRate currencyRates) st in
     err = Some "save no info"
     ∧ redis.hash_of st' CurrentTimeRateCollection !! cr_Base currencyRates
       = Some data)
  ∧ (∀ (st : redis.Server) (rate : CurrencyTimelineRate) (data old : string),
       json.Marshal rate = Ok data →
       redis.hash_of st TimeCollection
         !! (ctr_Base rate +:+ ":" +:+ ctr_Second rate) = Some old →
       let '(_, err, st') :=
         exec redis.step (cache.Redis.SaveTimestampRate rate) st in
       err = Some "save no info"
       ∧ redis.hash_of st' TimeCollection
           !! (ctr_Base rate +:+ ":" +:+ ctr_Second rate) = Some data).
Proof.
  split.
  - intros st currencyRates data old Hm Hold.
    unfold cache.Redis.SetCurrencyLastRate. rewrite Hm. cbn.
    rewrite bool_decide_eq_true_2 by (exists old; exact Hold). cbn.
    split; [reflexivity|].
    unfold redis.hash_of. cbn. rewrite lookup_insert_eq. cbn.
    apply lookup_insert_eq.
  - intros st rate data old Hm Hold.
    unfold cache.Redis.SaveTimestampRate. rewrite Hm. cbn.
    rewrite bool_decide_eq_true_2 by (exists old; exact Hold). cbn.
    split; [reflexivity|].
    unfold redis.hash_of. cbn. rewrite lookup_insert_eq. cbn.
    apply lookup_insert_eq.
Qed.

End Redis.

Import example more_examples.

(** A server that holds an older document for USD and no timeline, and
    one that holds an older timeline and no rates: on each the new
    document replaces the old one, and the write is reported as failed. *)
Lemma overwrite_reported_as_failure_witness :
  (redis.hash_of staleRates CurrentTimeRateCollection !! cr_Base snapshot
     = Some "{base:USD,rates:{},date:2023-12-31}"
   ∧ redis.hashes staleRates !! TimeCollection = None
   ∧ (let '(_, err, st') :=
        exec redis.step (cache.Redis.SetCurrencyLastRate snapshot) staleRates in
      err = Some "save no info"
      ∧ redis.hash_of st' CurrentTimeRateCollection !! cr_Base snapshot
        = Some snapshotText))
  ∧ (redis.hash_of staleTimeline TimeCollection
       !! (ctr_Base series +:+ ":" +:+ ctr_Second series)
     = Some "{base:USD,second:EUR,rates:{}}"
     ∧ redis.hashes staleTimeline !! CurrentTimeRateCollection = None
     ∧ (let '(_, err, st') :=
          exec redis.step (cache.Redis.SaveTimestampRate series) staleTimeline in
        err = Some "save no info"
        ∧ redis.hash_of st' TimeCollection
            !! (ctr_Base series +:+ ":" +:+ ctr_Second series)
          = Some seriesText)).
Proof.
  split; (split; [reflexivity|]; split; [reflexivity|]).
  - apply (proj1 overwrite_reported_as_failure staleRates snapshot snapshotText
             "{base:USD,rates:{},date:2023-12-31}"); reflexivity.
  - apply (proj2 overwrite_reported_as_failure staleTimeline series seriesText
             "{base:USD,second:EUR,rates:{}}"); reflexivity.
Defined.

(** C8 as stated fails for the availability read when the stored
    document is [null]: the client reports the key present, and the read
    returns [nil, nil]. *)
Lemma cache_error_discipline_counterexample :
  nullDocuments (redis.Get AvailableCurrencies) = redis.Val "null"
  ∧ nullDocuments (redis.Get AvailableCurrencies) ≠ redis.Fail redis.Nil
  ∧ (run nullDocuments cache.Redis.GetAvailableCurrencies).2 = Ok None.
Proof.
  split; [reflexivity|]. split; [intros H; discriminate H|].
  vm_compute. reflexivity.
Qed.

End cache_claims.

(** * Validation of the requests *)

Module validation_claims.

Import currency_helpers.

Section Endpoints.

Variable CodeToCurrency : gmap CurrencyCode Currency.
Variable cfg : config.Config.

Context `{!json.JSON (slice CurrencyWithBanStatus)}.
Context `{!json.JSON service.BanRequest}.
Context `{!json.JSON CurrencyRate}.
Context `{!json.JSON CurrencyRatesResponse}.
Context `{!json.JSON CurrencyTimelineRatesResponse}.
Context `{!json.JSON CurrencyTimelineRate}.
Context `{!json.JSON (gmap CustomTime float64)}.
Context `{!json.JSON (slice float64)}.

Lemma registered_unknown code :
  spec.unknownCode CodeToCurrency code →
  service.registered CodeToCurrency code = false.
Proof.
  unfold spec.unknownCode, service.registered. intros ->.
  apply bool_decide_eq_false. intros [x Hx]. discriminate Hx.
Qed.

Lemma currentRateFromCache_invalid r fetch :
  spec.unknownCode CodeToCurrency (http.Query_Get r "base")
  ∨ spec.unknownCode CodeToCurrency (http.Query_Get r "second") →
  spec.clientFault (service.currentRateFromCache CodeToCurrency r fetch).
Proof.
  intros Hbad. unfold service.currentRateFromCache, spec.clientFault.
  destruct (service.registered CodeToCurrency (http.Query_Get r "base")) eqn:Eb;
    cbn [negb]; [|eexists; reflexivity].
  destruct Hbad as [Hb|Hs].
  { rewrite (registered_unknown _ Hb) in Eb. discriminate Eb. }
  rewrite (registered_unknown _ Hs). cbn [negb]. eexists; reflexivity.
Qed.

Lemma timelineValidated_invalid r rest :
  spec.invalidRequest CodeToCurrency spec.Timeline r →
  spec.clientFault (service.timelineValidated CodeToCurrency r rest).
Proof.
  intros Hbad. unfold service.timelineValidated, spec.clientFault.
  destruct (service.registered CodeToCurrency (http.Query_Get r "base")) eqn:Eb;
    cbn [negb]; [|eexists; reflexivity].
  destruct (service.registered CodeToCurrency (http.Query_Get r "second"))
    eqn:Es; cbn [negb]; [|eexists; reflexivity].
  destruct (time.Parse_2006_01_02 (http.Query_Get r "start")) as [s|e] eqn:Ps;
    [|eexists; reflexivity].
  destruct (time.Parse_2006_01_02 (http.Query_Get r "end")) as [e|e'] eqn:Pe;
    [|eexists; reflexivity].
  exfalso. destruct Hbad as [Hb|[Hb|[[err Hp]|[err Hp]]]].
  - rewrite (registered_unknown _ Hb) in Eb. discriminate Eb.
  - rewrite (registered_unknown _ Hb) in Es. discriminate Es.
  - rewrite Hp in Ps. discriminate Ps.
  - rewrite Hp in Pe. discriminate Pe.
Qed.

(** C5.  On each of the four endpoints, in both variants of the
    handlers, a request carrying a currency code outside the registry
    (or, for the timeline, a [start] or [end] that does not parse with
    the canonical layout) is answered with status 400 by a handler that
    has made no call at all: none to the cache, the ban store or the
    provider. *)
Theorem invalid_request_rejected_before_io
    (v : spec.variant) (ep : spec.endpoint)
    (range1 range2 : list CurrencyCode) (r : http.Request) :
  spec.invalidRequest CodeToCurrency ep r →
  spec.clientFault (spec.handle CodeToCurrency cfg v ep range1 range2 r)
  ∧ ∀ env, trace env (spec.handle CodeToCurrency cfg v ep range1 range2 r)
           = [].
Proof.
  intros Hbad.
  assert (Hf : spec.clientFault
                 (spec.handle CodeToCurrency cfg v ep range1 range2 r)).
  { destruct ep; cbn [spec.invalidRequest] in Hbad.
    - destruct Hbad.
    - destruct Hbad as (req & Hreq & Hcode).
      assert (spec.handle CodeToCurrency cfg v spec.ChangeBan range1 range2 r
              = service.ChangeCurrencyBanStatus CodeToCurrency r) as ->
        by (destruct v; reflexivity).
      unfold service.ChangeCurrencyBanStatus, spec.clientFault.
      rewrite Hreq, (registered_unknown _ Hcode). cbn [negb].
      eexists; reflexivity.
    - destruct v; apply currentRateFromCache_invalid; exact Hbad.
    - destruct v; apply timelineValidated_invalid; exact Hbad. }
  split; [exact Hf|].
  destruct Hf as [msg ->]. reflexivity.
Qed.

End Endpoints.

Import example.

(** The code XXX is not in the registry of the example. *)
Lemma invalid_request_rejected_before_io_witness :
  spec.clientFault
    (spec.handle CodeToCurrency cfg spec.Service spec.CurrentRate [] []
       (rateRequest "XXX" "USD"))
  ∧ ∀ env,
      trace env
        (spec.handle CodeToCurrency cfg spec.Service spec.CurrentRate [] []
           (rateRequest "XXX" "USD"))
      = [].
Proof.
  apply (invalid_request_rejected_before_io CodeToCurrency cfg spec.Service
           spec.CurrentRate [] [] (rateRequest "XXX" "USD")).
  left. vm_compute. reflexivity.
Defined.

End validation_claims.

(** * Best-effort cache writes *)

Module best_effort_claims.

Import currency_helpers.

Section Endpoints.

Variable CodeToCurrency : gmap CurrencyCode Currency.
Variable cfg : config.Config.

Context `{!json.JSON (slice CurrencyWithBanStatus)}.
Context `{!json.JSON service.BanRequest}.
Context `{!json.JSON CurrencyRate}.
Context `{!json.JSON CurrencyRatesResponse}.
Context `{!json.JSON CurrencyTimelineRatesResponse}.
Context `{!json.JSON CurrencyTimelineRate}.
Context `{!json.JSON (gmap CustomTime float64)}.
Context `{!json.JSON (slice float64)}.

Variables env env' : ∀ e : service.Effect, service.ans e.
Hypothesis agree : ∀ e, spec.isCacheWrite e = false → env e = env' e.

(** One step of a handler under both environments: a call other than
    a cache write has the same answer, and the handlers branch on it
    alike. *)
Ltac same_answer :=
  match goal with
  | |- context [env' ?e] => rewrite <- (agree e eq_refl)
  end.

Ltac branch :=
  match goal with
  | |- context [match env ?e with _ => _ end] => destruct (env e)
  | |- context [match env' ?e with _ => _ end] => destruct (env' e)
  | |- context [match json.Unmarshal ?d with _ => _ end] =>
      destruct (json.Unmarshal d)
  | |- context [match json.Marshal ?d with _ => _ end] =>
      destruct (json.Marshal d)
  | |- context [match ?x with Some _ => _ | None => _ end] => destruct x
  | |- context [if ?b then _ else _] => destruct b
  | |- context [match ?x with Ok _ => _ | Err _ => _ end] => destruct x
  | |- context [match ?x with [] => _ | _ :: _ => _ end] => destruct x
  end.

(** The dates and texts the handlers compute play no part in the
    comparison of the two runs: they are abstracted first, and only the
    program structure is reduced. *)
Ltac abstract_values :=
  generalize service.cachedRateIsUsed, time.Date, time.Year, time.Month,
    time.Day, time.AddDate, time.Format_02_01_2006, time.Format_2006_01_02,
    time.Parse_2006_01_02, service.predictionsOf, service.timelineResult,
    service.less, (@sort.SliceStable CurrencyWithBanStatus);
  intros ? ? ? ? ? ? ? ? ? ? ? ? ?.

Ltac steps :=
  cbn [eval bind mbind mret prog_bind prog_ret call service.http_Error
       service.respond negb].

Ltac both_runs :=
  steps; repeat same_answer; try reflexivity;
  repeat (branch; steps; repeat same_answer; try reflexivity).

Lemma GetAvailableCurrencies_agree range1 range2 r :
  eval env (service.GetAvailableCurrencies range1 range2 r)
  = eval env' (service.GetAvailableCurrencies range1 range2 r).
Proof.
  unfold service.GetAvailableCurrencies, service.sqlx_In, service.Encode.
  abstract_values. both_runs.
Qed.

Lemma ChangeCurrencyBanStatus_agree r :
  eval env (service.ChangeCurrencyBanStatus CodeToCurrency r)
  = eval env' (service.ChangeCurrencyBanStatus CodeToCurrency r).
Proof. unfold service.ChangeCurrencyBanStatus. abstract_values. both_runs. Qed.

Lemma fetchCurrentRate_agree url second :
  eval env (service.fetchCurrentRate url second)
  = eval env' (service.fetchCurrentRate url second).
Proof. unfold service.fetchCurrentRate. abstract_values. both_runs. Qed.

Lemma currentRateFromCache_agree r fetch :
  (∀ base second, eval env (fetch base second) = eval env' (fetch base second)) →
  eval env (service.currentRateFromCache CodeToCurrency r fetch)
  = eval env' (service.currentRateFromCache CodeToCurrency r fetch).
Proof.
  intros Hfetch. unfold service.currentRateFromCache, service.Encode.
  abstract_values. steps;
  repeat (branch; steps; repeat same_answer; try reflexivity; try apply Hfetch).
Qed.

Lemma fetchTimeline_agree base second rest :
  (∀ cr, eval env (rest cr) = eval env' (rest cr)) →
  eval env (service.fetchTimeline cfg base second rest)
  = eval env' (service.fetchTimeline cfg base second rest).
Proof.
  intros Hrest. unfold service.fetchTimeline.
  abstract_values. steps; repeat same_answer;
  repeat (branch; steps; repeat same_answer; try reflexivity; try apply Hrest).
Qed.

Lemma timelineValidated_agree r rest :
  (∀ base second startDate endDate,
     eval env (rest base second startDate endDate)
     = eval env' (rest base second startDate endDate)) →
  eval env (service.timelineValidated CodeToCurrency r rest)
  = eval env' (service.timelineValidated CodeToCurrency r rest).
Proof.
  intros Hrest. unfold service.timelineValidated.
  abstract_values. steps;
  repeat (branch; steps; try reflexivity; try apply Hrest).
Qed.

Lemma handle_agree
    (v : spec.variant) (ep : spec.endpoint)
    (range1 range2 : list CurrencyCode) (r : http.Request) :
  eval env (spec.handle CodeToCurrency cfg v ep range1 range2 r)
  = eval env' (spec.handle CodeToCurrency cfg v ep range1 range2 r).
Proof.
  destruct ep.
  - destruct v; apply GetAvailableCurrencies_agree.
  - destruct v; apply ChangeCurrencyBanStatus_agree.
  - destruct v; cbn [spec.handle].
    + apply currentRateFromCache_agree. intros base second.
      abstract_values. steps. repeat same_answer.
      apply fetchCurrentRate_agree.
    + apply currentRateFromCache_agree. intros base second.
      abstract_values. steps. repeat same_answer.
      apply fetchCurrentRate_agree.
  - destruct v; cbn [spec.handle].
    + apply timelineValidated_agree. intros base second startDate endDate.
      generalize (service.timelineResult). intros result.
      steps. same_answer.
      destruct (env (service.redisCache (cache.GetTimestampRate base second)))
        as [[cr|]|err].
      * unfold service.Encode. both_runs.
      * apply fetchTimeline_agree. intros cr. unfold service.Encode.
        both_runs.
      * reflexivity.
    + apply timelineValidated_agree. intros base second startDate endDate.
      unfold service.Encode. abstract_values. both_runs.
Qed.

(** *** Failed writes are logged *)

Ltac tsteps :=
  cbn [trace eval bind mbind mret prog_bind prog_ret call
       service.http_Error service.respond negb app
       spec.failedWritesLogged spec.failedWrite andb].

Ltac logged :=
  tsteps; try reflexivity;
  repeat (branch; tsteps; try reflexivity).

Lemma GetAvailableCurrencies_logged range1 range2 r :
  spec.failedWritesLogged env
    (trace env (service.GetAvailableCurrencies range1 range2 r)) = true.
Proof.
  unfold service.GetAvailableCurrencies, service.sqlx_In, service.Encode.
  abstract_values. logged.
Qed.

Lemma ChangeCurrencyBanStatus_logged r :
  spec.failedWritesLogged env
    (trace env (service.ChangeCurrencyBanStatus CodeToCurrency r)) = true.
Proof. unfold service.ChangeCurrencyBanStatus. abstract_values. logged. Qed.

Lemma fetchCurrentRate_logged url second :
  spec.failedWritesLogged env
    (trace env (service.fetchCurrentRate url second)) = true.
Proof. unfold service.fetchCurrentRate. abstract_values. logged. Qed.

Lemma currentRateFromCache_logged r fetch :
  (∀ base second,
     spec.failedWritesLogged env (trace env (fetch base second)) = true) →
  spec.failedWritesLogged env
    (trace env (service.currentRateFromCache CodeToCurrency r fetch)) = true.
Proof.
  intros Hfetch. unfold service.currentRateFromCache, service.Encode.
  abstract_values. tsteps;
  repeat (branch; tsteps; try reflexivity; try apply Hfetch).
Qed.

Lemma fetchTimeline_logged base second rest :
  (∀ cr, spec.failedWritesLogged env (trace env (rest cr)) = true) →
  spec.failedWritesLogged env
    (trace env (service.fetchTimeline cfg base second rest)) = true.
Proof.
  intros Hrest. unfold service.fetchTimeline.
  abstract_values. tsteps;
  repeat (branch; tsteps; try reflexivity; try apply Hrest).
Qed.

Lemma timelineValidated_logged r rest :
  (∀ base second startDate endDate,
     spec.failedWritesLogged env
       (trace env (rest base second startDate endDate)) = true) →
  spec.failedWritesLogged env
    (trace env (service.timelineValidated CodeToCurrency r rest)) = true.
Proof.
  intros Hrest. unfold service.timelineValidated.
  abstract_values. tsteps;
  repeat (branch; tsteps; try reflexivity; try apply Hrest).
Qed.

Lemma handle_logged (v : spec.variant) (ep : spec.endpoint)
    (range1 range2 : list CurrencyCode) (r : http.Request) :
  spec.failedWritesLogged env
    (trace env (spec.handle CodeToCurrency cfg v ep range1 range2 r)) = true.
Proof.
  destruct ep.
  - destruct v; apply GetAvailableCurrencies_logged.
  - destruct v; apply ChangeCurrencyBanStatus_logged.
  - destruct v; cbn [spec.handle].
    + apply currentRateFromCache_logged. intros base second.
      abstract_values. tsteps. apply fetchCurrentRate_logged.
    + apply currentRateFromCache_logged. intros base second.
      abstract_values. tsteps. apply fetchCurrentRate_logged.
  - destruct v; cbn [spec.handle].
    + apply timelineValidated_logged. intros base second startDate endDate.
      generalize (service.timelineResult). intros result.
      tsteps.
      destruct (env (service.redisCache (cache.GetTimestampRate base second)))
        as [[cr|]|err].
      * unfold service.Encode. logged.
      * apply fetchTimeline_logged. intros cr. unfold service.Encode.
        logged.
      * reflexivity.
    + apply timelineValidated_logged. intros base second startDate endDate.
      unfold service.Encode. abstract_values. logged.
Qed.

(** C9.  The response of every handler, in both variants, is the same
    under two behaviours of the collaborators that differ only in how
    the cache answers the writes (the three write-through calls and
    the invalidation of the availability list): a failed cache write
    never changes the response.  Every such failure is followed at once
    by a call to the logger. *)
Theorem cache_write_failure_not_propagated
    (v : spec.variant) (ep : spec.endpoint)
    (range1 range2 : list CurrencyCode) (r : http.Request) :
  eval env (spec.handle CodeToCurrency cfg v ep range1 range2 r)
  = eval env' (spec.handle CodeToCurrency cfg v ep range1 range2 r)
  ∧ spec.failedWritesLogged env
      (trace env (spec.handle CodeToCurrency cfg v ep range1 range2 r))
    = true.
Proof.
  split; [apply handle_agree|apply handle_logged].
Qed.

End Endpoints.

Import example.

(** The availability list on a cache miss, with a cache that accepts the
    write and with one that rejects it. *)
Lemma cache_write_failure_not_propagated_witness :
  let env :=
    collaborators (time.Date 2024 1 2 9 0 0 0) None (Some "save no info")
      (Err "no route") in
  let env' :=
    collaborators (time.Date 2024 1 2 9 0 0 0) None None (Err "no route") in
  let h :=
    spec.handle CodeToCurrency cfg spec.Service spec.Available
      ["GBP"; "USD"; "EUR"] ["GBP"; "USD"; "EUR"] (rateRequest "" "") in
  eval env h = eval env' h
  ∧ spec.failedWritesLogged env (trace env h) = true.
Proof.
  apply (cache_write_failure_not_propagated CodeToCurrency cfg
           (collaborators (time.Date 2024 1 2 9 0 0 0) None
              (Some "save no info") (Err "no route"))
           (collaborators (time.Date 2024 1 2 9 0 0 0) None None
              (Err "no route"))).
  intros [[]| | | | | |]; intros Hw; first [discriminate Hw|reflexivity].
Defined.

End best_effort_claims.

(** * Sorting *)

Module sort_facts.

Section SliceStable.

Context {A : Type} (less : A → A → bool).

Lemma insert_Permutation x prefix : sort.insert less x prefix ≡ₚ x :: prefix.
Proof.
  induction prefix as [|y prefix IH]; [reflexivity|].
  cbn [sort.insert]. destruct (less x y); [|reflexivity].
  rewrite IH. apply Permutation_swap.
Qed.

Lemma foldl_insert_Permutation data prefix :
  foldl (λ prefix x, sort.insert less x prefix) prefix data
  ≡ₚ data ++ prefix.
Proof.
  revert prefix. induction data as [|x data IH]; intros prefix; [reflexivity|].
  cbn [foldl]. rewrite IH, insert_Permutation.
  rewrite <- Permutation_middle. reflexivity.
Qed.

Lemma SliceStable_Permutation data : sort.SliceStable less data ≡ₚ data.
Proof.
  unfold sort.SliceStable.
  rewrite <- Permutation_rev, foldl_insert_Permutation, app_nil_r.
  reflexivity.
Qed.

Hypothesis less_total : ∀ x y, less x y = true ∨ less y x = true.
Hypothesis less_trans :
  ∀ x y z, less x y = true → less y z = true → less x z = true.

#[local] Abbreviation descending := (orders.descending less).

Lemma insert_descending x prefix :
  descending prefix → descending (sort.insert less x prefix).
Proof.
  unfold orders.descending.
  induction prefix as [|y prefix IH]; intros Hs; cbn [sort.insert].
  { repeat constructor. }
  apply StronglySorted_cons in Hs. destruct Hs as [Hy Hs].
  destruct (less x y) eqn:Hxy.
  - apply StronglySorted_cons. split; [|apply IH; exact Hs].
    rewrite insert_Permutation. constructor; assumption.
  - assert (Hyx : less y x = true).
    { destruct (less_total x y) as [H|H]; [congruence|exact H]. }
    apply StronglySorted_cons. split.
    + constructor; [exact Hyx|].
      eapply Forall_impl; [exact Hy|]. cbn. intros z Hz.
      eapply less_trans; eassumption.
    + apply StronglySorted_cons. split; assumption.
Qed.

Lemma foldl_insert_descending data prefix :
  descending prefix →
  descending (foldl (λ prefix x, sort.insert less x prefix) prefix data).
Proof.
  revert prefix. induction data as [|x data IH]; intros prefix Hs; [exact Hs|].
  cbn [foldl]. apply IH, insert_descending, Hs.
Qed.

Lemma descending_rev l :
  descending l → StronglySorted (λ a b, less a b = true) (rev l).
Proof.
  unfold orders.descending. induction l as [|x l IH]; intros Hs; [constructor|].
  apply StronglySorted_cons in Hs. destruct Hs as [Hx Hs].
  cbn [rev]. apply StronglySorted_app. repeat split.
  - intros a b Ha Hb. apply list_elem_of_singleton in Hb. subst b.
    rewrite Forall_forall in Hx. apply Hx.
    apply list_elem_of_In, in_rev, list_elem_of_In. exact Ha.
  - apply IH, Hs.
  - repeat constructor.
Qed.

Lemma SliceStable_sorted data :
  StronglySorted (λ a b, less a b = true) (sort.SliceStable less data).
Proof.
  unfold sort.SliceStable. apply descending_rev, foldl_insert_descending.
  constructor.
Qed.

End SliceStable.

(** *** The order on strings *)

Lemma String_leb_trans a b c :
  String.leb a b = true → String.leb b c = true → String.leb a c = true.
Proof.
  revert b c. induction a as [|x a IH]; intros [|y b] [|z c];
    unfold String.leb; cbn [String.compare]; try (intros; congruence).
  unfold Ascii.compare.
  destruct (N.compare_spec (N_of_ascii x) (N_of_ascii y)) as [Hxy|Hxy|Hxy];
  destruct (N.compare_spec (N_of_ascii y) (N_of_ascii z)) as [Hyz|Hyz|Hyz];
  destruct (N.compare_spec (N_of_ascii x) (N_of_ascii z)) as [Hxz|Hxz|Hxz];
    try (intros; congruence); try (exfalso; lia).
  intros H1 H2. exact (IH b c H1 H2).
Qed.

Lemma String_leb_ltb a b :
  String.leb a b = true → a ≠ b → String.ltb a b = true.
Proof.
  unfold String.leb, String.ltb. intros Hle Hne.
  destruct (String.compare a b) eqn:E; try congruence.
  apply String.compare_eq_iff in E. contradiction.
Qed.

End sort_facts.

(** * The availability list *)

Module availability_claims.

Import currency_helpers availability.

Lemma less_total x y : service.less x y = true ∨ service.less y x = true.
Proof.
  unfold service.less.
  destruct (Banned x), (Banned y); cbn; auto using String.leb_total.
Qed.

Lemma less_trans x y z :
  service.less x y = true → service.less y z = true → service.less x z = true.
Proof.
  unfold service.less.
  destruct (Banned x), (Banned y), (Banned z); cbn;
    try congruence; apply sort_facts.String_leb_trans.
Qed.

Lemma cur2banMap_lookup curr2ban k v :
  cur2banMap curr2ban !! k = Some v → Currency_ v = k ∧ v ∈ curr2ban.
Proof.
  unfold cur2banMap. revert k v.
  induction curr2ban as [|row rows IH] using rev_ind; intros k v.
  { cbn. rewrite lookup_empty. discriminate. }
  rewrite foldl_app. cbn [foldl]. rewrite lookup_insert.
  case_decide as Hk.
  - intros [= <-]. split; [exact Hk|]. apply elem_of_app. right. constructor.
  - intros Hl. destruct (IH k v Hl) as [? ?]. split; [assumption|].
    apply elem_of_app. left. assumption.
Qed.

Lemma entries_codes curr2ban range2 :
  Currency_ <$> entries curr2ban range2 = range2.
Proof.
  unfold entries. rewrite <- list_fmap_compose.
  rewrite <- (list_fmap_id range2) at 2. apply list_fmap_ext.
  intros _ curr _. cbn.
  destruct (cur2banMap curr2ban !! curr) as [v|] eqn:E; [|reflexivity].
  apply cur2banMap_lookup in E. apply E.
Qed.

Lemma entries_default curr2ban range2 x :
  x ∈ entries curr2ban range2 →
  (∀ row, row ∈ curr2ban → Currency_ row ≠ Currency_ x) →
  Banned x = false.
Proof.
  unfold entries. intros Hx Hno.
  apply list_elem_of_fmap in Hx. destruct Hx as (curr & -> & _).
  destruct (cur2banMap curr2ban !! curr) as [v|] eqn:E; [|reflexivity].
  apply cur2banMap_lookup in E. destruct E as [_ Hin].
  exfalso. exact (Hno v Hin eq_refl).
Qed.

(** A list sorted by [less] whose codes are pairwise distinct is in the
    order of the specification. *)
Lemma sorted_bannedFirstThenCode l :
  NoDup (Currency_ <$> l) →
  StronglySorted (λ a b, service.less a b = true) l →
  StronglySorted spec.bannedFirstThenCode l.
Proof.
  induction l as [|x l IH]; intros Hnd Hs; [constructor|].
  cbn [fmap list_fmap] in Hnd. apply NoDup_cons in Hnd. destruct Hnd as [Hx Hnd].
  apply StronglySorted_cons in Hs. destruct Hs as [Hxl Hs].
  apply StronglySorted_cons. split; [|apply IH; assumption].
  rewrite Forall_forall in Hxl |- *. intros y Hy. specialize (Hxl y Hy).
  assert (Hne : Currency_ x ≠ Currency_ y).
  { intros Heq. apply Hx. rewrite Heq. apply list_elem_of_fmap. eauto. }
  unfold service.less in Hxl. unfold spec.bannedFirstThenCode.
  destruct (Banned x), (Banned y); cbn in Hxl; try discriminate Hxl.
  - right. split; [reflexivity|]. apply sort_facts.String_leb_ltb; assumption.
  - left. split; reflexivity.
  - right. split; [reflexivity|]. apply sort_facts.String_leb_ltb; assumption.
Qed.

Section GetAvailableCurrencies.

Variable CodeToCurrency : gmap CurrencyCode Currency.

Context `{!json.JSON (slice CurrencyWithBanStatus)}.

Variable env : ∀ e : service.Effect, service.ans e.

(** C4.  On a cache miss, whatever rows the ban store returns, the
    handler answers with the encoding of a list that has exactly one
    entry per code of the registry, in which every code without a row
    is not banned, and which is ordered with the banned entries first
    and, within each group, by ascending code. *)
Theorem availability_on_cache_miss
    (range1 range2 : list CurrencyCode)
    (curr2ban : list CurrencyWithBanStatus) (r : http.Request) :
  CodeToCurrency ≠ ∅ →
  range1 ≡ₚ (map_to_list CodeToCurrency).*1 →
  range2 ≡ₚ (map_to_list CodeToCurrency).*1 →
  env (service.redisCache cache.GetAvailableCurrencies) = Ok None →
  env (service.db_SelectContext range1) = Ok curr2ban →
  ∃ result : list CurrencyWithBanStatus,
    eval env (service.GetAvailableCurrencies range1 range2 r)
    = eval env (service.Encode (Some result) "error in marshalling currencies")
    ∧ Currency_ <$> result ≡ₚ (map_to_list CodeToCurrency).*1
    ∧ (∀ x, x ∈ result →
         (∀ row, row ∈ curr2ban → Currency_ row ≠ Currency_ x) →
         Banned x = false)
    ∧ StronglySorted spec.bannedFirstThenCode result.
Proof.
  intros Hne Hr1 Hr2 Hmiss Hrows.
  exists (sort.SliceStable service.less (entries curr2ban range2)).
  pose proof (sort_facts.SliceStable_Permutation service.less
                (entries curr2ban range2)) as Hperm.
  assert (Hcodes : Currency_ <$> sort.SliceStable service.less
                     (entries curr2ban range2) ≡ₚ range2).
  { rewrite Hperm, entries_codes. reflexivity. }
  split; [|split; [|split]].
  - unfold service.GetAvailableCurrencies.
    cbn zeta. cbn [eval bind mbind prog_bind call]. rewrite Hmiss.
    destruct range1 as [|c range1'].
    { exfalso. apply Permutation_nil in Hr1.
      apply fmap_nil_inv, map_to_list_empty_iff in Hr1. contradiction. }
    cbn [service.sqlx_In eval bind mbind prog_bind call]. rewrite Hrows.
    fold (cur2banMap curr2ban). fold (entries curr2ban range2).
    generalize (sort.SliceStable service.less (entries curr2ban range2)).
    intros result.
    cbn [eval bind mbind prog_bind call].
    destruct (env (service.redisCache (cache.SetAvailableCurrencies _)));
      cbn [eval bind mbind mret prog_bind prog_ret call]; reflexivity.
  - rewrite Hcodes. exact Hr2.
  - intros x Hx. rewrite Hperm in Hx. apply (entries_default curr2ban range2). exact Hx.
  - apply sorted_bannedFirstThenCode.
    + rewrite Hcodes, Hr2. apply NoDup_fst_map_to_list.
    + apply sort_facts.SliceStable_sorted; [apply less_total|apply less_trans].
Qed.

End GetAvailableCurrencies.

Import example.

(** The registry of the example with EUR and GBP banned in the store. *)
Lemma availability_on_cache_miss_witness :
  let env :=
    collaborators (time.Date 2024 1 2 9 0 0 0) None None (Err "no route") in
  ∃ result : list CurrencyWithBanStatus,
    eval env
      (service.GetAvailableCurrencies ["GBP"; "USD"; "EUR"]
         ["GBP"; "USD"; "EUR"] (rateRequest "" ""))
    = eval env (service.Encode (Some result) "error in marshalling currencies")
    ∧ Currency_ <$> result ≡ₚ (map_to_list CodeToCurrency).*1
    ∧ (∀ x, x ∈ result →
         (∀ row, row ∈ rows → Currency_ row ≠ Currency_ x) →
         Banned x = false)
    ∧ StronglySorted spec.bannedFirstThenCode result.
Proof.
  apply (availability_on_cache_miss CodeToCurrency
           (collaborators (time.Date 2024 1 2 9 0 0 0) None None
              (Err "no route"))
           ["GBP"; "USD"; "EUR"] ["GBP"; "USD"; "EUR"] rows (rateRequest "" "")).
  - intros H. apply (f_equal (λ m : gmap CurrencyCode Currency, m !! "USD")) in H.
    vm_compute in H. discriminate H.
  - vm_compute. reflexivity.
  - vm_compute. reflexivity.
  - reflexivity.
  - reflexivity.
Defined.

End availability_claims.
(** * The timeline fetched from the provider *)

Module fetch_facts.

Import currency_helpers.

Section Fetch.

Variable cfg : config.Config.

Context `{!json.JSON (slice CurrencyWithBanStatus)}.
Context `{!json.JSON service.BanRequest}.
Context `{!json.JSON CurrencyRate}.
Context `{!json.JSON CurrencyRatesResponse}.
Context `{!json.JSON CurrencyTimelineRatesResponse}.
Context `{!json.JSON CurrencyTimelineRate}.
Context `{!json.JSON (gmap CustomTime float64)}.
Context `{!json.JSON (slice float64)}.

Variable env : ∀ e : service.Effect, service.ans e.

(** When provider and forecast answer, [fetchTimeline] writes the
    timeline it built to the cache and hands it to what follows. *)
Lemma fetchTimeline_fetched (base second : CurrencyCode)
    (rates : CurrencyTimelineRates) (predictedRates : list float64)
    (rest : CurrencyTimelineRate → prog service.Effect service.ans service.Outcome) :
  timeline_flow.fetched env base second rates predictedRates →
  eval env (service.fetchTimeline cfg base second rest)
  = eval env (rest (timeline_flow.built env second rates predictedRates))
  ∧ service.redisCache
      (cache.SaveTimestampRate (timeline_flow.built env second rates predictedRates))
    ∈ trace env (service.fetchTimeline cfg base second rest).
Proof.
  intros (_ & Hnew & body & data & b & decoded & Hget & Hbody & Hdata & Hpost
          & Hb & <-).
  unfold timeline_flow.built, service.fetchTimeline.
  generalize time.Date, time.Year, time.Month, time.Day,
    time.Format_2006_01_02, service.predictionsOf.
  intros Date_ Year_ Month_ Day_ Format_ predictionsOf_.
  assert (Hget' : ∀ url ct rb,
            env (service.client_Do
                   {| http.Method := http.MethodGet; http.URL := url;
                      http.Header_ContentType := ct; http.ReqBody := rb |})
            = Ok body) by (intros; apply Hget; reflexivity).
  assert (Hpost' : ∀ url ct rb,
            env (service.client_Do
                   {| http.Method := http.MethodPost; http.URL := url;
                      http.Header_ContentType := ct; http.ReqBody := rb |})
            = Ok b) by (intros; apply Hpost; reflexivity).
  pose proof Hb as Hb'. unfold slice in Hb'.
  split.
  - repeat (cbn [eval bind mbind mret prog_bind prog_ret call
                 service.http_Error service.respond
                 ctrr_Success ctrr_CurrencyTimelineRates negb];
            first [ rewrite Hnew | rewrite Hget' | rewrite Hpost'
                  | rewrite Hbody | rewrite Hdata | rewrite Hb | rewrite Hb' ]).
    cbn [eval bind mbind mret prog_bind prog_ret call].
    match goal with
    | |- context [env (service.redisCache (cache.SaveTimestampRate ?s))] =>
        destruct (env (service.redisCache (cache.SaveTimestampRate s)))
    end; reflexivity.
  - repeat (cbn [trace bind mbind mret prog_bind prog_ret call
                 service.http_Error service.respond
                 ctrr_Success ctrr_CurrencyTimelineRates negb];
            first [ rewrite Hnew | rewrite Hget' | rewrite Hpost'
                  | rewrite Hbody | rewrite Hdata | rewrite Hb | rewrite Hb' ]).
    cbn [trace bind mbind mret prog_bind prog_ret call].
    do 7 apply list_elem_of_further. apply list_elem_of_here.
Qed.

End Fetch.

End fetch_facts.
(** * The predictions of the timeline flow *)

Module prediction_claims.

Import currency_helpers day_facts.

Section Loop.

Variables todayY todayM todayD : Z.

(** The key the loop gives to the value at index [i]. *)
Let key (i : Z) : CustomTime := time.Date todayY todayM (todayD + i) 0 0 0 0.

Let body : Z * gmap CustomTime float64 → float64 → Z * gmap CustomTime float64 :=
  λ '(i, predictions) rate, (i + 1, <[key i := rate]> predictions).

Lemma loop_counter (l : list float64) i0 m0 :
  (foldl body (i0, m0) l).1 = i0 + Z.of_nat (length l).
Proof.
  revert i0 m0. induction l as [|x l IH]; intros i0 m0.
  - cbn. lia.
  - cbn [foldl body length]. rewrite IH. lia.
Qed.

Lemma predictionsOf_loop (l : list float64) :
  service.predictionsOf todayY todayM todayD l = (foldl body (0, ∅) l).2.
Proof. reflexivity. Qed.

Lemma predictionsOf_snoc (l : list float64) x :
  service.predictionsOf todayY todayM todayD (l ++ [x])
  = <[key (Z.of_nat (length l)) := x]>
      (service.predictionsOf todayY todayM todayD l).
Proof.
  rewrite !predictionsOf_loop, foldl_app. cbn [foldl].
  pose proof (loop_counter l 0 ∅) as Hc.
  destruct (foldl body (0, ∅) l) as [i p]. cbn [fst] in Hc. subst i.
  reflexivity.
Qed.

Hypothesis year_range : 0 <= todayY <= 9999.
Hypothesis month_range : 1 <= todayM <= 12.
Hypothesis day_range : 1 <= todayD <= 31.

Lemma key_addDays (i : Z) :
  0 <= i <= 2 ^ 45 →
  key i = spec.addDays (time.Date todayY todayM (todayD - 1) 0 0 0 0) (i + 1).
Proof.
  intros Hi. unfold key.
  replace (todayD + i) with (todayD - 1 + (i + 1)) by lia.
  apply Date_add_days; lia.
Qed.

Lemma addDays_inj t (i j : Z) :
  spec.addDays t i = spec.addDays t j → i = j.
Proof. unfold spec.addDays. intros [= H]. lia. Qed.

End Loop.

(** The loop on its own: with a date of the calendar for today and a
    forecast that fits the memory, the value at index [N] is keyed to the
    midnight [N + 1] days after the previous day, and nothing else is. *)
Lemma predictionsOf_consecutive_days
    (todayY todayM todayD : Z) (predictedRates : list float64) :
  0 <= todayY <= 9999 → 1 <= todayM <= 12 → 1 <= todayD <= 31 →
  timeline_flow.allocatable predictedRates →
  let previousDay := time.Date todayY todayM (todayD - 1) 0 0 0 0 in
  let predictions :=
    service.predictionsOf todayY todayM todayD predictedRates in
  (∀ (N : nat) rate,
     predictedRates !! N = Some rate →
     predictions !! spec.addDays previousDay (Z.of_nat N + 1) = Some rate)
  ∧ size predictions = length predictedRates
  ∧ (∀ t, is_Some (predictions !! t) →
       ∃ N : nat, (N < length predictedRates)%nat
                  ∧ t = spec.addDays previousDay (Z.of_nat N + 1)).
Proof.
  intros Hy Hm Hd. unfold timeline_flow.allocatable, timeline_flow.maxAlloc.
  cbv zeta.
  induction predictedRates as [|x l IH] using rev_ind; intros Hlen.
  { split; [|split].
    - intros N rate H. rewrite lookup_nil in H. discriminate H.
    - reflexivity.
    - intros t [v H]. unfold service.predictionsOf in H. cbn in H.
      rewrite lookup_empty in H. discriminate H. }
  rewrite length_app in Hlen. cbn [length] in Hlen.
  destruct (IH ltac:(lia)) as (IHget & IHsize & IHkeys).
  rewrite predictionsOf_snoc.
  rewrite (key_addDays todayY todayM todayD Hy Hm Hd) by lia.
  set (previousDay := time.Date todayY todayM (todayD - 1) 0 0 0 0) in *.
  assert (Hfresh : service.predictionsOf todayY todayM todayD l
                   !! spec.addDays previousDay (Z.of_nat (length l) + 1) = None).
  { destruct (service.predictionsOf todayY todayM todayD l
              !! spec.addDays previousDay (Z.of_nat (length l) + 1)) as [v|] eqn:E;
      [|reflexivity].
    destruct (IHkeys _ (ex_intro _ v E)) as (N & HN & Heq).
    apply addDays_inj in Heq. lia. }
  split; [|split].
  - intros N rate HN.
    destruct (decide (N = length l)) as [->|Hne].
    + rewrite list_lookup_middle in HN by reflexivity. injection HN as <-.
      apply lookup_insert_eq.
    + assert (HNl : (N < length l)%nat).
      { apply lookup_lt_Some in HN. rewrite length_app in HN. cbn in HN. lia. }
      rewrite lookup_app_l in HN by exact HNl.
      rewrite lookup_insert_ne.
      * apply IHget. exact HN.
      * intros Heq. apply addDays_inj in Heq. lia.
  - rewrite map_size_insert_None by exact Hfresh.
    rewrite IHsize, length_app. cbn. lia.
  - intros t [v Ht]. rewrite length_app. cbn [length].
    destruct (decide (spec.addDays previousDay (Z.of_nat (length l) + 1) = t))
      as [<-|Hne].
    + exists (length l). split; [lia|reflexivity].
    + rewrite lookup_insert_ne in Ht by exact Hne.
      destruct (IHkeys t (ex_intro _ v Ht)) as (N & HN & ->).
      exists N. split; [lia|reflexivity].
Qed.

Section Flow.

Variable CodeToCurrency : gmap CurrencyCode Currency.
Variable cfg : config.Config.

Context `{!json.JSON (slice CurrencyWithBanStatus)}.
Context `{!json.JSON service.BanRequest}.
Context `{!json.JSON CurrencyRate}.
Context `{!json.JSON CurrencyRatesResponse}.
Context `{!json.JSON CurrencyTimelineRatesResponse}.
Context `{!json.JSON CurrencyTimelineRate}.
Context `{!json.JSON (gmap CustomTime float64)}.
Context `{!json.JSON (slice float64)}.

Variable env : ∀ e : service.Effect, service.ans e.


End Flow.

Import timeline_example more_examples.


End prediction_claims.
(** * The response of the timeline flow *)

Module timeline_claims.

Import currency_helpers.

Ltac order_facts :=
  unfold service.inPeriod, time.Equal, time.After, time.Before,
    time.sec, time.nsec in *;
  repeat match goal with
         | H : _ = true |- _ =>
             first [ rewrite orb_true_iff in H | rewrite andb_true_iff in H
                   | rewrite Z.eqb_eq in H | rewrite Z.ltb_lt in H
                   | rewrite Z.gtb_ltb, Z.ltb_lt in H ]
         | H : _ = false |- _ =>
             first [ rewrite orb_false_iff in H | rewrite andb_false_iff in H
                   | rewrite Z.eqb_neq in H | rewrite Z.ltb_ge in H
                   | rewrite Z.gtb_ltb, Z.ltb_ge in H ]
         end.

(** With the start before the end, [inPeriod] holds of the instants from
    the start on that are before the end. *)
Lemma inPeriod_half_open (startDate endDate t : time.Time) :
  time.Before startDate endDate = true →
  service.inPeriod startDate endDate t = true
  ↔ time.Before t startDate = false ∧ time.Before t endDate = true.
Proof.
  intros Hse.
  destruct (service.inPeriod startDate endDate t) eqn:Hin;
    destruct (time.Before t startDate) eqn:Hts;
    destruct (time.Before t endDate) eqn:Hte;
    split; try (intros [? ?]); try intros ?; try discriminate;
    try (split; reflexivity); try reflexivity;
    exfalso; order_facts; lia.
Qed.

(** [inPeriod] holds of the start itself and of the instants strictly
    between the start and the end. *)
Lemma inPeriod_exact (startDate endDate t : time.Time) :
  service.inPeriod startDate endDate t = true
  ↔ t = startDate
    ∨ (time.Before startDate t = true ∧ time.Before t endDate = true).
Proof.
  destruct t as [tw te], startDate as [sw se], endDate as [ew ee].
  unfold service.inPeriod, time.Equal, time.After, time.Before,
    time.sec, time.nsec. cbn [time.wall time.ext].
  rewrite !orb_true_iff, !andb_true_iff, !orb_true_iff, !andb_true_iff,
    !Z.eqb_eq, !Z.ltb_lt, !Z.gtb_ltb, !Z.ltb_lt.
  split.
  - intros [[-> ->]|[H1 H2]]; [left; reflexivity|right; split; [lia|exact H2]].
  - intros [[= -> ->]|[H1 H2]]; [left; split; reflexivity|right; split; [lia|exact H2]].
Qed.

Section Flow.

Variable CodeToCurrency : gmap CurrencyCode Currency.
Variable cfg : config.Config.

Context `{!json.JSON (slice CurrencyWithBanStatus)}.
Context `{!json.JSON service.BanRequest}.
Context `{!json.JSON CurrencyRate}.
Context `{!json.JSON CurrencyRatesResponse}.
Context `{!json.JSON CurrencyTimelineRatesResponse}.
Context `{!json.JSON CurrencyTimelineRate}.
Context `{!json.JSON (gmap CustomTime float64)}.
Context `{!json.JSON (slice float64)}.

Variable env : ∀ e : service.Effect, service.ans e.


End Flow.

Import timeline_example more_examples.



End timeline_claims.
(** * The current rate served from the cache *)

Module current_rate_claims.

Import currency_helpers.

Section Deployment.

Variable CodeToCurrency : gmap CurrencyCode Currency.
Variable cfg : config.Config.

Context `{!json.JSON (slice CurrencyWithBanStatus)}.
Context `{!json.JSON service.BanRequest}.
Context `{!json.JSON CurrencyRate}.
Context `{!json.JSON CurrencyRates}.
Context `{!json.JSON CurrencyRatesResponse}.
Context `{!json.JSON CurrencyTimelineRatesResponse}.
Context `{!json.JSON CurrencyTimelineRate}.
Context `{!json.JSON (gmap CustomTime float64)}.
Context `{!json.JSON (slice float64)}.

Variable env : ∀ e : service.Effect, service.ans e.

(** [GetCurrencyLastRate] on a server that holds a document for the
    base. *)
Lemma GetCurrencyLastRate_stored (st : redis.Server)
    (base second : string) (data : string) (currencyRates : CurrencyRates) :
  redis.hash_of st CurrentTimeRateCollection !! base = Some data →
  json.Unmarshal data = Ok currencyRates →
  exec redis.step
    (cache.Redis.method (cache.GetCurrencyLastRate base second)) st
  = ([redis.HGet CurrentTimeRateCollection base],
     Ok (Some (ToResultRate currencyRates second)), st).
Proof.
  intros Hdata Hjson.
  unfold cache.Redis.method, cache.Redis.GetCurrencyLastRate.
  cbn [exec bind mbind prog_bind call redis.step]. rewrite Hdata.
  rewrite Hjson. reflexivity.
Qed.

(** C3.  When the cache holds rates for the base that lack the
    requested target and the freshness test accepts their date, the
    handler makes no other call than the cache read and the clock, and
    answers by encoding a [CurrencyRate] whose rate is zero. *)
Theorem missing_target_served_as_zero_rate
    (r : http.Request) (st : redis.Server) (data : string)
    (currencyRates : CurrencyRates) :
  let base := http.Query_Get r "base" in
  let second := http.Query_Get r "second" in
  service.registered CodeToCurrency base = true →
  service.registered CodeToCurrency second = true →
  redis.hash_of st CurrentTimeRateCollection !! base = Some data →
  json.Unmarshal data = Ok currencyRates →
  cr_Rates currencyRates !! second = None →
  service.cachedRateIsUsed (cr_Date currencyRates) (env service.time_Now)
    = true →
  (deployment.serve env
     (service.GetCurrentCurrencyRate CodeToCurrency cfg r) st).1
  = ([service.redisCache (cache.GetCurrencyLastRate base second);
      service.time_Now],
     eval env
       (service.Encode
          {| Base := cr_Base currencyRates;
             Second := second;
             Rate := 0%float;
             Date := cr_Date currencyRates |}
          "error in marshalling result")).
Proof.
  intros base second Hbase Hsecond Hdata Hjson Hmiss Hfresh.
  unfold deployment.serve, service.GetCurrentCurrencyRate,
    service.currentRateFromCache.
  fold base. rewrite Hbase. cbn [negb]. fold second. rewrite Hsecond.
  cbn [negb].
  revert Hfresh. generalize service.cachedRateIsUsed. intros used Hfresh.
  cbn [exec bind mbind prog_bind call deployment.step].
  rewrite (GetCurrencyLastRate_stored st base second data currencyRates
             Hdata Hjson).
  cbn [exec bind mbind prog_bind call deployment.step].
  assert (Hzero : ToResultRate currencyRates second
                  = {| Base := cr_Base currencyRates;
                       Second := second;
                       Rate := 0%float;
                       Date := cr_Date currencyRates |}).
  { unfold ToResultRate. f_equal.
    exact (f_equal (default 0%float) Hmiss). }
  rewrite Hzero. cbn [Date]. rewrite Hfresh.
  unfold service.Encode.
  destruct (json.Marshal _); reflexivity.
Qed.

End Deployment.

Import example.

(** The server of the example holds rates of USD for EUR only; a request
    for USD in GBP on 2024-02-15 is answered with a rate of zero. *)
Lemma missing_target_served_as_zero_rate_witness :
  (deployment.serve
     (collaborators (time.Date 2024 2 15 9 0 0 0) None None (Err "no route"))
     (service.GetCurrentCurrencyRate CodeToCurrency cfg
        (rateRequest "USD" "GBP")) server).1
  = ([service.redisCache (cache.GetCurrencyLastRate "USD" "GBP");
      service.time_Now],
     eval (collaborators (time.Date 2024 2 15 9 0 0 0) None None
             (Err "no route"))
       (service.Encode
          {| Base := "USD"; Second := "GBP"; Rate := 0%float;
             Date := time.Date 2024 1 1 0 0 0 0 |}
          "error in marshalling result")).
Proof.
  apply (missing_target_served_as_zero_rate CodeToCurrency cfg
           (collaborators (time.Date 2024 2 15 9 0 0 0) None None
              (Err "no route"))
           (rateRequest "USD" "GBP") server snapshotText snapshot);
    vm_compute; reflexivity.
Defined.

(** C1.  With a cached rate of USD in EUR dated 2024-01-01 and the clock
    at 2024-01-02, the freshness test rejects the cached rate and the
    handler, in both variants, goes on to the provider. *)
Theorem cached_rate_of_previous_day_is_fetched_again :
  let now := time.Date 2024 1 2 9 0 0 0 in
  let cached := ToResultRate snapshot "EUR" in
  let env := collaborators now (Some cached) None (Err "no route") in
  let r := rateRequest "USD" "EUR" in
  time.Date_of (Date cached) = (2024, 1, 1)
  ∧ time.Date_of now = (2024, 1, 2)
  ∧ service.cachedRateIsUsed (Date cached) now = false
  ∧ filter (λ e, spec.isProviderFetch e = true)
      (trace env (service.GetCurrentCurrencyRate CodeToCurrency cfg r))
    = [service.client_Do
         {| http.Method := "GET";
            http.URL :=
              "https://api.exchangerate.host/01.01.2024?base=USD&places=4";
            http.Header_ContentType := "";
            http.ReqBody := None |}]
  ∧ filter (λ e, spec.isProviderFetch e = true)
      (trace env (http_service.GetCurrentCurrencyRate CodeToCurrency cfg r))
    = [service.client_Do
         {| http.Method := "GET";
            http.URL :=
              "https://api.exchangerate.host/01.01.2024?base=USD&places=4";
            http.Header_ContentType := "";
            http.ReqBody := None |}].
Proof.
  cbv zeta. repeat split; vm_compute; reflexivity.
Qed.

End current_rate_claims.
(** * The cache on a Redis server *)

Module cache_server.

Import currency_helpers.

Section Redis.

Context `{!json.JSON (slice CurrencyWithBanStatus)}.
Context `{!json.JSON CurrencyRates}.
Context `{!json.JSON CurrencyTimelineRate}.

#[local] Arguments json.Unmarshal : simpl never.
#[local] Arguments json.Marshal : simpl never.


(** X2.  [CleanCacheForAvailableCurrencies] reports no error exactly when
    the server held an availability list; either way the next read finds
    none. *)
Theorem clean_then_read (st : redis.Server) :
  let '(err, st') := after cache.Redis.CleanCacheForAvailableCurrencies st in
  (err = None ↔ is_Some (redis.keys st !! AvailableCurrencies))
  ∧ (err = Some "deleted no info" ↔ redis.keys st !! AvailableCurrencies = None)
  ∧ (after cache.Redis.GetAvailableCurrencies st').1 = Ok None.
Proof.
  unfold after, cache.Redis.CleanCacheForAvailableCurrencies,
    cache.Redis.GetAvailableCurrencies.
  cbn.
  destruct (redis.keys st !! AvailableCurrencies) as [v|] eqn:E.
  - rewrite bool_decide_eq_true_2 by eauto. cbn.
    rewrite lookup_delete_eq. cbn.
    repeat split; try discriminate; eauto.
  - rewrite bool_decide_eq_false_2 by (intros [? [=]]). cbn.
    rewrite lookup_delete_eq. cbn.
    repeat split; try discriminate; intros [? [=]].
Qed.

(** X3.  The first rates written for a base are accepted, every later read
    for that base answers from them, whatever the target, and the reads
    for any other base are as before. *)
Theorem last_rate_write_then_read
    (st : redis.Server) (currencyRates : CurrencyRates) (data : string) :
  redis.hash_of st CurrentTimeRateCollection
    !! (cr_Base currencyRates : string) = None →
  json.Marshal currencyRates = Ok data →
  json.Unmarshal data = Ok currencyRates →
  let '(err, st') := after (cache.Redis.SetCurrencyLastRate currencyRates) st in
  err = None
  ∧ (∀ second,
       (after (cache.Redis.GetCurrencyLastRate (cr_Base currencyRates) second)
              st').1
       = Ok (Some (ToResultRate currencyRates second)))
  ∧ (∀ base second : string,
       base ≠ cr_Base currencyRates →
       (after (cache.Redis.GetCurrencyLastRate base second) st').1
       = (after (cache.Redis.GetCurrencyLastRate base second) st).1).
Proof.
  intros Hnew Hm Hu. unfold after, cache.Redis.SetCurrencyLastRate,
    cache.Redis.GetCurrencyLastRate.
  rewrite Hm. cbn.
  rewrite bool_decide_eq_false_2
    by (intros [x Hx]; discriminate (eq_trans (eq_sym Hnew) Hx)).
  cbn.
  split; [reflexivity|]. split.
  - intros second. unfold redis.hash_of. cbn.
    rewrite lookup_insert_eq. cbn.
    rewrite lookup_insert_eq. cbn. rewrite Hu. reflexivity.
  - intros base second Hne. unfold redis.hash_of. cbn.
    rewrite lookup_insert_eq. cbn.
    rewrite lookup_insert_ne by (intros Heq; apply Hne; symmetry; exact Heq).
    destruct (default ∅ (redis.hashes st !! CurrentTimeRateCollection) !! base)
      as [v|]; cbn; [destruct (json.Unmarshal (A := CurrencyRates) v)|];
      reflexivity.
Qed.

(** X4.  The first timeline written for a pair is accepted and read back
    for that pair. *)
Theorem timeline_write_then_read
    (st : redis.Server) (rate : CurrencyTimelineRate) (data : string) :
  redis.hash_of st TimeCollection
    !! (ctr_Base rate +:+ ":" +:+ ctr_Second rate) = None →
  json.Marshal rate = Ok data →
  json.Unmarshal data = Ok rate →
  let '(err, st') := after (cache.Redis.SaveTimestampRate rate) st in
  err = None
  ∧ (after (cache.Redis.GetTimestampRate (ctr_Base rate) (ctr_Second rate))
           st').1
    = Ok (Some rate).
Proof.
  intros Hnew Hm Hu. unfold after, cache.Redis.SaveTimestampRate,
    cache.Redis.GetTimestampRate.
  rewrite Hm. cbn.
  rewrite bool_decide_eq_false_2
    by (intros [x Hx]; discriminate (eq_trans (eq_sym Hnew) Hx)).
  cbn.
  split; [reflexivity|].
  unfold redis.hash_of. cbn.
  rewrite lookup_insert_eq. cbn.
  rewrite lookup_insert_eq. cbn. rewrite Hu. reflexivity.
Qed.

(** X5.  A value that cannot be marshalled is not sent: the write returns
    the wrapped error, no command reaches the server and its state is
    unchanged. *)
Theorem unmarshallable_value_not_written (st : redis.Server) (e : error) :
  (∀ l, json.Marshal l = Err e →
     exec redis.step (cache.Redis.SetAvailableCurrencies l) st
     = ([], Some (Wrap e "error in marshal data for redis"), st))
  ∧ (∀ rates, json.Marshal rates = Err e →
       exec redis.step (cache.Redis.SetCurrencyLastRate rates) st
       = ([], Some (Wrap e "error in marshal data for redis"), st))
  ∧ (∀ rate, json.Marshal rate = Err e →
       exec redis.step (cache.Redis.SaveTimestampRate rate) st
       = ([], Some (Wrap e "error in marshal data for redis"), st)).
Proof.
  repeat split.
  - intros l Hm. unfold cache.Redis.SetAvailableCurrencies. rewrite Hm.
    reflexivity.
  - intros rates Hm. unfold cache.Redis.SetCurrencyLastRate. rewrite Hm.
    reflexivity.
  - intros rate Hm. unfold cache.Redis.SaveTimestampRate. rewrite Hm.
    reflexivity.
Qed.

(** X6.  Every method of the cache sends at most one command, and the
    three reads leave the server as it was. *)
Theorem one_command_per_method (st : redis.Server) (m : cache.Cache) :
  let '(t, _, st') := exec redis.step (cache.Redis.method m) st in
  (length t <= 1)%nat
  ∧ match m with
    | cache.GetAvailableCurrencies | cache.GetCurrencyLastRate _ _
    | cache.GetTimestampRate _ _ => st' = st
    | _ => True
    end.
Proof.
  destruct m; cbn [cache.Redis.method].
  - unfold cache.Redis.GetAvailableCurrencies. cbn.
    destruct (redis.keys st !! AvailableCurrencies); cbn;
      [destruct (json.Unmarshal _)|]; cbn; split; (lia || reflexivity).
  - unfold cache.Redis.SetAvailableCurrencies.
    destruct (json.Marshal _); cbn; split; (lia || exact I).
  - unfold cache.Redis.CleanCacheForAvailableCurrencies. cbn.
    destruct (bool_decide _); cbn; split; (lia || exact I).
  - unfold cache.Redis.GetCurrencyLastRate. cbn.
    destruct (redis.hash_of st CurrentTimeRateCollection !! _); cbn;
      [destruct (json.Unmarshal _)|]; cbn; split; (lia || reflexivity).
  - unfold cache.Redis.SetCurrencyLastRate.
    destruct (json.Marshal _); cbn; [destruct (bool_decide _)|]; cbn;
      split; (lia || exact I).
  - unfold cache.Redis.GetTimestampRate. cbn.
    destruct (redis.hash_of st TimeCollection !! _); cbn;
      [destruct (json.Unmarshal _)|]; cbn; split; (lia || reflexivity).
  - unfold cache.Redis.SaveTimestampRate.
    destruct (json.Marshal _); cbn; [destruct (bool_decide _)|]; cbn;
      split; (lia || exact I).
Qed.

End Redis.

Import example.


Lemma last_rate_write_then_read_witness :
  let '(err, st') :=
    after (cache.Redis.SetCurrencyLastRate snapshot)
          {| redis.keys := ∅; redis.hashes := ∅ |} in
  err = None
  ∧ (∀ second,
       (after (cache.Redis.GetCurrencyLastRate (cr_Base snapshot) second)
              st').1
       = Ok (Some (ToResultRate snapshot second)))
  ∧ (∀ base second : string,
       base ≠ cr_Base snapshot →
       (after (cache.Redis.GetCurrencyLastRate base second) st').1
       = (after (cache.Redis.GetCurrencyLastRate base second)
                {| redis.keys := ∅; redis.hashes := ∅ |}).1).
Proof.
  apply (last_rate_write_then_read {| redis.keys := ∅; redis.hashes := ∅ |}
           snapshot snapshotText); reflexivity.
Defined.

Lemma timeline_write_then_read_witness :
  let '(err, st') :=
    after (cache.Redis.SaveTimestampRate series)
          {| redis.keys := ∅; redis.hashes := ∅ |} in
  err = None
  ∧ (after (cache.Redis.GetTimestampRate (ctr_Base series) (ctr_Second series))
           st').1
    = Ok (Some series).
Proof.
  apply (timeline_write_then_read {| redis.keys := ∅; redis.hashes := ∅ |}
           series seriesText); reflexivity.
Defined.

End cache_server.
(** * More of [currency_helpers] *)

Module string_facts.

Lemma append_cons a s t : String a s +:+ t = String a (s +:+ t).
Proof. reflexivity. Qed.

Lemma append_nil_r s : s +:+ EmptyString = s.
Proof.
  induction s as [|a s IH]; [reflexivity|]. rewrite append_cons, IH.
  reflexivity.
Qed.

Lemma append_assoc s t u : (s +:+ t) +:+ u = s +:+ (t +:+ u).
Proof.
  induction s as [|a s IH]; [reflexivity|]. rewrite !append_cons, IH.
  reflexivity.
Qed.

Lemma rev_app_append s acc : String.rev_app s acc = String.rev s +:+ acc.
Proof.
  unfold String.rev. revert acc.
  induction s as [|a s IH]; intros acc; [reflexivity|].
  cbn [String.rev_app]. rewrite (IH (String a acc)), (IH (String a EmptyString)).
  rewrite append_assoc. reflexivity.
Qed.

Lemma rev_cons a s : String.rev (String a s) = String.rev s +:+ String a EmptyString.
Proof. unfold String.rev at 1. cbn [String.rev_app]. apply rev_app_append. Qed.

Lemma rev_append s t : String.rev (s +:+ t) = String.rev t +:+ String.rev s.
Proof.
  induction s as [|a s IH].
  - change (EmptyString +:+ t) with t. rewrite append_nil_r. reflexivity.
  - rewrite append_cons, !rev_cons, IH, append_assoc. reflexivity.
Qed.

Lemma rev_involutive s : String.rev (String.rev s) = s.
Proof.
  induction s as [|a s IH]; [reflexivity|].
  rewrite rev_cons, rev_append, IH. reflexivity.
Qed.

Import currency_code.

Lemma free_of_append q s t :
  free_of q (s +:+ t) = free_of q s && free_of q t.
Proof.
  induction s as [|a s IH]; [reflexivity|].
  rewrite append_cons. cbn [free_of]. rewrite IH, andb_assoc. reflexivity.
Qed.

Lemma free_of_rev q s : free_of q (String.rev s) = free_of q s.
Proof.
  induction s as [|a s IH]; [reflexivity|].
  rewrite rev_cons, free_of_append, IH. cbn [free_of].
  rewrite andb_true_r, andb_comm. reflexivity.
Qed.

Lemma TrimLeft_free q s : free_of q s = true → strings.TrimLeft s q = s.
Proof.
  destruct s as [|a s]; [reflexivity|]. cbn [free_of strings.TrimLeft].
  destruct (Ascii.eqb a q); [discriminate|reflexivity].
Qed.

Lemma Trim_quoted q s :
  free_of q s = true →
  strings.Trim (String q s +:+ String q EmptyString) q = s.
Proof.
  intros Hfree. unfold strings.Trim, strings.TrimRight.
  rewrite append_cons. cbn [strings.TrimLeft]. rewrite Ascii.eqb_refl.
  destruct s as [|a s].
  - change (EmptyString +:+ String q EmptyString) with (String q EmptyString).
    cbn [strings.TrimLeft]. rewrite Ascii.eqb_refl. reflexivity.
  - assert (Ha : Ascii.eqb a q = false).
    { cbn [free_of] in Hfree. destruct (Ascii.eqb a q); [discriminate|reflexivity]. }
    rewrite (append_cons a s). cbn [strings.TrimLeft]. rewrite Ha.
    rewrite <- (append_cons a s).
    rewrite rev_append.
    change (String.rev (String q EmptyString)) with (String q EmptyString).
    rewrite append_cons. cbn [strings.TrimLeft]. rewrite Ascii.eqb_refl.
    change (EmptyString +:+ String.rev (String a s)) with (String.rev (String a s)).
    rewrite TrimLeft_free by (rewrite free_of_rev; exact Hfree).
    apply rev_involutive.
Qed.

End string_facts.

Module helper_extras.

Import currency_helpers time_facts.

(** X7.  [ToResultTimelineRates] keeps one entry per date of the series:
    the rate of the requested currency on that date, or zero where the
    provider gave none; it adds no date and no prediction, and keeps the
    base and the period. *)
Theorem ToResultTimelineRates_entries
    (cr : CurrencyTimelineRates) (currencyCode : CurrencyCode) :
  let result := ToResultTimelineRates cr currencyCode in
  (∀ t, ctr_Rates result !! t
        = (λ rates : gmap CurrencyCode float64,
             default 0%float (rates !! currencyCode)) <$> (ctrs_Rates cr !! t))
  ∧ dom (ctr_Rates result) = dom (ctrs_Rates cr)
  ∧ ctr_Predictions result = ∅
  ∧ (ctr_Base result, ctr_Second result, ctr_StartDate result,
     ctr_EndDate result)
    = (ctrs_Base cr, currencyCode, ctrs_StartDate cr, ctrs_EndDate cr).
Proof.
  cbv zeta. unfold ToResultTimelineRates. cbn [ctr_Rates ctr_Predictions
    ctr_Base ctr_Second ctr_StartDate ctr_EndDate].
  repeat split.
  - intros t. apply lookup_fmap.
  - apply dom_fmap_L.
Qed.

(** X8.  A currency code in which no quote occurs is read back unchanged
    from what [MarshalJSON] writes. *)
Theorem CurrencyCode_round_trip (c : CurrencyCode) :
  currency_code.free_of (ascii_of_N 34) c = true →
  currency_code.UnmarshalJSON (currency_code.MarshalJSON c) = c.
Proof.
  intros Hfree. unfold currency_code.UnmarshalJSON, currency_code.MarshalJSON,
    currency_code.String_, quote.
  change (strings.Trim
            (String (ascii_of_N 34) c +:+ String (ascii_of_N 34) EmptyString)
            (ascii_of_N 34) = c).
  apply string_facts.Trim_quoted. exact Hfree.
Qed.

Lemma CurrencyCode_round_trip_witness :
  currency_code.UnmarshalJSON (currency_code.MarshalJSON "USD") = "USD".
Proof.
  apply (CurrencyCode_round_trip "USD"). reflexivity.
Defined.

(** X9.  [IsSet] and [MarshalJSON] agree on what is unset: a time is
    written as [null] exactly when [IsSet] denies it. *)
Theorem IsSet_iff_not_null (ct : CustomTime) :
  IsSet ct = false ↔ MarshalJSON ct = "null".
Proof.
  unfold IsSet, MarshalJSON.
  destruct (time.UnixNano ct =? nilTime); cbn [negb].
  - split; reflexivity.
  - split; [discriminate|]. unfold quote. cbv [String.append].
    intros H. discriminate H.
Qed.

(** X10.  [IsSet] compares nanosecond counts in 64 bits: it denies
    exactly the times that lie a multiple of 2^64 nanoseconds from the
    zero time. *)
Theorem IsSet_wraps (ct : CustomTime) :
  IsSet ct = false
  ↔ (time.ext ct * 1000000000 + time.wall ct) mod 2 ^ 64 = 0.
Proof.
  unfold IsSet, nilTime, time.UnixNano, time.zero, time.sec, time.nsec.
  cbn [time.ext time.wall]. rewrite negb_false_iff, Z.eqb_eq.
  change time.internalToUnix with (-62135596800).
  unfold i64. dlia.
Qed.

(** X11.  When [UnmarshalJSON] fails, the error is the one of the RFC 3339
    parser on the text without its quotes, the canonical layout has
    rejected that text too, and the time is left at zero. *)
Theorem UnmarshalJSON_error
    (Parse_RFC3339 : string → result time.Time) (b : string) (err : error) :
  (UnmarshalJSON Parse_RFC3339 b).2 = Some err →
  Parse_RFC3339 (strings.Trim b (ascii_of_N 34)) = Err err
  ∧ (∃ e, time.Parse_2006_01_02 (strings.Trim b (ascii_of_N 34)) = Err e)
  ∧ (UnmarshalJSON Parse_RFC3339 b).1 = time.zero.
Proof.
  unfold UnmarshalJSON. cbv zeta.
  generalize (strings.Trim b (ascii_of_N 34)). intros s.
  destruct (String.eqb s "null"); [discriminate|].
  generalize (time.Parse_2006_01_02 s). intros [t|e]; [discriminate|].
  destruct (Parse_RFC3339 s) as [t|e']; cbn [fst snd]; [discriminate|].
  intros [= ->]. eauto.
Qed.

Lemma UnmarshalJSON_error_witness :
  (λ _ : string, Err "cannot parse" : result time.Time)
    (strings.Trim "soon" (ascii_of_N 34))
  = Err "cannot parse"
  ∧ (∃ e, time.Parse_2006_01_02 (strings.Trim "soon" (ascii_of_N 34)) = Err e)
  ∧ (UnmarshalJSON (λ _, Err "cannot parse") "soon").1 = time.zero.
Proof.
  apply (UnmarshalJSON_error (λ _, Err "cannot parse") "soon" "cannot parse").
  reflexivity.
Defined.

End helper_extras.
(** * More of the handlers *)

Module handler_extras.

Import currency_helpers.

Section Handlers.

Variable CodeToCurrency : gmap CurrencyCode Currency.
Variable cfg : config.Config.

Context `{!json.JSON (slice CurrencyWithBanStatus)}.
Context `{!json.JSON service.BanRequest}.
Context `{!json.JSON CurrencyRate}.
Context `{!json.JSON CurrencyRatesResponse}.
Context `{!json.JSON CurrencyTimelineRatesResponse}.
Context `{!json.JSON CurrencyTimelineRate}.
Context `{!json.JSON (gmap CustomTime float64)}.
Context `{!json.JSON (slice float64)}.

Variable env : ∀ e : service.Effect, service.ans e.

Ltac run_steps :=
  cbn [run eval trace bind mbind mret prog_bind prog_ret call
       service.http_Error service.respond negb].

(** [Encode] makes no call. *)
Lemma run_Encode {A} `{!json.JSON A} (v : A) (msg : string) :
  run env (service.Encode v msg) = ([], eval env (service.Encode v msg)).
Proof. unfold service.Encode. destruct (json.Marshal v); reflexivity. Qed.

(** X12.  An availability list held by the cache is answered as it is,
    after that one read: neither the ban store nor the cache is called
    again. *)
Theorem available_served_from_cache
    (range1 range2 : list CurrencyCode) (r : http.Request)
    (availableCurrencies : list CurrencyWithBanStatus) :
  env (service.redisCache cache.GetAvailableCurrencies)
    = Ok (Some availableCurrencies) →
  run env (service.GetAvailableCurrencies range1 range2 r)
  = ([service.redisCache cache.GetAvailableCurrencies],
     eval env (service.Encode (Some availableCurrencies)
                 "error in marshalling currencies")).
Proof.
  intros Hhit. unfold service.GetAvailableCurrencies. cbv zeta.
  run_steps. rewrite Hhit. rewrite run_Encode. reflexivity.
Qed.

(** X13.  When the ban store fails on a cache miss, the handler answers
    500 with the wrapped error and writes nothing to the cache. *)
Theorem available_store_failure
    (range1 range2 : list CurrencyCode) (r : http.Request) (err : error) :
  range1 ≠ [] →
  env (service.redisCache cache.GetAvailableCurrencies) = Ok None →
  env (service.db_SelectContext range1) = Err err →
  run env (service.GetAvailableCurrencies range1 range2 r)
  = ([service.redisCache cache.GetAvailableCurrencies;
      service.db_SelectContext range1],
     service.Responded
       (http.Error (Wrap err "error in getting currency to ban data")
                   http.StatusInternalServerError)).
Proof.
  intros Hne Hmiss Hrows. unfold service.GetAvailableCurrencies. cbv zeta.
  run_steps. rewrite Hmiss.
  destruct range1 as [|c range1']; [contradiction|].
  cbn [service.sqlx_In]. run_steps. rewrite Hrows. reflexivity.
Qed.

(** X14.  A ban request for a registered currency updates the ban store
    and then invalidates the availability list; it is acknowledged with
    200 and an empty body whether or not the invalidation succeeds.  When
    the update fails the handler answers 500 and leaves the cache
    alone. *)
Theorem ban_request_flow (r : http.Request) (req : service.BanRequest) :
  json.Unmarshal (http.Body r) = Ok req →
  service.registered CodeToCurrency (service.req_Currency req) = true →
  let update :=
    service.db_ExecContext (service.req_Currency req) (service.req_Banned req) in
  let invalidate := service.redisCache cache.CleanCacheForAvailableCurrencies in
  let h := service.ChangeCurrencyBanStatus CodeToCurrency r in
  (env update = None →
   eval env h
   = service.Responded {| http.status := http.StatusOK;
                          http.contentType := EmptyString;
                          http.body := EmptyString |}
   ∧ trace env h
     = update :: invalidate
         :: match env invalidate with
            | Some err =>
                [service.log_Printf
                   ("error in clean available currencies: " +:+ err)]
            | None => []
            end)
  ∧ (∀ err, env update = Some err →
       run env h
       = ([update],
          service.Responded
            (http.Error (Wrap err "error in update currency status")
                        http.StatusInternalServerError))).
Proof.
  intros Hreq Hreg. cbv zeta. unfold service.ChangeCurrencyBanStatus.
  rewrite Hreq, Hreg. cbn [negb]. split.
  - intros Hok. run_steps. rewrite Hok. run_steps.
    destruct (env (service.redisCache cache.CleanCacheForAvailableCurrencies));
      run_steps; split; reflexivity.
  - intros err Herr. run_steps. rewrite Herr. reflexivity.
Qed.

(** X15.  A fresh cached rate is answered as it is by both variants of the
    handler, after the cache read and one reading of the clock. *)
Theorem current_rate_served_from_cache
    (r : http.Request) (currencyRate : CurrencyRate) :
  let base := http.Query_Get r "base" in
  let second := http.Query_Get r "second" in
  service.registered CodeToCurrency base = true →
  service.registered CodeToCurrency second = true →
  env (service.redisCache (cache.GetCurrencyLastRate base second))
    = Ok (Some currencyRate) →
  service.cachedRateIsUsed (Date currencyRate) (env service.time_Now) = true →
  ∀ h, h = service.GetCurrentCurrencyRate CodeToCurrency cfg r
       ∨ h = http_service.GetCurrentCurrencyRate CodeToCurrency cfg r →
  run env h
  = ([service.redisCache (cache.GetCurrencyLastRate base second);
      service.time_Now],
     eval env (service.Encode currencyRate "error in marshalling result")).
Proof.
  intros base second Hbase Hsecond Hhit Hfresh h Hh.
  assert (Hcache : ∀ fetch,
            run env (service.currentRateFromCache CodeToCurrency r fetch)
            = ([service.redisCache (cache.GetCurrencyLastRate base second);
                service.time_Now],
               eval env (service.Encode currencyRate
                           "error in marshalling result"))).
  { intros fetch. unfold service.currentRateFromCache. cbv zeta.
    fold base. rewrite Hbase. cbn [negb]. fold second. rewrite Hsecond.
    cbn [negb]. revert Hfresh. generalize service.cachedRateIsUsed.
    intros used Hfresh. run_steps. rewrite Hhit. run_steps.
    rewrite Hfresh. rewrite run_Encode. reflexivity. }
  destruct Hh as [-> | ->]; apply Hcache.
Qed.

(** X16.  A timeline held by the cache is answered after that one read:
    neither the clock nor the provider nor the forecast service is
    called. *)
Theorem timeline_served_from_cache
    (r : http.Request) (startDate endDate : time.Time)
    (series : CurrencyTimelineRate) :
  let base := http.Query_Get r "base" in
  let second := http.Query_Get r "second" in
  service.registered CodeToCurrency base = true →
  service.registered CodeToCurrency second = true →
  time.Parse_2006_01_02 (http.Query_Get r "start") = Ok startDate →
  time.Parse_2006_01_02 (http.Query_Get r "end") = Ok endDate →
  timeline_flow.stored env base second series →
  trace env (service.GetTimelineCurrencyRate CodeToCurrency cfg r)
  = [service.redisCache (cache.GetTimestampRate base second)].
Proof.
  intros base second Hbase Hsecond Hstart Hend Hstored.
  unfold service.GetTimelineCurrencyRate, service.timelineValidated.
  fold base. rewrite Hbase. cbn [negb]. fold second. rewrite Hsecond.
  cbn [negb]. rewrite Hstart, Hend. generalize service.timelineResult.
  intros timelineResult_. run_steps. rewrite Hstored.
  unfold service.Encode. destruct (json.Marshal _); reflexivity.
Qed.



(** X19.  The earlier variant of the timeline handler never calls the
    cache, whatever the request and the collaborators. *)
Theorem earlier_timeline_without_cache (r : http.Request) :
  calls.only calls.isCacheCall
    (trace env (http_service.GetTimelineCurrencyRate CodeToCurrency cfg r))
  = [].
Proof.
  unfold http_service.GetTimelineCurrencyRate, service.timelineValidated.
  cbv zeta.
  generalize time.Format_2006_01_02, time.Parse_2006_01_02.
  intros Format_ Parse_.
  destruct (service.registered CodeToCurrency (http.Query_Get r "base"));
    [|reflexivity].
  destruct (service.registered CodeToCurrency (http.Query_Get r "second"));
    [|reflexivity].
  cbn [negb].
  destruct (Parse_ (http.Query_Get r "start")) as [startDate|]; [|reflexivity].
  destruct (Parse_ (http.Query_Get r "end")) as [endDate|]; [|reflexivity].
  run_steps.
  destruct (env (service.http_NewRequestWithContext _ _ _)); [reflexivity|].
  run_steps.
  destruct (env (service.client_Do _)) as [body|]; [|reflexivity].
  destruct (json.Unmarshal body) as [resp|]; [|reflexivity].
  destruct (ctrr_Success resp); [|reflexivity]. cbn [negb].
  destruct (ctrr_CurrencyTimelineRates resp); [|reflexivity].
  unfold service.Encode. destruct (json.Marshal _); reflexivity.
Qed.

End Handlers.

Import example more_examples.

(** A cache that holds a list with GBP alone. *)
Lemma available_served_from_cache_witness :
  let env :=
    answering
      {| clock := clock idle;
         availableList := Ok (Some [ {| Currency_ := "GBP"; Banned := false |} ]);
         lastRate := Ok None; timeline := Ok None; cacheWrites := None;
         banRows := Ok rows; banUpdate := None;
         providerBody := Err "no route"; forecastBody := Err "no route" |} in
  run env
    (service.GetAvailableCurrencies ["GBP"; "USD"; "EUR"] ["GBP"; "USD"; "EUR"]
       (rateRequest EmptyString EmptyString))
  = ([service.redisCache cache.GetAvailableCurrencies],
     eval env
       (service.Encode (Some [ {| Currency_ := "GBP"; Banned := false |} ])
          "error in marshalling currencies")).
Proof.
  apply (available_served_from_cache
           (answering
              {| clock := clock idle;
                 availableList :=
                   Ok (Some [ {| Currency_ := "GBP"; Banned := false |} ]);
                 lastRate := Ok None; timeline := Ok None; cacheWrites := None;
                 banRows := Ok rows; banUpdate := None;
                 providerBody := Err "no route";
                 forecastBody := Err "no route" |})).
  reflexivity.
Defined.

(** A ban store that cannot be reached. *)
Lemma available_store_failure_witness :
  let env :=
    answering
      {| clock := clock idle; availableList := Ok None;
         lastRate := Ok None; timeline := Ok None; cacheWrites := None;
         banRows := Err "connection refused"; banUpdate := None;
         providerBody := Err "no route"; forecastBody := Err "no route" |} in
  run env
    (service.GetAvailableCurrencies ["GBP"; "USD"; "EUR"] ["GBP"; "USD"; "EUR"]
       (rateRequest EmptyString EmptyString))
  = ([service.redisCache cache.GetAvailableCurrencies;
      service.db_SelectContext ["GBP"; "USD"; "EUR"]],
     service.Responded
       (http.Error
          (Wrap "connection refused" "error in getting currency to ban data")
          http.StatusInternalServerError)).
Proof.
  apply (available_store_failure
           (answering
              {| clock := clock idle; availableList := Ok None;
                 lastRate := Ok None; timeline := Ok None; cacheWrites := None;
                 banRows := Err "connection refused"; banUpdate := None;
                 providerBody := Err "no route";
                 forecastBody := Err "no route" |})).
  - intros H. discriminate H.
  - reflexivity.
  - reflexivity.
Defined.

(** A request to ban EUR, with a cache that cannot invalidate. *)
Lemma ban_request_flow_witness :
  let env :=
    answering
      {| clock := clock idle; availableList := Ok None;
         lastRate := Ok None; timeline := Ok None;
         cacheWrites := Some "deleted no info";
         banRows := Ok rows; banUpdate := None;
         providerBody := Err "no route"; forecastBody := Err "no route" |} in
  let r := {| http.Query := ∅; http.Body := "{currency:EUR,banned:true}" |} in
  let update := service.db_ExecContext "EUR" true in
  let invalidate := service.redisCache cache.CleanCacheForAvailableCurrencies in
  let h := @service.ChangeCurrencyBanStatus CodeToCurrency banEUR r in
  (env update = None →
   eval env h
   = service.Responded {| http.status := http.StatusOK;
                          http.contentType := EmptyString;
                          http.body := EmptyString |}
   ∧ trace env h
     = update :: invalidate
         :: match env invalidate with
            | Some err =>
                [service.log_Printf
                   ("error in clean available currencies: " +:+ err)]
            | None => []
            end)
  ∧ (∀ err, env update = Some err →
       run env h
       = ([update],
          service.Responded
            (http.Error (Wrap err "error in update currency status")
                        http.StatusInternalServerError))).
Proof.
  apply (@ban_request_flow CodeToCurrency banEUR
           (answering
              {| clock := clock idle; availableList := Ok None;
                 lastRate := Ok None; timeline := Ok None;
                 cacheWrites := Some "deleted no info";
                 banRows := Ok rows; banUpdate := None;
                 providerBody := Err "no route";
                 forecastBody := Err "no route" |})
           {| http.Query := ∅; http.Body := "{currency:EUR,banned:true}" |}
           {| service.req_Currency := "EUR"; service.req_Banned := true |}).
  - reflexivity.
  - vm_compute. reflexivity.
Defined.

(** A cached rate dated 2024-01-02, on that day. *)
Lemma current_rate_served_from_cache_witness :
  let cached :=
    {| Base := "USD"; Second := "EUR"; Rate := 0.875%float;
       Date := time.Date 2024 1 2 0 0 0 0 |} in
  let env :=
    answering
      {| clock := clock idle; availableList := Ok None;
         lastRate := Ok (Some cached); timeline := Ok None;
         cacheWrites := None; banRows := Ok rows; banUpdate := None;
         providerBody := Err "no route"; forecastBody := Err "no route" |} in
  run env
    (service.GetCurrentCurrencyRate CodeToCurrency cfg (rateRequest "USD" "EUR"))
  = ([service.redisCache (cache.GetCurrencyLastRate "USD" "EUR");
      service.time_Now],
     eval env (service.Encode cached "error in marshalling result")).
Proof.
  apply (current_rate_served_from_cache CodeToCurrency cfg
           (answering
              {| clock := clock idle; availableList := Ok None;
                 lastRate :=
                   Ok (Some {| Base := "USD"; Second := "EUR";
                               Rate := 0.875%float;
                               Date := time.Date 2024 1 2 0 0 0 0 |});
                 timeline := Ok None;
                 cacheWrites := None; banRows := Ok rows; banUpdate := None;
                 providerBody := Err "no route";
                 forecastBody := Err "no route" |})
           (rateRequest "USD" "EUR")
           {| Base := "USD"; Second := "EUR"; Rate := 0.875%float;
              Date := time.Date 2024 1 2 0 0 0 0 |}).
  - vm_compute. reflexivity.
  - vm_compute. reflexivity.
  - reflexivity.
  - vm_compute. reflexivity.
  - left. reflexivity.
Defined.

(** The series of the example, held by the cache. *)
Lemma timeline_served_from_cache_witness :
  trace
    (timelineCollaborators (time.Date 2024 1 2 9 0 0 0) (Some series) None
       (Err "no route") (Err "no route"))
    (service.GetTimelineCurrencyRate CodeToCurrency cfg
       (timelineRequest "USD" "EUR" "2024-01-10" "2024-01-20"))
  = [service.redisCache (cache.GetTimestampRate "USD" "EUR")].
Proof.
  apply (timeline_served_from_cache CodeToCurrency cfg
           (timelineCollaborators (time.Date 2024 1 2 9 0 0 0) (Some series)
              None (Err "no route") (Err "no route"))
           (timelineRequest "USD" "EUR" "2024-01-10" "2024-01-20")
           (time.Date 2024 1 10 0 0 0 0) (time.Date 2024 1 20 0 0 0 0) series).
  - vm_compute. reflexivity.
  - vm_compute. reflexivity.
  - vm_compute. reflexivity.
  - vm_compute. reflexivity.
  - reflexivity.
Defined.



End handler_extras.
(** * More of the availability flow *)

Module availability_extras.

Import currency_helpers availability.

Lemma String_ltb_asym a b :
  String.ltb a b = true → String.ltb b a = true → False.
Proof.
  unfold String.ltb. rewrite (String.compare_antisym a b).
  destruct (String.compare b a); cbn; discriminate.
Qed.

Lemma bannedFirstThenCode_asym x y :
  spec.bannedFirstThenCode x y → spec.bannedFirstThenCode y x → False.
Proof.
  unfold spec.bannedFirstThenCode.
  intros [[Hx Hy]|[Hb Hlt]] [[Hy' Hx']|[Hb' Hlt']]; try congruence.
  exact (String_ltb_asym _ _ Hlt Hlt').
Qed.

(** A row whose code no other row has is found in [cur2banMap]. *)
Lemma cur2banMap_row curr2ban row :
  NoDup (Currency_ <$> curr2ban) → row ∈ curr2ban →
  cur2banMap curr2ban !! Currency_ row = Some row.
Proof.
  unfold cur2banMap.
  induction curr2ban as [|last rows IH] using rev_ind; intros Hnd Hin.
  { apply elem_of_nil in Hin. destruct Hin. }
  rewrite fmap_app in Hnd. apply NoDup_app in Hnd.
  destruct Hnd as (Hnd & Hdisj & _).
  rewrite foldl_app. cbn [foldl].
  apply elem_of_app in Hin. destruct Hin as [Hin|Hin].
  - rewrite lookup_insert_ne; [apply IH; assumption|].
    intros Heq. apply (Hdisj (Currency_ row)).
    + apply list_elem_of_fmap. eauto.
    + rewrite <- Heq. cbn. apply list_elem_of_here.
  - apply list_elem_of_singleton in Hin. subst row. apply lookup_insert_eq.
Qed.

Section GetAvailableCurrencies.

Variable CodeToCurrency : gmap CurrencyCode Currency.

Context `{!json.JSON (slice CurrencyWithBanStatus)}.

Variable env : ∀ e : service.Effect, service.ans e.

(** The list the handler answers with on a cache miss. *)
Lemma miss_result (range1 range2 : list CurrencyCode)
    (curr2ban : list CurrencyWithBanStatus) (r : http.Request) :
  range1 ≠ [] →
  env (service.redisCache cache.GetAvailableCurrencies) = Ok None →
  env (service.db_SelectContext range1) = Ok curr2ban →
  eval env (service.GetAvailableCurrencies range1 range2 r)
  = eval env (service.Encode
                (Some (sort.SliceStable service.less (entries curr2ban range2)))
                "error in marshalling currencies").
Proof.
  intros Hne Hmiss Hrows. unfold service.GetAvailableCurrencies.
  cbn zeta. cbn [eval bind mbind prog_bind call]. rewrite Hmiss.
  destruct range1 as [|c range1']; [contradiction|].
  cbn [service.sqlx_In eval bind mbind prog_bind call]. rewrite Hrows.
  fold (cur2banMap curr2ban). fold (entries curr2ban range2).
  generalize (sort.SliceStable service.less (entries curr2ban range2)).
  intros result.
  cbn [eval bind mbind prog_bind call].
  destruct (env (service.redisCache (cache.SetAvailableCurrencies _)));
    cbn [eval bind mbind mret prog_bind prog_ret call]; reflexivity.
Qed.

Lemma registry_range_nonempty (range : list CurrencyCode) :
  CodeToCurrency ≠ ∅ → range ≡ₚ (map_to_list CodeToCurrency).*1 → range ≠ [].
Proof.
  intros Hne Hperm ->. apply Permutation_nil in Hperm.
  apply fmap_nil_inv, map_to_list_empty_iff in Hperm. contradiction.
Qed.

Lemma sorted_entries (curr2ban : list CurrencyWithBanStatus)
    (range : list CurrencyCode) :
  range ≡ₚ (map_to_list CodeToCurrency).*1 →
  StronglySorted spec.bannedFirstThenCode
    (sort.SliceStable service.less (entries curr2ban range)).
Proof.
  intros Hperm. apply availability_claims.sorted_bannedFirstThenCode.
  - rewrite (sort_facts.SliceStable_Permutation service.less),
      availability_claims.entries_codes, Hperm.
    apply NoDup_fst_map_to_list.
  - apply sort_facts.SliceStable_sorted;
      [apply availability_claims.less_total|apply availability_claims.less_trans].
Qed.

(** X20.  The answer on a cache miss does not depend on the order in
    which the two loops visit the registry: whatever the two orders, the
    handler answers alike, provided the ban store returns the same rows
    for both orders of the codes. *)
Theorem available_independent_of_iteration_order
    (range1 range2 range1' range2' : list CurrencyCode)
    (curr2ban : list CurrencyWithBanStatus) (r : http.Request) :
  CodeToCurrency ≠ ∅ →
  range1 ≡ₚ (map_to_list CodeToCurrency).*1 →
  range2 ≡ₚ (map_to_list CodeToCurrency).*1 →
  range1' ≡ₚ (map_to_list CodeToCurrency).*1 →
  range2' ≡ₚ (map_to_list CodeToCurrency).*1 →
  env (service.redisCache cache.GetAvailableCurrencies) = Ok None →
  env (service.db_SelectContext range1) = Ok curr2ban →
  env (service.db_SelectContext range1') = Ok curr2ban →
  eval env (service.GetAvailableCurrencies range1 range2 r)
  = eval env (service.GetAvailableCurrencies range1' range2' r).
Proof.
  intros Hne Hr1 Hr2 Hr1' Hr2' Hmiss Hrows Hrows'.
  rewrite (miss_result range1 range2 curr2ban r
             (registry_range_nonempty range1 Hne Hr1) Hmiss Hrows).
  rewrite (miss_result range1' range2' curr2ban r
             (registry_range_nonempty range1' Hne Hr1') Hmiss Hrows').
  f_equal. f_equal. f_equal.
  apply (StronglySorted_unique_strong spec.bannedFirstThenCode).
  - intros x1 x2 _ _ H12 H21.
    destruct (bannedFirstThenCode_asym x1 x2 H12 H21).
  - apply sorted_entries. exact Hr2.
  - apply sorted_entries. exact Hr2'.
  - rewrite !(sort_facts.SliceStable_Permutation service.less).
    unfold entries. apply fmap_Permutation. rewrite Hr2, Hr2'. reflexivity.
Qed.

(** X21.  On a cache miss every row of the ban store for a registered
    code is in the answer as it is, flag included, when no two rows have
    the same code. *)
Theorem available_carries_store_rows
    (range1 range2 : list CurrencyCode)
    (curr2ban : list CurrencyWithBanStatus) (r : http.Request) :
  CodeToCurrency ≠ ∅ →
  range1 ≡ₚ (map_to_list CodeToCurrency).*1 →
  range2 ≡ₚ (map_to_list CodeToCurrency).*1 →
  env (service.redisCache cache.GetAvailableCurrencies) = Ok None →
  env (service.db_SelectContext range1) = Ok curr2ban →
  NoDup (Currency_ <$> curr2ban) →
  ∃ result : list CurrencyWithBanStatus,
    eval env (service.GetAvailableCurrencies range1 range2 r)
    = eval env (service.Encode (Some result) "error in marshalling currencies")
    ∧ ∀ row, row ∈ curr2ban →
             is_Some (CodeToCurrency !! Currency_ row) → row ∈ result.
Proof.
  intros Hne Hr1 Hr2 Hmiss Hrows Hnd.
  exists (sort.SliceStable service.less (entries curr2ban range2)).
  split.
  - apply miss_result; [|assumption..].
    exact (registry_range_nonempty range1 Hne Hr1).
  - intros row Hrow [cur Hreg].
    rewrite (sort_facts.SliceStable_Permutation service.less).
    unfold entries. apply list_elem_of_fmap. exists (Currency_ row).
    split.
    + rewrite (cur2banMap_row curr2ban row Hnd Hrow). reflexivity.
    + rewrite Hr2. apply list_elem_of_fmap.
      exists (Currency_ row, cur). split; [reflexivity|].
      apply elem_of_map_to_list. exact Hreg.
Qed.

End GetAvailableCurrencies.

Import example.

Lemma available_independent_of_iteration_order_witness :
  let env :=
    collaborators (time.Date 2024 1 2 9 0 0 0) None None (Err "no route") in
  eval env
    (service.GetAvailableCurrencies ["GBP"; "USD"; "EUR"]
       ["GBP"; "USD"; "EUR"] (rateRequest EmptyString EmptyString))
  = eval env
      (service.GetAvailableCurrencies ["EUR"; "GBP"; "USD"]
         ["USD"; "EUR"; "GBP"] (rateRequest EmptyString EmptyString)).
Proof.
  apply (available_independent_of_iteration_order CodeToCurrency
           (collaborators (time.Date 2024 1 2 9 0 0 0) None None
              (Err "no route"))
           ["GBP"; "USD"; "EUR"] ["GBP"; "USD"; "EUR"]
           ["EUR"; "GBP"; "USD"] ["USD"; "EUR"; "GBP"] rows
           (rateRequest EmptyString EmptyString)).
  - intros H. apply (f_equal (λ m : gmap CurrencyCode Currency, m !! "USD")) in H.
    vm_compute in H. discriminate H.
  - vm_compute. reflexivity.
  - vm_compute. reflexivity.
  - vm_compute. apply (Permutation_cons_append ["GBP"; "USD"] "EUR").
  - vm_compute. apply Permutation_sym.
    apply (Permutation_cons_append ["USD"; "EUR"] "GBP").
  - reflexivity.
  - reflexivity.
  - reflexivity.
Defined.

Lemma available_carries_store_rows_witness :
  let env :=
    collaborators (time.Date 2024 1 2 9 0 0 0) None None (Err "no route") in
  ∃ result : list CurrencyWithBanStatus,
    eval env
      (service.GetAvailableCurrencies ["GBP"; "USD"; "EUR"]
         ["GBP"; "USD"; "EUR"] (rateRequest EmptyString EmptyString))
    = eval env (service.Encode (Some result) "error in marshalling currencies")
    ∧ ∀ row, row ∈ rows →
             is_Some (CodeToCurrency !! Currency_ row) → row ∈ result.
Proof.
  apply (available_carries_store_rows CodeToCurrency
           (collaborators (time.Date 2024 1 2 9 0 0 0) None None
              (Err "no route"))
           ["GBP"; "USD"; "EUR"] ["GBP"; "USD"; "EUR"] rows
           (rateRequest EmptyString EmptyString)).
  - intros H. apply (f_equal (λ m : gmap CurrencyCode Currency, m !! "USD")) in H.
    vm_compute in H. discriminate H.
  - vm_compute. reflexivity.
  - vm_compute. reflexivity.
  - reflexivity.
  - reflexivity.
  - vm_compute. apply NoDup_cons. split.
    + intros Hin. apply list_elem_of_singleton in Hin. discriminate Hin.
    + apply NoDup_singleton.
Defined.

End availability_extras.
(** * The freshness test on calendar dates, and the configuration *)

Module freshness_extras.

Import currency_helpers time_facts.

(** X22.  For a cached rate dated at the midnight of a date of the
    calendar and a clock reading the date [(nYear, nMonth, nDay)], the
    cached rate is used when it is dated in an earlier year, in an
    earlier month of the year, or on the day itself; a rate dated on an
    earlier day of the month is not. *)
Theorem cachedRateIsUsed_dates
    (rYear rMonth rDay nYear nMonth nDay : Z) (now : time.Time) :
  spec.validDate rYear rMonth rDay →
  time.Date_of now = (nYear, nMonth, nDay) →
  let cached := time.Date rYear rMonth rDay 0 0 0 0 in
  (service.cachedRateIsUsed cached now = true
   ↔ rYear < nYear
     ∨ (rYear = nYear ∧ rMonth < nMonth)
     ∨ (rYear = nYear ∧ rMonth = nMonth ∧ rDay = nDay))
  ∧ (rYear = nYear → rMonth = nMonth → rDay < nDay →
     service.cachedRateIsUsed cached now = false).
Proof.
  intros (Hy & Hm & Hd) Hnow. cbv zeta.
  destruct (absDate_Date rYear rMonth rDay Hy Hm Hd) as (_ & Hof & _).
  unfold service.cachedRateIsUsed. rewrite Hof, Hnow.
  split.
  - rewrite !orb_true_iff, !andb_true_iff, !Z.ltb_lt, !Z.eqb_eq. tauto.
  - intros -> -> Hlt.
    rewrite Z.ltb_irrefl, Z.eqb_refl. cbn.
    rewrite Z.ltb_irrefl, Z.eqb_refl. cbn.
    apply Z.eqb_neq. lia.
Qed.

Lemma cachedRateIsUsed_dates_witness :
  let cached := time.Date 2024 1 1 0 0 0 0 in
  let now := time.Date 2024 1 2 9 0 0 0 in
  (service.cachedRateIsUsed cached now = true
   ↔ 2024 < 2024
     ∨ (2024 = 2024 ∧ 1 < 1)
     ∨ (2024 = 2024 ∧ 1 = 1 ∧ 1 = 2))
  ∧ (2024 = 2024 → 1 = 1 → 1 < 2 →
     service.cachedRateIsUsed cached now = false).
Proof.
  apply (cachedRateIsUsed_dates 2024 1 1 2024 1 2 (time.Date 2024 1 2 9 0 0 0)).
  - unfold spec.validDate. vm_compute. repeat split; intros H; discriminate H.
  - vm_compute. reflexivity.
Defined.

End freshness_extras.

Module config_extras.

Import config_init.

Section InitConfig.

Variable LookupEnv : string → option string.
Variable ParseDuration : string → result Z.

(** X23.  [InitConfig] succeeds exactly when each of the ten variables is
    set and each of the three durations parses; the configuration then
    holds the values of the variables and the parsed durations. *)
Theorem InitConfig_succeeds_iff (c : Config) :
  InitConfig LookupEnv ParseDuration = Ok c
  ↔ LookupEnv "PG_HOST" = Some (DBHost c)
    ∧ LookupEnv "PG_PORT" = Some (DBPort c)
    ∧ LookupEnv "PG_WALLET_DATABASE" = Some (Database c)
    ∧ LookupEnv "PG_USER" = Some (DBUser c)
    ∧ LookupEnv "PG_PASS" = Some (DBPass c)
    ∧ (∃ s, LookupEnv "PG_TIMEOUT" = Some s
            ∧ ParseDuration s = Ok (DBTimeout c))
    ∧ LookupEnv "REDIS_PORT" = Some (CachePort c)
    ∧ (∃ s, LookupEnv "REDIS_TIMEOUT" = Some s
            ∧ ParseDuration s = Ok (CacheTimeout c))
    ∧ LookupEnv "CBR_API_URL" = Some (ExchangerAPIURL c)
    ∧ (∃ s, LookupEnv "CBR_API_TIMEOUT" = Some s
            ∧ ParseDuration s = Ok (ExchangerAPITimeout c)).
Proof.
  unfold InitConfig. split.
  - destruct (LookupEnv "PG_HOST"); [|discriminate].
    destruct (LookupEnv "PG_PORT"); [|discriminate].
    destruct (LookupEnv "PG_WALLET_DATABASE"); [|discriminate].
    destruct (LookupEnv "PG_USER"); [|discriminate].
    destruct (LookupEnv "PG_PASS"); [|discriminate].
    destruct (LookupEnv "PG_TIMEOUT") as [t1|]; [|discriminate].
    destruct (ParseDuration t1) eqn:E1; [|discriminate].
    destruct (LookupEnv "REDIS_PORT"); [|discriminate].
    destruct (LookupEnv "REDIS_TIMEOUT") as [t2|]; [|discriminate].
    destruct (ParseDuration t2) eqn:E2; [|discriminate].
    destruct (LookupEnv "CBR_API_URL"); [|discriminate].
    destruct (LookupEnv "CBR_API_TIMEOUT") as [t3|]; [|discriminate].
    destruct (ParseDuration t3) eqn:E3; [|discriminate].
    intros [= <-]. cbn. repeat split; eauto.
  - intros (-> & -> & -> & -> & -> & (s1 & -> & ->) & -> & (s2 & -> & ->)
            & -> & (s3 & -> & ->)).
    destruct c; reflexivity.
Qed.

(** X24.  When any of the ten variables is missing, [InitConfig] fails,
    whatever the others hold.  The error for a missing [PG_HOST] names
    [PG_ADDR], a variable [InitConfig] never reads. *)
Theorem InitConfig_missing_variable (name : string) :
  In name variables → LookupEnv name = None →
  (∃ err, InitConfig LookupEnv ParseDuration = Err err)
  ∧ (LookupEnv "PG_HOST" = None →
     InitConfig LookupEnv ParseDuration = Err "PG_ADDR not found").
Proof.
  intros Hin Hmissing. split.
  - unfold InitConfig, variables in *. cbn [In] in Hin.
    destruct Hin as [<-|[<-|[<-|[<-|[<-|[<-|[<-|[<-|[<-|[<-|[]]]]]]]]]]];
      rewrite ?Hmissing;
      repeat match goal with
             | |- ∃ err, Err _ = Err err => eexists; reflexivity
             | |- context [match LookupEnv ?v with _ => _ end] =>
                 destruct (LookupEnv v) eqn:?; try discriminate
             | |- context [match ParseDuration ?v with _ => _ end] =>
                 destruct (ParseDuration v)
             end.
  - intros Hhost. unfold InitConfig. rewrite Hhost. reflexivity.
Qed.

End InitConfig.

(** The environment of docker-compose.yaml. *)
Lemma InitConfig_succeeds_iff_witness :
  LookupEnv_compose "PG_HOST" = Some "postgres"
  ∧ LookupEnv_compose "PG_PORT" = Some "5432"
  ∧ LookupEnv_compose "PG_WALLET_DATABASE" = Some "wallet_service"
  ∧ LookupEnv_compose "PG_USER" = Some "postgres"
  ∧ LookupEnv_compose "PG_PASS" = Some "postgres"
  ∧ (∃ s, LookupEnv_compose "PG_TIMEOUT" = Some s
          ∧ composeDurations s = Ok 200000000)
  ∧ LookupEnv_compose "REDIS_PORT" = Some "6379"
  ∧ (∃ s, LookupEnv_compose "REDIS_TIMEOUT" = Some s
          ∧ composeDurations s = Ok 200000000)
  ∧ LookupEnv_compose "CBR_API_URL" = Some "https://api.exchangerate.host"
  ∧ (∃ s, LookupEnv_compose "CBR_API_TIMEOUT" = Some s
          ∧ composeDurations s = Ok 5000000000).
Proof.
  apply (proj1 (InitConfig_succeeds_iff LookupEnv_compose composeDurations
                  {| DBHost := "postgres"; DBPort := "5432";
                     Database := "wallet_service"; DBUser := "postgres";
                     DBPass := "postgres"; DBTimeout := 200000000;
                     CachePort := "6379"; CacheTimeout := 200000000;
                     ExchangerAPIURL := "https://api.exchangerate.host";
                     ExchangerAPITimeout := 5000000000 |})).
  vm_compute. reflexivity.
Defined.

(** An environment in which nothing is set. *)
Lemma InitConfig_missing_variable_witness :
  (∃ err, InitConfig (λ _, None) composeDurations = Err err)
  ∧ ((λ _ : string, @None string) "PG_HOST" = None →
     InitConfig (λ _, None) composeDurations = Err "PG_ADDR not found").
Proof.
  apply (InitConfig_missing_variable (λ _, None) composeDurations "REDIS_PORT").
  - vm_compute. tauto.
  - reflexivity.
Defined.

End config_extras.
